(** * SDC4 instance pipeline: builder, corrector and projections

    A shallow embedding of the XML instance pipeline of the SDC4 example
    project:

    - [statepopulation/utils/xml_builder.py]             (class XMLBuilder)
    - [test_data3/utils/sdc_validator.py]                (class SDCValidator)
    - [test_data3/utils/json_extractor.py]               (class JSONExtractor)
    - [statepopulation/utils/json_instance_generator.py] (class JSONInstanceGenerator)
    - [statepopulation/utils/rdf_extractor.py]           (class RDFExtractor)

    Python [str] is modelled by [string] (a sequence of 8-bit characters);
    an ordered [dict] by an association list in insertion order; an XML
    element object by a finite tree; a reference to a node of a tree that is
    mutated in place by the path that leads to it from the root. *)

From Stdlib Require Import List String Ascii Bool Arith ZArith Lia.
From Stdlib Require Import Numbers.DecimalString Numbers.DecimalZ Numbers.DecimalPos.
Import ListNotations.
Set Warnings "-register-all".
Local Open Scope string_scope.
Local Open Scope list_scope.

(* ================================================================== *)
(** ** Python string operations *)
(* ================================================================== *)

Module Py.

Definition dquote : ascii := ascii_of_nat 34.
Definition backslash : ascii := ascii_of_nat 92.
Definition LF : ascii := ascii_of_nat 10.
Definition CR : ascii := ascii_of_nat 13.
Definition TAB : ascii := ascii_of_nat 9.

Definition chr (c : ascii) : string := String c EmptyString.

(** [s.startswith(p)] *)
Definition startswith (s p : string) : bool := String.prefix p s.

(** [sub in s] *)
Fixpoint contains (sub s : string) : bool :=
  String.prefix sub s ||
  match s with
  | EmptyString => false
  | String _ s' => contains sub s'
  end.

(** [c in s] for a single character *)
Fixpoint has_char (c : ascii) (s : string) : bool :=
  match s with
  | EmptyString => false
  | String a s' => Ascii.eqb a c || has_char c s'
  end.

(** [s.lower()], on the letters A-Z. *)
Definition lower_ascii (c : ascii) : ascii :=
  let n := nat_of_ascii c in
  if ((65 <=? n)%nat && (n <=? 90)%nat)%bool then ascii_of_nat (n + 32) else c.

Fixpoint lower (s : string) : string :=
  match s with
  | EmptyString => EmptyString
  | String c s' => String (lower_ascii c) (lower s')
  end.

(** [s[n:]] *)
Fixpoint drop (n : nat) (s : string) : string :=
  match n, s with
  | O, _ => s
  | S n', String _ s' => drop n' s'
  | S _, EmptyString => EmptyString
  end.

(** [s.replace(old, new)] for a non-empty [old]: the occurrences of [old]
    are replaced from left to right, without overlap.  [skip] counts the
    characters of a match that are still to be passed over. *)
Fixpoint replace_from (skip : nat) (old new s : string) : string :=
  match s with
  | EmptyString => EmptyString
  | String c s' =>
      match skip with
      | S k => replace_from k old new s'
      | O =>
          if String.prefix old s
          then (new ++ replace_from (String.length old - 1) old new s')%string
          else String c (replace_from 0 old new s')
      end
  end.

Definition replace (old new s : string) : string :=
  match old with
  | EmptyString => s
  | _ => replace_from 0 old new s
  end.

(** [s.split(c)[0]]: the part before the first [c] (all of [s] when [c]
    does not occur). *)
Fixpoint split_head (c : ascii) (s : string) : string :=
  match s with
  | EmptyString => EmptyString
  | String a s' => if Ascii.eqb a c then EmptyString else String a (split_head c s')
  end.

(** The part after the first [c]; [None] when [c] does not occur. *)
Fixpoint after_first (c : ascii) (s : string) : option string :=
  match s with
  | EmptyString => None
  | String a s' => if Ascii.eqb a c then Some s' else after_first c s'
  end.

(** [s.split(c)[1]], defined when [c] occurs in [s]. *)
Definition split_second (c : ascii) (s : string) : option string :=
  match after_first c s with
  | Some r => Some (split_head c r)
  | None => None
  end.

(** [s.split(c)]: the pieces between the occurrences of [c]. *)
Fixpoint split (c : ascii) (s : string) : list string :=
  match s with
  | EmptyString => [EmptyString]
  | String a s' =>
      if Ascii.eqb a c then EmptyString :: split c s'
      else
        match split c s' with
        | [] => [String a EmptyString]
        | p :: rest => String a p :: rest
        end
  end.

(** ASCII white space, as removed by [s.strip()]. *)
Definition is_space (c : ascii) : bool :=
  let n := nat_of_ascii c in
  ((n =? 32)%nat || ((9 <=? n)%nat && (n <=? 13)%nat) || ((28 <=? n)%nat && (n <=? 31)%nat))%bool.

Fixpoint lstrip (s : string) : string :=
  match s with
  | EmptyString => EmptyString
  | String c s' => if is_space c then lstrip s' else s
  end.

(** [s.rstrip(chars)] for a character predicate. *)
Fixpoint rstrip_by (p : ascii -> bool) (s : string) : string :=
  match s with
  | EmptyString => EmptyString
  | String c s' =>
      match rstrip_by p s' with
      | EmptyString => if p c then EmptyString else String c EmptyString
      | r => String c r
      end
  end.

Definition strip (s : string) : string := rstrip_by is_space (lstrip s).

(** [sep.join(parts)] *)
Fixpoint join (sep : string) (parts : list string) : string :=
  match parts with
  | [] => EmptyString
  | [p] => p
  | p :: rest => (p ++ sep ++ join sep rest)%string
  end.

(** Truthiness of an optional string: [if x:] for [x] a [str] or [None]. *)
Definition truthy (x : option string) : bool :=
  match x with
  | Some (String _ _) => true
  | _ => false
  end.

(** [d.get(k)] on an ordered dictionary. *)
Fixpoint get {V : Type} (d : list (string * V)) (k : string) : option V :=
  match d with
  | [] => None
  | (k', v) :: d' => if String.eqb k' k then Some v else get d' k
  end.

(** [d[k] = v]: an existing key keeps its place, a new key goes last. *)
Fixpoint set {V : Type} (d : list (string * V)) (k : string) (v : V)
  : list (string * V) :=
  match d with
  | [] => [(k, v)]
  | (k', v') :: d' =>
      if String.eqb k' k then (k', v) :: d' else (k', v') :: set d' k v
  end.

Definition mem (k : string) (l : list string) : bool :=
  existsb (String.eqb k) l.

(** [int(s)] on 8-bit text: surrounding white space, an optional sign,
    decimal digits with single underscores between them.  [None] stands
    for [ValueError].  (CPython's limit on the number of digits and digits
    outside ASCII are not modelled.) *)
Definition digit_val (c : ascii) : option Z :=
  let n := nat_of_ascii c in
  if ((48 <=? n)%nat && (n <=? 57)%nat)%bool then Some (Z.of_nat (n - 48)) else None.

Fixpoint digits_acc (acc : Z) (after_digit : bool) (s : string) : option Z :=
  match s with
  | EmptyString => if after_digit then Some acc else None
  | String c s' =>
      if Ascii.eqb c "_" then
        if after_digit then digits_acc acc false s' else None
      else
        match digit_val c with
        | Some d => digits_acc (10 * acc + d)%Z true s'
        | None => None
        end
  end.

Definition int (s : string) : option Z :=
  match strip s with
  | EmptyString => None
  | String c r =>
      if Ascii.eqb c "+" then digits_acc 0 false r
      else if Ascii.eqb c "-" then option_map Z.opp (digits_acc 0 false r)
      else digits_acc 0 false (String c r)
  end.

(** [str(n)] for an [int]. *)
Definition str_int (z : Z) : string := NilZero.string_of_int (Z.to_int z).

(** [str(b)] for a [bool]. *)
Definition str_bool (b : bool) : string := if b then "True" else "False".

(** Exceptions raised by the modelled code. *)
Inductive exn : Type := ValueError | TypeError.

(** A computation that returns or raises. *)
Inductive res (A : Type) : Type :=
| Ret (a : A)
| Raise (e : exn).
Arguments Ret {A} a.
Arguments Raise {A} e.

Definition bind {A B : Type} (m : res A) (k : A -> res B) : res B :=
  match m with
  | Ret a => k a
  | Raise e => Raise e
  end.

End Py.

Notation "x <- m ;; k" := (Py.bind m (fun x => k))
  (at level 61, m at next level, right associativity).

(* ================================================================== *)
(** ** Element trees *)
(* ================================================================== *)

(** An element of [xml.etree.ElementTree] or [lxml.etree]: tag (in the
    libraries' [{uri}local] notation when namespaced), attributes, the text
    before the first child, and the children.  [lxml] keeps comments as
    nodes of the tree; the default [ElementTree] parser drops them.  The
    [tail] text of a node is never read by the modelled code and is left
    out. *)
Inductive Element : Type :=
| Elem (tag : string) (attrib : list (string * string))
       (text : option string) (children : list Element)
| Comment (body : string).

(** Induction on a tree, with the hypothesis for every child. *)
Fixpoint Element_rect' (P : Element -> Prop)
  (HC : forall b, P (Comment b))
  (HE : forall t a x kids, Forall P kids -> P (Elem t a x kids))
  (e : Element) : P e :=
  match e with
  | Comment b => HC b
  | Elem t a x kids =>
      HE t a x kids
        ((fix all (l : list Element) : Forall P l :=
            match l with
            | [] => Forall_nil P
            | k :: l' => Forall_cons k (Element_rect' P HC HE k) (all l')
            end) kids)
  end.

Definition path : Type := list nat.

(** [x if x is not None else d] *)
Definition or_default {A : Type} (x : option A) (d : A) : A :=
  match x with Some a => a | None => d end.

Module ET.

Definition tag (e : Element) : option string :=
  match e with Elem t _ _ _ => Some t | Comment _ => None end.

Definition text (e : Element) : option string :=
  match e with Elem _ _ x _ => x | Comment b => Some b end.

Definition children (e : Element) : list Element :=
  match e with Elem _ _ _ k => k | Comment _ => [] end.

(** [elem.get(name)] *)
Definition attr (e : Element) (name : string) : option string :=
  match e with Elem _ a _ _ => Py.get a name | Comment _ => None end.

Definition has_tag (name : string) (e : Element) : bool :=
  match e with Elem t _ _ _ => String.eqb t name | Comment _ => false end.

(** [elem.iter()]: the element and its descendants in document order. *)
Fixpoint iter (e : Element) : list Element :=
  match e with
  | Elem _ _ _ kids => e :: flat_map iter kids
  | Comment _ => [e]
  end.

Definition descendants (e : Element) : list Element :=
  flat_map iter (children e).

(** [elem.find('.//name')]: the first proper descendant with that tag. *)
Definition find (e : Element) (name : string) : option Element :=
  List.find (has_tag name) (descendants e).

(** [elem.findall('.//name')] *)
Definition findall (e : Element) (name : string) : list Element :=
  List.filter (has_tag name) (descendants e).

(** References into a tree.  [first_path p e] is the path of the first node
    of [iter e] that satisfies [p]. *)
Fixpoint first_path (p : Element -> bool) (e : Element) : option path :=
  if p e then Some []
  else
    match e with
    | Elem _ _ _ kids =>
        (fix scan (i : nat) (l : list Element) : option path :=
           match l with
           | [] => None
           | k :: l' =>
               match first_path p k with
               | Some q => Some (i :: q)
               | None => scan (S i) l'
               end
           end) 0 kids
    | Comment _ => None
    end.

Fixpoint first_path_in (p : Element -> bool) (i : nat) (l : list Element)
  : option path :=
  match l with
  | [] => None
  | k :: l' =>
      match first_path p k with
      | Some q => Some (i :: q)
      | None => first_path_in p (S i) l'
      end
  end.

(** The reference returned by [elem.find('.//name')], relative to [elem]. *)
Definition find_path (e : Element) (name : string) : option path :=
  first_path_in (has_tag name) 0 (children e).

(** Dereferencing. *)
Fixpoint node (e : Element) (p : path) : option Element :=
  match p with
  | [] => Some e
  | i :: q =>
      match nth_error (children e) i with
      | Some k => node k q
      | None => None
      end
  end.

Fixpoint replace_nth {A : Type} (l : list A) (i : nat) (x : A) : list A :=
  match l, i with
  | [], _ => []
  | _ :: l', O => x :: l'
  | a :: l', S j => a :: replace_nth l' j x
  end.

Fixpoint remove_nth {A : Type} (l : list A) (i : nat) : list A :=
  match l, i with
  | [], _ => []
  | _ :: l', O => l'
  | a :: l', S j => a :: remove_nth l' j
  end.

(** The tree after the node at [p] has been mutated into [f node]. *)
Fixpoint update (e : Element) (p : path) (f : Element -> Element) : Element :=
  match p with
  | [] => f e
  | i :: q =>
      match e with
      | Elem t a x kids =>
          match nth_error kids i with
          | Some k => Elem t a x (replace_nth kids i (update k q f))
          | None => e
          end
      | Comment _ => e
      end
  end.

(** [elem.remove(sub)] for a node [sub] referenced from [elem] by [p]:
    only a direct child can be removed, anything else raises
    [ValueError]. *)
Definition remove (e : Element) (p : path) : Py.res Element :=
  match e, p with
  | Elem t a x kids, [i] =>
      if (i <? List.length kids)%nat then Py.Ret (Elem t a x (remove_nth kids i))
      else Py.Raise Py.ValueError
  | _, _ => Py.Raise Py.ValueError
  end.

(** [ET.SubElement(elem, name)] followed by [sub.text = txt]. *)
Definition append_child (e : Element) (c : Element) : Element :=
  match e with
  | Elem t a x kids => Elem t a x (kids ++ [c])
  | Comment _ => e
  end.

(** [tag.split('}')[1] if '}' in tag else tag] *)
Definition strip_namespace (t : string) : string :=
  match Py.split_second "}" t with
  | Some l => l
  | None => t
  end.

End ET.

(* ================================================================== *)
(** ** A reference reader and writer of XML text *)
(* ================================================================== *)

(** The modelled classes take the parser and the serializer of the XML
    library as parameters.  [XML.parse] and [XML.serialize] are instances
    of these parameters on a subset of XML (declaration, comments,
    elements, attributes, name spaces, the five predefined entities), used
    to run the model on concrete documents. *)
Module XML.

Definition is_ws (c : ascii) : bool :=
  let n := nat_of_ascii c in
  ((n =? 32) || (n =? 9) || (n =? 10) || (n =? 13))%nat%bool.

Definition is_name_char (c : ascii) : bool :=
  let n := nat_of_ascii c in
  (((65 <=? n) && (n <=? 90)) || ((97 <=? n) && (n <=? 122))
   || ((48 <=? n) && (n <=? 58)) || (n =? 45) || (n =? 46) || (n =? 95))%nat%bool.

Fixpoint span (p : ascii -> bool) (s : string) : string * string :=
  match s with
  | EmptyString => (EmptyString, EmptyString)
  | String c s' =>
      if p c then let '(a, b) := span p s' in (String c a, b)
      else (EmptyString, s)
  end.

Definition skip_ws (s : string) : string := snd (span is_ws s).

(** The text before the first occurrence of [pat] and the text after it. *)
Fixpoint break_at (pat s : string) : option (string * string) :=
  if String.prefix pat s then Some (EmptyString, Py.drop (String.length pat) s)
  else
    match s with
    | EmptyString => None
    | String c s' =>
        match break_at pat s' with
        | Some (a, b) => Some (String c a, b)
        | None => None
        end
    end.

(** Character data with the predefined entities replaced. *)
Fixpoint decode (fuel : nat) (s : string) : option string :=
  match fuel with
  | O => match s with EmptyString => Some EmptyString | _ => None end
  | S fuel' =>
      match s with
      | EmptyString => Some EmptyString
      | String "&" r =>
          match break_at ";" r with
          | Some (name, rest) =>
              let ch :=
                if String.eqb name "amp" then Some "&"%char
                else if String.eqb name "lt" then Some "<"%char
                else if String.eqb name "gt" then Some ">"%char
                else if String.eqb name "quot" then Some Py.dquote
                else if String.eqb name "apos" then Some "'"%char
                else None in
              match ch, decode fuel' rest with
              | Some c, Some d => Some (String c d)
              | _, _ => None
              end
          | None => None
          end
      | String c r => option_map (String c) (decode fuel' r)
      end
  end.

Definition decode_text (s : string) : option string := decode (String.length s) s.

(** Name-space declarations in scope: prefix to URI; the empty prefix is
    the default name space. *)
Definition ns_env : Type := list (string * string).

Definition split_qname (raw : string) : string * string :=
  match break_at ":" raw with
  | Some (p, l) => (p, l)
  | None => (EmptyString, raw)
  end.

Definition resolve_tag (env : ns_env) (raw : string) : option string :=
  let '(p, l) := split_qname raw in
  match Py.get env p with
  | Some (String _ _ as uri) => Some ("{" ++ uri ++ "}" ++ l)%string
  | Some EmptyString => Some l
  | None => if String.eqb p "" then Some l else None
  end.

Definition resolve_attr (env : ns_env) (raw : string) : option string :=
  let '(p, l) := split_qname raw in
  if String.eqb p "" then Some l else resolve_tag env raw.

(** The attributes of a start tag, as written; the rest begins at [>] or
    [/>]. *)
Fixpoint raw_attrs (fuel : nat) (s : string) : option (list (string * string) * string) :=
  match fuel with
  | O => None
  | S fuel' =>
      let s1 := skip_ws s in
      match s1 with
      | String ">" _ => Some ([], s1)
      | String "/" _ => Some ([], s1)
      | _ =>
          let '(name, r) := span is_name_char s1 in
          match name, skip_ws r with
          | String _ _, String "=" r1 =>
              match skip_ws r1 with
              | String qc r2 =>
                  if (Ascii.eqb qc Py.dquote || Ascii.eqb qc "'")%bool then
                    match break_at (Py.chr qc) r2 with
                    | Some (v, r3) =>
                        match decode_text v, raw_attrs fuel' r3 with
                        | Some v', Some (rest, r4) =>
                            if existsb (fun kv => String.eqb (fst kv) name) rest
                            then None
                            else Some ((name, v') :: rest, r4)
                        | _, _ => None
                        end
                    | None => None
                    end
                  else None
              | EmptyString => None
              end
          | _, _ => None
          end
      end
  end.

Definition is_xmlns (name : string) : bool :=
  (String.eqb name "xmlns" || String.prefix "xmlns:" name)%bool.

Definition extend_env (env : ns_env) (attrs : list (string * string)) : ns_env :=
  fold_left
    (fun env kv =>
       let '(name, v) := kv in
       if String.eqb name "xmlns" then (EmptyString, v) :: env
       else if String.prefix "xmlns:" name then (Py.drop 6 name, v) :: env
       else env)
    attrs env.

Fixpoint resolve_attrs (env : ns_env) (attrs : list (string * string))
  : option (list (string * string)) :=
  match attrs with
  | [] => Some []
  | (name, v) :: rest =>
      if is_xmlns name then resolve_attrs env rest
      else
        match resolve_attr env name, resolve_attrs env rest with
        | Some n, Some r => Some ((n, v) :: r)
        | _, _ => None
        end
  end.

Definition add_text (acc : option string) (t : string) : option string :=
  match t with
  | EmptyString => acc
  | _ => Some (or_default acc "" ++ t)%string
  end.

Section Reader.

(** [lxml] keeps comments as nodes, [ElementTree] drops them. *)
Variable keep_comments : bool.

(** The content of an element up to its end tag.  [text] is the text
    collected before the first child; text after a child is tail text and
    is dropped. *)
Fixpoint content (element : ns_env -> string -> option (Element * string))
  (fuel : nat) (env : ns_env) (text : option string) (kids : list Element)
  (s : string) : option (option string * list Element * string) :=
  match fuel with
  | O => None
  | S fuel' =>
      if String.prefix "</" s then Some (text, rev kids, Py.drop 2 s)
      else if String.prefix "<!--" s then
        match break_at "-->" (Py.drop 4 s) with
        | Some (body, rest) =>
            content element fuel' env text
              (if keep_comments then Comment body :: kids else kids) rest
        | None => None
        end
      else
        match s with
        | String "<" r =>
            match element env r with
            | Some (e, rest) => content element fuel' env text (e :: kids) rest
            | None => None
            end
        | EmptyString => None
        | _ =>
            let '(t, rest) := span (fun c => negb (Ascii.eqb c "<")) s in
            match decode_text t with
            | Some t' =>
                content element fuel' env
                  (match kids with [] => add_text text t' | _ => text end)
                  kids rest
            | None => None
            end
        end
  end.

(** An element; [s] begins just after the [<] of its start tag. *)
Fixpoint element (fuel : nat) (env : ns_env) (s : string)
  : option (Element * string) :=
  match fuel with
  | O => None
  | S fuel' =>
      let '(raw, r) := span is_name_char s in
      match raw, raw_attrs (String.length r) r with
      | String _ _, Some (attrs, r1) =>
          let env' := extend_env env attrs in
          match resolve_tag env' raw, resolve_attrs env' attrs with
          | Some tag, Some attrib =>
              if String.prefix "/>" r1 then
                Some (Elem tag attrib None [], Py.drop 2 r1)
              else
                match r1 with
                | String ">" r2 =>
                    match content (element fuel') (String.length r2) env' None [] r2 with
                    | Some (text, kids, r3) =>
                        let '(close, r4) := span is_name_char r3 in
                        match skip_ws r4 with
                        | String ">" r5 =>
                            if String.eqb close raw
                            then Some (Elem tag attrib text kids, r5)
                            else None
                        | _ => None
                        end
                    | None => None
                    end
                | _ => None
                end
          | _, _ => None
          end
      | _, _ => None
      end
  end.

(** White space and comments around the root element. *)
Fixpoint misc (fuel : nat) (s : string) : option string :=
  match fuel with
  | O => None
  | S fuel' =>
      let s1 := skip_ws s in
      if String.prefix "<!--" s1 then
        match break_at "-->" (Py.drop 4 s1) with
        | Some (_, rest) => misc fuel' rest
        | None => None
        end
      else Some s1
  end.

(** A document: an optional declaration, then one root element. *)
Definition parse (s : string) : option Element :=
  let n := S (String.length s) in
  let s1 := skip_ws s in
  let after_decl :=
    if String.prefix "<?xml" s1 then option_map snd (break_at "?>" s1)
    else Some s1 in
  match after_decl with
  | None => None
  | Some s2 =>
      match misc n s2 with
      | Some (String "<" r) =>
          match element n [] r with
          | Some (root, rest) =>
              match misc n rest with
              | Some EmptyString => Some root
              | _ => None
              end
          | None => None
          end
      | _ => None
      end
  end.

End Reader.

(** Writing. *)
Definition escape_text (s : string) : string :=
  Py.replace ">" "&gt;" (Py.replace "<" "&lt;" (Py.replace "&" "&amp;" s)).

Definition escape_attr (s : string) : string :=
  Py.replace (Py.chr Py.dquote) "&quot;" (escape_text s).

(** A name in [{uri}local] notation is written with a prefix of its own,
    declared where the name is used. *)
Definition write_name (prefix t : string) : string * string :=
  match t with
  | String "{" r =>
      match break_at "}" r with
      | Some (uri, l) =>
          ((prefix ++ ":" ++ l)%string,
           (" xmlns:" ++ prefix ++ "=" ++ Py.chr Py.dquote ++ escape_attr uri
            ++ Py.chr Py.dquote)%string)
      | None => (t, EmptyString)
      end
  | _ => (t, EmptyString)
  end.

Fixpoint write_attrs (i : nat) (a : list (string * string)) : string :=
  match a with
  | [] => EmptyString
  | (k, v) :: rest =>
      let '(name, decl) := write_name ("a" ++ Py.str_int (Z.of_nat i)) k in
      (decl ++ " " ++ name ++ "=" ++ Py.chr Py.dquote ++ escape_attr v
       ++ Py.chr Py.dquote ++ write_attrs (S i) rest)%string
  end.

Fixpoint serialize (e : Element) : string :=
  match e with
  | Comment body => ("<!--" ++ body ++ "-->")%string
  | Elem t a x kids =>
      let '(name, decl) := write_name "ns0" t in
      ("<" ++ name ++ decl ++ write_attrs 0 a ++ ">" ++ escape_text (or_default x "")
       ++ String.concat "" (map serialize kids) ++ "</" ++ name ++ ">")%string
  end.

End XML.

(* ================================================================== *)
(** ** Exceptional-Value Corrector ([sdc_validator.py]) *)
(* ================================================================== *)

Module SDCValidator.

(** [_find_element_by_ct_id]: a reference to the first element of
    [tree.iter()] whose [ct-id] attribute equals [ct_id]. *)
Definition has_ct_id (ct_id : string) (e : Element) : bool :=
  match ET.attr e "ct-id" with
  | Some v => String.eqb v ct_id
  | None => false
  end.

Definition _find_element_by_ct_id (tree : Element) (ct_id : string)
  : option path :=
  ET.first_path (has_ct_id ct_id) tree.

(** [any(word in error_lower for word in words)] *)
Definition any_word_in (words : list string) (error_lower : string) : bool :=
  existsb (fun word => Py.contains word error_lower) words.

(** [_choose_ev_for_error] *)
Definition _choose_ev_for_error (error_msg : string) : string :=
  let error_lower := Py.lower error_msg in
  if any_word_in ["required"; "missing"; "mandatory"] error_lower then
    "NotPerformed"
  else if any_word_in ["type"; "format"; "pattern"] error_lower then
    "NoInformation"
  else if any_word_in ["range"; "constraint"; "bounds"; "limit"] error_lower then
    "Unknown"
  else if any_word_in ["refused"; "declined"] error_lower then
    "Refused"
  else if any_word_in ["not applicable"; "n/a"] error_lower then
    "NotApplicable"
  else
    "NoInformation".

(** The element appended to a corrected component. *)
Definition ev_element (ev_value : string) : Element :=
  Elem "exceptional-value" [] (Some ev_value) [].

(** The body of the loop of [auto_correct_with_evs] once the component has
    been located: the label is read, the value element removed, the
    exceptional value appended.  The label is [None] when the label element
    has no text. *)
Definition correct_component (elem : Element) (component_ct_id error_msg : string)
  : Py.res (Element * option string) :=
  let field_label :=
    match ET.find elem "label" with
    | Some label_elem => ET.text label_elem
    | None => Some component_ct_id
    end in
  elem1 <- match ET.find_path elem "value" with
           | Some value_elem => ET.remove elem value_elem
           | None => Py.Ret elem
           end ;;
  let ev_value := _choose_ev_for_error error_msg in
  Py.Ret (ET.append_child elem1 (ev_element ev_value), field_label).

(** One iteration of the loop over [errors.items()]. *)
Definition correct_one (st : Element * list (option string))
  (item : string * string) : Py.res (Element * list (option string)) :=
  let '(tree, corrected_fields) := st in
  let '(component_ct_id, error_msg) := item in
  match _find_element_by_ct_id tree component_ct_id with
  | None => Py.Ret st
  | Some p =>
      match ET.node tree p with
      | None => Py.Ret st
      | Some elem =>
          r <- correct_component elem component_ct_id error_msg ;;
          Py.Ret (ET.update tree p (fun _ => fst r),
                  corrected_fields ++ [snd r])
      end
  end.

Fixpoint correct_all (st : Element * list (option string))
  (errors : list (string * string)) : Py.res (Element * list (option string)) :=
  match errors with
  | [] => Py.Ret st
  | item :: rest => st' <- correct_one st item ;; correct_all st' rest
  end.

(** The loop of [auto_correct_with_evs] on the parsed tree. *)
Definition correct_tree (tree : Element) (errors : list (string * string))
  : Py.res (Element * list (option string)) :=
  correct_all (tree, []) errors.

Definition xml_declaration : string :=
  ("<?xml version=" ++ Py.chr Py.dquote ++ "1.0" ++ Py.chr Py.dquote ++
   " encoding=" ++ Py.chr Py.dquote ++ "UTF-8" ++ Py.chr Py.dquote ++ "?>" ++
   Py.chr Py.LF)%string.

Section Corrector.

(** [ET.fromstring]; [None] stands for [ET.ParseError]. *)
Variable fromstring : string -> option Element.
(** [ET.tostring(tree, encoding='unicode', method='xml')] *)
Variable tostring : Element -> string.

(** [auto_correct_with_evs] *)
Definition auto_correct_with_evs (xml_content : string)
  (errors : list (string * string)) : Py.res (string * list (option string)) :=
  match fromstring xml_content with
  | None => Py.Ret (xml_content, [])
  | Some tree =>
      r <- correct_tree tree errors ;;
      let corrected_xml := tostring (fst r) in
      let corrected_xml :=
        if Py.startswith (Py.strip xml_content) "<?xml"
        then (xml_declaration ++ corrected_xml)%string
        else corrected_xml in
      Py.Ret (corrected_xml, snd r)
  end.

End Corrector.

End SDCValidator.

(* ================================================================== *)
(** ** JSON values *)
(* ================================================================== *)

(** The values the projections report.  [F] stands for Python's [float];
    a dictionary keeps its insertion order. *)
Inductive json (F : Type) : Type :=
| JNone
| JBool (b : bool)
| JInt (z : Z)
| JFloat (f : F)
| JStr (s : string)
| JDict (items : list (string * json F)).
Arguments JNone {F}.
Arguments JBool {F} b.
Arguments JInt {F} z.
Arguments JFloat {F} f.
Arguments JStr {F} s.
Arguments JDict {F} items.

(** The static Field Metadata Table: one entry per key, holding the keys
    of the entry the code reads ([meta.get('label')], ...).  A key that is
    absent from the entry is [None]. *)
Record UnitsInfo : Type := {
  units_ct_id : option string;
  units_label : option string;
  units_symbols : list string;
  units_def_val : option string
}.

Record FieldMeta : Type := {
  meta_ct_id : option string;
  meta_label : option string;
  meta_type : option string;
  meta_adapter_ctid : option string;
  meta_units : option UnitsInfo;
  meta_temporal_types : option (list string)
}.

Definition FieldMetadata : Type := list (string * FieldMeta).

(** [not meta]: the entry is the empty dictionary. *)
Definition meta_is_empty (m : FieldMeta) : bool :=
  match meta_ct_id m, meta_label m, meta_type m, meta_adapter_ctid m,
        meta_units m, meta_temporal_types m with
  | None, None, None, None, None, None => true
  | _, _, _, _, _, _ => false
  end.

(** The per-field metadata collected from the form at run time
    ([metadata_dict.get(field_name, {})]).  The values are held as the text
    [str(x)] gives; an absent key is [None]. *)
Record FormMeta : Type := {
  form_act : option string;
  form_vtb : option string;
  form_vte : option string;
  form_tr : option string;
  form_mod : option string;
  form_location : option (option string * option string);
  form_units : option string;
  form_ev : option string
}.

Definition no_form_meta : FormMeta :=
  {| form_act := None; form_vtb := None; form_vte := None; form_tr := None;
     form_mod := None; form_location := None; form_units := None;
     form_ev := None |}.

(** A value of [form_data].  An object of a library class is given by what
    the code observes of it: [str(x)], its truth value, [x.strftime],
    [x.isoformat()], [int(x.total_seconds())]. *)
Inductive Value : Type :=
| VNone
| VStr (s : string)
| VBool (b : bool)
| VInt (z : Z)
| VFloat (str : string) (truth : bool)
| VDateTime (strftime : string -> string) (isoformat : string) (str : string)
| VDate (strftime : string -> string) (str : string)
| VTime (strftime : string -> string) (str : string)
| VTimedelta (total_seconds : Z) (truth : bool) (str : string).

(** [str(value)] *)
Definition str_of_value (v : Value) : string :=
  match v with
  | VNone => "None"
  | VStr s => s
  | VBool b => Py.str_bool b
  | VInt z => Py.str_int z
  | VFloat s _ => s
  | VDateTime _ _ s => s
  | VDate _ s => s
  | VTime _ s => s
  | VTimedelta _ _ s => s
  end.

(** [bool(value)] *)
Definition truth_of_value (v : Value) : bool :=
  match v with
  | VNone => false
  | VStr s => negb (String.eqb s "")
  | VBool b => b
  | VInt z => negb (Z.eqb z 0)
  | VFloat _ t => t
  | VDateTime _ _ _ => true
  | VDate _ _ => true
  | VTime _ _ => true
  | VTimedelta _ t _ => t
  end.

(** [value is not None and value != ''] *)
Definition is_supplied (v : Value) : bool :=
  match v with
  | VNone => false
  | VStr EmptyString => false
  | _ => true
  end.


(* ================================================================== *)
(** ** JSON Extractor, query-oriented ([json_extractor.py]) *)
(* ================================================================== *)

Module JSONExtractor.

Definition VALUE_ELEMENT_NAMES : list string :=
  [ "xdstring-value"; "xdboolean-value"; "xdcount-value"; "xdquantity-value";
    "xdfloat-value"; "xddouble-value"; "xdlink-value"; "xdfile-value";
    "xdordinal-value";
    "xdtemporal-date"; "xdtemporal-time"; "xdtemporal-datetime";
    "xdtemporal-duration"; "xdtemporal-day"; "xdtemporal-month";
    "xdtemporal-year"; "xdtemporal-year-month"; "xdtemporal-month-day" ].

(** The text of [elem.find('.//name')] when the element exists and its
    text is not empty. *)
Definition find_text (elem : Element) (name : string) : option string :=
  match ET.find elem name with
  | Some e => if Py.truthy (ET.text e) then ET.text e else None
  | None => None
  end.

(** The first non-empty text among the elements of the given names. *)
Fixpoint first_text (elem : Element) (names : list string) : option string :=
  match names with
  | [] => None
  | n :: rest =>
      match find_text elem n with
      | Some t => Some t
      | None => first_text elem rest
      end
  end.

Definition add_text {F : Type} (field_data : list (string * json F))
  (key : string) (t : option string) : list (string * json F) :=
  match t with
  | Some x => Py.set field_data key (JStr x)
  | None => field_data
  end.

Section Extractor.

Context {F : Type}.
(** [float(s)]; [None] stands for [ValueError]. *)
Variable float : string -> option F.
(** [str(x)] for a [float]. *)
Variable str_float : F -> string.
(** [ET.fromstring]; [None] stands for [ET.ParseError]. *)
Variable fromstring : string -> option Element.

(** [float(elem.text)]: [TypeError] on [None], [ValueError] on text
    that is not a number. *)
Definition float_of_text (t : option string) : Py.res F :=
  match t with
  | None => Py.Raise Py.TypeError
  | Some s =>
      match float s with
      | Some f => Py.Ret f
      | None => Py.Raise Py.ValueError
      end
  end.

(** [_parse_value] *)
Definition _parse_value (value_str : string) : json F :=
  if Py.mem (Py.lower value_str) ["true"; "false"] then
    JBool (String.eqb (Py.lower value_str) "true")
  else
    match (if Py.has_char "." value_str then None else Py.int value_str) with
    | Some z => JInt z
    | None =>
        match float value_str with
        | Some f => JFloat f
        | None => JStr value_str
        end
    end.

(** [_extract_field]; [Ret None] when the record would be empty. *)
Definition _extract_field (elem : Element)
  : Py.res (option (list (string * json F))) :=
  let field_data := add_text [] "label" (find_text elem "label") in
  match find_text elem "exceptional-value" with
  | Some ev => Py.Ret (Some (Py.set field_data "exceptional_value" (JStr ev)))
  | None =>
      let field_data :=
        match first_text elem VALUE_ELEMENT_NAMES with
        | Some value_text => Py.set field_data "value" (_parse_value value_text)
        | None => field_data
        end in
      let field_data := add_text field_data "units" (find_text elem "units") in
      let field_data :=
        add_text field_data "valid_time_begin" (find_text elem "valid-time-begin") in
      let field_data :=
        add_text field_data "valid_time_end" (find_text elem "valid-time-end") in
      field_data <-
        match ET.find elem "location" with
        | Some location_elem =>
            match ET.find location_elem "latitude",
                  ET.find location_elem "longitude" with
            | Some lat_elem, Some lon_elem =>
                lat <- float_of_text (ET.text lat_elem) ;;
                lon <- float_of_text (ET.text lon_elem) ;;
                Py.Ret (Py.set field_data "location"
                          (JDict [("latitude", JFloat lat);
                                  ("longitude", JFloat lon)]))
            | _, _ => Py.Ret field_data
            end
        | None => Py.Ret field_data
        end ;;
      Py.Ret (match field_data with [] => None | _ => Some field_data end)
  end.

(** [str(field_data['value'])] *)
Definition str_value (v : json F) : string :=
  match v with
  | JNone => "None"
  | JBool b => Py.str_bool b
  | JInt z => Py.str_int z
  | JFloat f => str_float f
  | JStr s => s
  | JDict _ => ""
  end.

Definition State : Type := (list (string * json F) * list string)%type.

(** The part of [_extract_fields_recursive] that looks at one element:
    [fields] and [search_parts] are updated when the element is a data
    field. *)
Definition visit (elem : Element) (st : State) : Py.res State :=
  match ET.tag elem with
  | None => Py.Ret st
  | Some t =>
      let tag_name := ET.strip_namespace t in
      if Py.startswith tag_name "ms-" then
        let ct_id := Py.drop 3 tag_name in
        let has_value :=
          (existsb (fun value_name =>
                      match ET.find elem value_name with
                      | Some _ => true
                      | None => false
                      end) VALUE_ELEMENT_NAMES
           || match ET.find elem "exceptional-value" with
              | Some _ => true
              | None => false
              end)%bool in
        if (has_value && negb (String.eqb ct_id ""))%bool then
          r <- _extract_field elem ;;
          match r with
          | Some field_data =>
              let '(fields, search_parts) := st in
              let fields := Py.set fields ct_id (JDict field_data) in
              let search_parts :=
                match Py.get field_data "value" with
                | Some v => (search_parts ++ [str_value v])%list
                | None => search_parts
                end in
              let search_parts :=
                match Py.get field_data "label" with
                | Some (JStr l) => (search_parts ++ [l])%list
                | _ => search_parts
                end in
              Py.Ret (fields, search_parts)
          | None => Py.Ret st
          end
        else Py.Ret st
      else Py.Ret st
  end.

(** [_extract_fields_recursive]: the element, then its children in
    order. *)
Fixpoint _extract_fields_recursive (elem : Element) (st : State)
  : Py.res State :=
  st1 <- visit elem st ;;
  match elem with
  | Elem _ _ _ kids =>
      (fix each (l : list Element) (st : State) : Py.res State :=
         match l with
         | [] => Py.Ret st
         | child :: l' =>
             st' <- _extract_fields_recursive child st ;; each l' st'
         end) kids st1
  | Comment _ => Py.Ret st1
  end.

Definition metadata_fields : list string :=
  [ "dm-label"; "dm-language"; "dm-encoding"; "creation_timestamp";
    "instance_version"; "current-state" ].

(** [_extract_metadata] *)
Definition _extract_metadata (tree : Element) : list (string * json F) :=
  let metadata :=
    match ET.attr tree "instance-id" with
    | Some v => [("instance_id", JStr v)]
    | None => []
    end in
  fold_left
    (fun metadata field =>
       match find_text tree field with
       | Some t => Py.set metadata (Py.replace "-" "_" field) (JStr t)
       | None => metadata
       end)
    metadata_fields metadata.

(** [extract] *)
Definition extract (xml_content : string) : Py.res (json F) :=
  match fromstring xml_content with
  | None =>
      Py.Ret (JDict [("metadata", JDict []); ("fields", JDict []);
                     ("search_text", JStr "")])
  | Some tree =>
      let metadata := _extract_metadata tree in
      st <- _extract_fields_recursive tree ([], []) ;;
      Py.Ret (JDict [("metadata", JDict metadata);
                     ("fields", JDict (fst st));
                     ("search_text", JStr (Py.join " " (snd st)))])
  end.

End Extractor.

End JSONExtractor.

(* ================================================================== *)
(** ** JSON Instance Generator, clean projection
       ([json_instance_generator.py]) *)
(* ================================================================== *)

Module JSONInstanceGenerator.

Definition PLACEHOLDER_PREFIX : string := "__PLACEHOLDER__".

Definition EV_CODES : list string :=
  [ "NI"; "MSK"; "INV"; "DER"; "UNC"; "OTH"; "NINF"; "PINF";
    "ASKR"; "NASK"; "NAV"; "NA"; "TRC"; "ASKU"; "UNK"; "QS" ].

Definition type_to_elem : list (string * string) :=
  [ ("XdString", "xdstring-value"); ("XdBoolean", "xdboolean-value");
    ("XdCount", "xdcount-value"); ("XdQuantity", "xdquantity-value");
    ("XdFloat", "xdfloat-value"); ("XdDouble", "xddouble-value");
    ("XdLink", "xdlink-value"); ("XdFile", "xdfile-value");
    ("XdOrdinal", "xdordinal-value") ].

Definition temporal_elem_names : list string :=
  [ "xdtemporal-date"; "xdtemporal-time"; "xdtemporal-datetime";
    "xdtemporal-duration"; "xdtemporal-day"; "xdtemporal-month";
    "xdtemporal-year"; "xdtemporal-year-month"; "xdtemporal-month-day" ].

Definition units_elem_names : list (string * string) :=
  [ ("XdCount", "xdcount-units"); ("XdQuantity", "xdquantity-units");
    ("XdFloat", "xdfloat-units"); ("XdDouble", "xddouble-units");
    ("XdOrdinal", "xdordinal-units") ].

(** The entry of [_ct_id_to_meta] for a key of the table: the field name
    (the label, or the key when the entry has no label) and the entry.
    (An entry is taken to hold no key [field_name] of its own.) *)
Definition ct_id_to_meta (field_metadata : FieldMetadata) (ct_id : string)
  : option (string * FieldMeta) :=
  match Py.get field_metadata ct_id with
  | Some meta => Some (or_default (meta_label meta) ct_id, meta)
  | None => None
  end.

(** [_extract_ev]: the first child whose local name is an EV code. *)
Fixpoint first_ev_code (kids : list Element) : option string :=
  match kids with
  | [] => None
  | child :: rest =>
      match ET.tag child with
      | Some t =>
          let tag := ET.strip_namespace t in
          if Py.mem tag EV_CODES then Some tag else first_ev_code rest
      | None => first_ev_code rest
      end
  end.

Definition _extract_ev (elem : Element) : option string :=
  first_ev_code (ET.children elem).

(** The loop over [temporal_elem_names] in [_extract_value]. *)
Fixpoint first_temporal_text (elem : Element) (names : list string)
  : option string :=
  match names with
  | [] => None
  | n :: rest =>
      match ET.find elem n with
      | Some value_elem =>
          match ET.text value_elem with
          | Some (String c r as text) =>
              if negb (Py.startswith text PLACEHOLDER_PREFIX) then Some text
              else first_temporal_text elem rest
          | _ => first_temporal_text elem rest
          end
      | None => first_temporal_text elem rest
      end
  end.

(** [_extract_units_value] *)
Definition _extract_units_value (elem : Element) (field_type : string)
  : option string :=
  match Py.get units_elem_names field_type with
  | None => None
  | Some units_elem_name =>
      match ET.find elem units_elem_name with
      | None => None
      | Some units_elem =>
          match ET.find units_elem "xdstring-value" with
          | None => None
          | Some value_elem =>
              match ET.text value_elem with
              | Some (String c r as text) =>
                  if Py.startswith text PLACEHOLDER_PREFIX then None
                  else Some text
              | _ => None
              end
          end
      end
  end.

Section Generator.

Context {F : Type}.
(** [float(s)]; [None] stands for [ValueError]. *)
Variable float : string -> option F.
(** [ET.fromstring]; [None] stands for [ET.ParseError]. *)
Variable fromstring : string -> option Element.

(** [_parse_value] *)
Definition _parse_value (value_str field_type : string) : json F :=
  if String.eqb field_type "XdBoolean" then
    JBool (String.eqb (Py.lower value_str) "true")
  else if Py.mem field_type ["XdCount"; "XdOrdinal"] then
    match Py.int value_str with
    | Some z => JInt z
    | None => JStr value_str
    end
  else if Py.mem field_type ["XdQuantity"; "XdFloat"; "XdDouble"] then
    match float value_str with
    | Some f => JFloat f
    | None => JStr value_str
    end
  else JStr value_str.

(** [_extract_value]; [None] when no value is reported. *)
Definition _extract_value (elem : Element) (field_type : string)
  : option (json F) :=
  if String.eqb field_type "XdTemporal" then
    option_map JStr (first_temporal_text elem temporal_elem_names)
  else
    let value_elem_name := or_default (Py.get type_to_elem field_type) "value" in
    match ET.find elem value_elem_name with
    | None => None
    | Some value_elem =>
        match ET.text value_elem with
        | Some (String c r as text) =>
            if Py.startswith text PLACEHOLDER_PREFIX then None
            else Some (_parse_value text field_type)
        | _ => None
        end
    end.

(** [_extract_field_data]; [None] when the record would be empty. *)
Definition _extract_field_data (elem : Element) (field_type : string)
  : option (list (string * json F)) :=
  let field_data :=
    match _extract_ev elem with
    | Some ev_data => [("ev", JStr ev_data)]
    | None => []
    end in
  let field_data :=
    match _extract_value elem field_type with
    | Some value => Py.set field_data "value" value
    | None => field_data
    end in
  let field_data :=
    match _extract_units_value elem field_type with
    | Some (String _ _ as units) => Py.set field_data "units" (JStr units)
    | _ => field_data
    end in
  match field_data with
  | [] => None
  | _ => Some field_data
  end.

Variable field_metadata : FieldMetadata.

(** The body of the loop of [_extract_fields] over [root.iter()]. *)
Definition extract_step (fields : list (string * json F)) (elem : Element)
  : list (string * json F) :=
  match ET.tag elem with
  | None => fields
  | Some t =>
      let tag := ET.strip_namespace t in
      if negb (Py.startswith tag "ms-") then fields
      else
        let ct_id := Py.replace "ms-" "" tag in
        match ct_id_to_meta field_metadata ct_id with
        | None => fields
        | Some (field_name, meta) =>
            let field_type := or_default (meta_type meta) "XdString" in
            match _extract_field_data elem field_type with
            | Some field_data => Py.set fields field_name (JDict field_data)
            | None => fields
            end
        end
  end.

(** [_extract_fields] *)
Definition _extract_fields (root : Element) : list (string * json F) :=
  fold_left extract_step (ET.iter root) [].

Definition metadata_elements : list (string * string) :=
  [ ("dm-label", "dm_label"); ("creation_timestamp", "created_at");
    ("instance_id", "instance_id") ].

(** [_extract_metadata] *)
Definition _extract_metadata (root : Element) : list (string * json F) :=
  let metadata :=
    match ET.tag root with
    | Some t =>
        let tag_name := ET.strip_namespace t in
        if Py.startswith tag_name "dm-"
        then [("dm_ct_id", JStr (Py.replace "dm-" "" tag_name))]
        else []
    | None => []
    end in
  fold_left
    (fun metadata elem =>
       match ET.tag elem with
       | Some t =>
           match Py.get metadata_elements (ET.strip_namespace t) with
           | Some key =>
               if Py.truthy (ET.text elem)
               then Py.set metadata key (JStr (or_default (ET.text elem) ""))
               else metadata
           | None => metadata
           end
       | None => metadata
       end)
    (ET.children root) metadata.

(** [generate] *)
Definition generate (xml_content : string) : json F :=
  match fromstring xml_content with
  | None => JDict []
  | Some root =>
      JDict [("metadata", JDict (_extract_metadata root));
             ("fields", JDict (_extract_fields root))]
  end.

End Generator.

End JSONInstanceGenerator.

(* ================================================================== *)
(** ** RDF Extractor ([rdf_extractor.py]) *)
(* ================================================================== *)

Module RDFExtractor.

Definition q : string := Py.chr Py.dquote.
Definition nl : string := Py.chr Py.LF.

Definition PREFIXES : string :=
  ("@prefix rdf: <http://www.w3.org/1999/02/22-rdf-syntax-ns#> ." ++ nl ++
   "@prefix rdfs: <http://www.w3.org/2000/01/rdf-schema#> ." ++ nl ++
   "@prefix xsd: <http://www.w3.org/2001/XMLSchema#> ." ++ nl ++
   "@prefix dc: <http://purl.org/dc/elements/1.1/> ." ++ nl ++
   "@prefix sdc4: <https://semanticdatacharter.com/ns/sdc4/> ." ++ nl ++
   "@prefix dm: <https://semanticdatacharter.com/ns/dm/> ." ++ nl ++
   "@prefix : <https://semanticdatacharter.com/ns/dm/> ." ++ nl ++ nl)%string.

Definition XSD_DATATYPES : list (string * string) :=
  [ ("XdString", "xsd:string"); ("XdBoolean", "xsd:boolean");
    ("XdCount", "xsd:integer"); ("XdOrdinal", "xsd:integer");
    ("XdQuantity", "xsd:decimal"); ("XdFloat", "xsd:float");
    ("XdDouble", "xsd:double"); ("XdTemporal", "xsd:dateTime");
    ("XdLink", "xsd:anyURI"); ("XdFile", "xsd:base64Binary") ].

Definition VALUE_ELEMENTS : list (string * string) :=
  [ ("XdString", "xdstring-value"); ("XdBoolean", "xdboolean-value");
    ("XdCount", "xdcount-value"); ("XdOrdinal", "xdordinal-value");
    ("XdQuantity", "xdquantity-value"); ("XdFloat", "xdfloat-value");
    ("XdDouble", "xddouble-value"); ("XdLink", "xdlink-value");
    ("XdFile", "xdfile-value") ].

Definition TEMPORAL_VALUE_ELEMENTS : list string :=
  [ "xdtemporal-date"; "xdtemporal-time"; "xdtemporal-datetime";
    "xdtemporal-duration"; "xdtemporal-day"; "xdtemporal-month";
    "xdtemporal-year"; "xdtemporal-year-month"; "xdtemporal-month-day" ].

Definition ev_codes : list string :=
  [ "NI"; "MSK"; "INV"; "DER"; "UNC"; "OTH"; "NINF"; "PINF";
    "ASKR"; "NASK"; "NAV"; "NA"; "TRC"; "ASKU"; "UNK"; "QS" ].

Definition units_elem_names : list (string * string) :=
  [ ("XdCount", "xdcount-units"); ("XdQuantity", "xdquantity-units");
    ("XdFloat", "xdfloat-units"); ("XdDouble", "xddouble-units");
    ("XdOrdinal", "xdordinal-units") ].

(** [_escape_turtle] on a string. *)
Definition escape_turtle_str (value : string) : string :=
  let value := Py.replace (Py.chr Py.backslash)
                 (Py.chr Py.backslash ++ Py.chr Py.backslash) value in
  let value := Py.replace (Py.chr Py.dquote)
                 (Py.chr Py.backslash ++ Py.chr Py.dquote) value in
  let value := Py.replace (Py.chr Py.LF) (Py.chr Py.backslash ++ "n") value in
  let value := Py.replace (Py.chr Py.CR) (Py.chr Py.backslash ++ "r") value in
  let value := Py.replace (Py.chr Py.TAB) (Py.chr Py.backslash ++ "t") value in
  value.

(** [_escape_turtle]: [None] gives the empty string. *)
Definition _escape_turtle (value : option string) : string :=
  match value with
  | None => ""
  | Some v => escape_turtle_str v
  end.

(** The literal of the quoted triple (the [if]/[elif] chain on
    [field_type] in [_extract_component_triple_term]). *)
Definition value_literal (field_type value : string) : string :=
  let escaped_value := _escape_turtle (Some value) in
  if String.eqb field_type "XdBoolean" then Py.lower value
  else if Py.mem field_type ["XdCount"; "XdOrdinal"] then value
  else if Py.mem field_type ["XdQuantity"; "XdFloat"; "XdDouble"] then value
  else (q ++ escaped_value ++ q)%string.

(** [lines[-1] = lines[-1].rstrip(' ;') + ' .'] *)
Definition close_last (lines : list string) : list string :=
  match lines with
  | [] => []
  | _ =>
      (removelast lines ++
       [(Py.rstrip_by (fun c => (Ascii.eqb c " " || Ascii.eqb c ";")%bool)
           (last lines "") ++ " .")%string])%list
  end.

(** [_find_ev_element], returning the stripped tag of the element found. *)
Fixpoint find_ev_code (kids : list Element) : option string :=
  match kids with
  | [] => None
  | child :: rest =>
      match ET.tag child with
      | Some t =>
          let tag_name := ET.strip_namespace t in
          if Py.mem tag_name ev_codes then Some tag_name else find_ev_code rest
      | None => find_ev_code rest
      end
  end.

(** [_find_units_element] *)
Definition _find_units_element (elem : Element) (field_type : string)
  : option Element :=
  match Py.get units_elem_names field_type with
  | Some units_elem_name => ET.find elem units_elem_name
  | None => None
  end.

(** [_find_cluster_ct_id] *)
Fixpoint find_cluster (kids : list Element) : option string :=
  match kids with
  | [] => None
  | e :: rest =>
      match ET.tag e with
      | Some t =>
          let tag_name := ET.strip_namespace t in
          if Py.startswith tag_name "ms-"
          then Some (Py.replace "ms-" "" tag_name)
          else find_cluster rest
      | None => find_cluster rest
      end
  end.

Definition _find_cluster_ct_id (tree : Element) : option string :=
  find_cluster (ET.children tree).

(** The text of [elem.find('.//name')] when it is present, not empty and
    not a placeholder. *)
Definition present_text (elem : Element) (name : string) : option string :=
  match ET.find elem name with
  | Some e =>
      match ET.text e with
      | Some (String _ _ as t) =>
          if Py.startswith t "__PLACEHOLDER__" then None else Some t
      | _ => None
      end
  | None => None
  end.

(** An optional string that is present and not empty ([if x:]). *)
Definition nonempty (x : option string) : option string :=
  match x with
  | Some (String _ _ as v) => Some v
  | _ => None
  end.

(** The first temporal element with a non-empty text: its name and text. *)
Fixpoint first_temporal (elem : Element) (names : list string)
  : option (string * string) :=
  match names with
  | [] => None
  | n :: rest =>
      match ET.find elem n with
      | Some value_elem =>
          match ET.text value_elem with
          | Some (String _ _ as t) => Some (n, t)
          | _ => first_temporal elem rest
          end
      | None => first_temporal elem rest
      end
  end.

(** The value element of a component and its text, when the text is not
    empty: for a temporal field the first temporal element with a text,
    for any other field the element named after the type. *)
Definition find_value (elem : Element) (field_type : string)
  : option (string * string) :=
  if String.eqb field_type "XdTemporal" then
    first_temporal elem TEMPORAL_VALUE_ELEMENTS
  else
    let value_elem_name := or_default (Py.get VALUE_ELEMENTS field_type) "value" in
    match ET.find elem value_elem_name with
    | Some value_elem =>
        match nonempty (ET.text value_elem) with
        | Some t => Some (value_elem_name, t)
        | None => None
        end
    | None => None
    end.

(** The text of the units value, when the units element has one. *)
Definition units_text (elem : Element) (field_type : string) : option string :=
  match _find_units_element elem field_type with
  | Some units_elem =>
      match ET.find units_elem "xdstring-value" with
      | Some units_value_elem => nonempty (ET.text units_value_elem)
      | None => None
      end
  | None => None
  end.

(** [lines.append(f(v))] when [v] is present. *)
Definition opt_line (x : option string) (f : string -> string) : list string :=
  match x with
  | Some v => [f v]
  | None => []
  end.

Section Extractor.

Variable dm_ct_id : string.
Variable dm_label : string.
Variable field_metadata : FieldMetadata.
(** [ET.fromstring]; [None] stands for [ET.ParseError]. *)
Variable fromstring : string -> option Element.

(** The line that carries the quoted triple. *)
Definition reifies_line (reifier_uri ct_id value_elem_name field_type value : string)
  : string :=
  (reifier_uri ++ " rdf:reifies << sdc4:mc-" ++ ct_id ++ " sdc4:" ++
   value_elem_name ++ " " ++ value_literal field_type value ++ " >> ;")%string.

(** [_extract_component_triple_term] *)
Definition _extract_component_triple_term (elem : Element)
  (ct_id instance_id instance_cuid : string) (cluster_ct_id : option string)
  : list string :=
  match Py.get field_metadata ct_id with
  | None => []
  | Some field_meta =>
    if meta_is_empty field_meta then [] else
    let field_name := or_default (meta_label field_meta) ct_id in
    let field_type := or_default (meta_type field_meta) "XdString" in
    let field_label := or_default (meta_label field_meta) field_name in
    let adapter_ct_id := meta_adapter_ctid field_meta in
    let found := find_value elem field_type in
    let ev_code := find_ev_code (ET.children elem) in
    match found, ev_code with
    | None, None => []
    | _, _ =>
      let reifier_uri := (":v_" ++ ct_id ++ "_" ++ instance_cuid)%string in
      let lines := [("# " ++ field_label ++ " (" ++ field_type ++ ")")%string] in
      let lines :=
        (lines ++
         [match found with
          | Some (value_elem_name, value) =>
              reifies_line reifier_uri ct_id value_elem_name field_type value
          | None =>
              (reifier_uri ++ " a sdc4:ExceptionalValueStatement ;")%string
          end])%list in
      let lines :=
        (lines ++
         [("    sdc4:inInstance sdc4:" ++ instance_id ++ " ;")%string;
          ("    sdc4:inDataModel sdc4:dm-" ++ dm_ct_id ++ " ;")%string])%list in
      let lines :=
        (lines ++
         opt_line (nonempty cluster_ct_id)
           (fun c => ("    sdc4:inCluster sdc4:mc-" ++ c ++ " ;")%string))%list in
      let lines :=
        (lines ++
         opt_line (nonempty adapter_ct_id)
           (fun a => ("    sdc4:throughAdapter sdc4:mc-" ++ a ++ " ;")%string))%list in
      let lines :=
        (lines ++ [("    rdfs:label " ++ q ++ _escape_turtle (Some field_label)
                    ++ q ++ " ;")%string])%list in
      let lines :=
        (lines ++
         opt_line (units_text elem field_type)
           (fun u => ("    sdc4:units " ++ q ++ _escape_turtle (Some u)
                      ++ q ++ " ;")%string))%list in
      let lines :=
        (lines ++
         opt_line (nonempty ev_code)
           (fun c => ("    sdc4:ev sdc4:" ++ c ++ " ;")%string))%list in
      let stamped (name prop : string) : list string :=
        opt_line (present_text elem name)
          (fun t => ("    sdc4:" ++ prop ++ " " ++ q ++ t ++ q ++ "^^xsd:dateTime ;")%string) in
      let lines := (lines ++ stamped "vtb" "vtb")%list in
      let lines := (lines ++ stamped "vte" "vte")%list in
      let lines := (lines ++ stamped "tr" "tr")%list in
      let lines := (lines ++ stamped "modified" "modified")%list in
      let lines :=
        (lines ++
         match present_text elem "latitude", present_text elem "longitude" with
         | Some lat, Some lon =>
             [("    sdc4:latitude " ++ q ++ lat ++ q ++ "^^xsd:decimal ;")%string;
              ("    sdc4:longitude " ++ q ++ lon ++ q ++ "^^xsd:decimal ;")%string]
         | _, _ => []
         end)%list in
      let lines :=
        (lines ++
         opt_line (present_text elem "act")
           (fun t => ("    sdc4:act " ++ q ++ _escape_turtle (Some t) ++ q ++ " ;")%string))%list in
      (close_last lines ++ [""])%list
    end
  end.

(** [_generate_instance_metadata] *)
Definition _generate_instance_metadata (tree : Element)
  (instance_id instance_cuid validation_status : string)
  (auto_corrected_fields : list (option string)) : list string :=
  let lines :=
    [ ("# Instance: " ++ instance_id)%string;
      ("sdc4:" ++ instance_id ++ " a sdc4:dm-" ++ dm_ct_id ++ " ;")%string;
      ("    rdfs:label " ++ q ++ _escape_turtle (Some dm_label) ++ q ++ " ;")%string ] in
  let lines :=
    match ET.find tree "creation_timestamp" with
    | Some timestamp_elem =>
        match ET.text timestamp_elem with
        | Some (String _ _ as t) =>
            (lines ++ [("    dc:created " ++ q ++ t ++ q ++ "^^xsd:dateTime ;")%string])%list
        | _ => lines
        end
    | None => lines
    end in
  let lines :=
    (lines ++ [("    sdc4:validationStatus " ++ q ++ validation_status ++ q ++ " ;")%string])%list in
  let lines :=
    (lines ++
     map (fun field_label =>
            ("    sdc4:autoCorrectedField " ++ q ++ _escape_turtle field_label
             ++ q ++ " ;")%string) auto_corrected_fields)%list in
  (close_last lines ++ [""])%list.

(** The body of the loop of [extract] over [tree.iter()]. *)
Definition component_lines (instance_id instance_cuid : string)
  (cluster_ct_id : option string) (elem : Element) : list string :=
  match ET.tag elem with
  | None => []
  | Some t =>
      let tag_name := ET.strip_namespace t in
      if Py.startswith tag_name "ms-" then
        let ct_id := Py.replace "ms-" "" tag_name in
        match Py.get field_metadata ct_id with
        | Some _ =>
            _extract_component_triple_term elem ct_id instance_id
              instance_cuid cluster_ct_id
        | None => []
        end
      else []
  end.

(** [extract] *)
Definition extract (xml_content instance_id validation_status : string)
  (auto_corrected_fields : list (option string)) : string :=
  match fromstring xml_content with
  | None => ""
  | Some tree =>
      let instance_cuid := Py.replace "ev-" "" (Py.replace "i-" "" instance_id) in
      let turtle_lines :=
        (PREFIXES ::
         _generate_instance_metadata tree instance_id instance_cuid
           validation_status auto_corrected_fields)%list in
      let cluster_ct_id := _find_cluster_ct_id tree in
      let turtle_lines :=
        (turtle_lines ++
         flat_map (component_lines instance_id instance_cuid cluster_ct_id)
           (ET.iter tree))%list in
      Py.join nl turtle_lines
  end.

End Extractor.

End RDFExtractor.

(* ================================================================== *)
(** ** Document Builder ([xml_builder.py]) *)
(* ================================================================== *)

Module XMLBuilder.

Definition SDC4_NS : string := "https://semanticdatacharter.com/ns/sdc4/".
Definition PLACEHOLDER_PREFIX : string := "__PLACEHOLDER__".

Definition EV_CODES : list (string * string) :=
  [ ("NI", "No Information"); ("MSK", "Masked"); ("INV", "Invalid");
    ("DER", "Derived"); ("UNC", "Unencoded"); ("OTH", "Other");
    ("NINF", "Negative Infinity"); ("PINF", "Positive Infinity");
    ("ASKR", "Asked and Refused"); ("NASK", "Not Asked");
    ("NAV", "Not Available"); ("NA", "Not Applicable"); ("TRC", "Trace");
    ("ASKU", "Asked but Unknown"); ("UNK", "Unknown");
    ("QS", "Sufficient Quantity") ].

Definition OPTIONAL_ELEMENTS : list string :=
  [ "act"; "vtb"; "vte"; "tr"; "modified"; "latitude"; "longitude";
    "normal-status"; "magnitude-status"; "accuracy_margin"; "precision_digits";
    "xdstring-language" ].

Definition OPTIONAL_CONTAINER_ELEMENTS : list string :=
  [ "subject"; "provider"; "protocol"; "workflow"; "acs" ].

Definition UNITS_ELEMENTS : list string :=
  [ "xdcount-units"; "xdquantity-units"; "xdfloat-units"; "xddouble-units";
    "xdordinal-units" ].

Definition type_map : list (string * string) :=
  [ ("XdString", "xdstring-value"); ("XdBoolean", "xdboolean-value");
    ("XdCount", "xdcount-value"); ("XdQuantity", "xdquantity-value");
    ("XdFloat", "xdfloat-value"); ("XdDouble", "xddouble-value");
    ("XdLink", "xdlink-value"); ("XdFile", "xdfile-value");
    ("XdOrdinal", "xdordinal-value"); ("XdInterval", "xdinterval-value");
    ("XdToken", "xdtoken-value") ].

Definition temporal_element_map : list (string * string) :=
  [ ("date", "xdtemporal-date"); ("time", "xdtemporal-time");
    ("datetime", "xdtemporal-datetime"); ("duration", "xdtemporal-duration");
    ("day", "xdtemporal-day"); ("month", "xdtemporal-month");
    ("year", "xdtemporal-year"); ("year_month", "xdtemporal-year-month");
    ("month_day", "xdtemporal-month-day") ].

Definition quantified_types : list string :=
  [ "XdCount"; "XdQuantity"; "XdFloat"; "XdDouble"; "XdOrdinal" ].

(** [_get_value_element_name] *)
Definition _get_value_element_name (field_type : string) (field_meta : FieldMeta)
  : string :=
  if String.eqb field_type "XdTemporal" then
    match meta_temporal_types field_meta with
    | Some (first_type :: _) =>
        or_default (Py.get temporal_element_map first_type) "xdtemporal-date"
    | _ => "xdtemporal-date"
    end
  else or_default (Py.get type_map field_type) "value".

(** [_escape_xml] *)
Definition _escape_xml (value : string) : string :=
  Py.replace "'" "&apos;"
    (Py.replace (Py.chr Py.dquote) "&quot;"
       (Py.replace ">" "&gt;"
          (Py.replace "<" "&lt;"
             (Py.replace "&" "&amp;" value)))).

(** The last branch of [_format_temporal_value]: the value is a string (or
    any object that is not a date, a time or a duration), taken by its
    [str(value)]. *)
Definition format_temporal_string (str_value temporal_type : string) : string :=
  if String.eqb temporal_type "date" then
    let str_value :=
      if Py.has_char " " str_value then Py.split_head " " str_value
      else str_value in
    let str_value :=
      if Py.has_char "T" str_value then Py.split_head "T" str_value
      else str_value in
    str_value
  else if String.eqb temporal_type "time" then
    let str_value :=
      if Py.has_char "T" str_value
      then or_default (Py.split_second "T" str_value) str_value
      else str_value in
    let str_value :=
      if Py.has_char "+" str_value then Py.split_head "+" str_value
      else str_value in
    let str_value :=
      if (Py.has_char " " str_value
          && (1 <? List.length (Py.split " " str_value))%nat)%bool
      then
        let str_value := or_default (Py.split_second " " str_value) str_value in
        if Py.has_char "+" str_value then Py.split_head "+" str_value
        else str_value
      else str_value in
    str_value
  else str_value.

(** [_format_temporal_value] *)
Definition _format_temporal_value (value : Value) (temporal_type : string)
  : string :=
  match value with
  | VNone => ""
  | VStr EmptyString => ""
  | VDateTime strftime isoformat _ =>
      if String.eqb temporal_type "date" then strftime "%Y-%m-%d"
      else if String.eqb temporal_type "time" then strftime "%H:%M:%S"
      else if String.eqb temporal_type "datetime" then isoformat
      else if String.eqb temporal_type "year" then strftime "%Y"
      else if String.eqb temporal_type "month" then strftime "--%m"
      else if String.eqb temporal_type "day" then strftime "---%d"
      else if String.eqb temporal_type "year_month" then strftime "%Y-%m"
      else if String.eqb temporal_type "month_day" then strftime "--%m-%d"
      else isoformat
  | VDate strftime _ =>
      if String.eqb temporal_type "date" then strftime "%Y-%m-%d"
      else if String.eqb temporal_type "year" then strftime "%Y"
      else if String.eqb temporal_type "month" then strftime "--%m"
      else if String.eqb temporal_type "day" then strftime "---%d"
      else if String.eqb temporal_type "year_month" then strftime "%Y-%m"
      else if String.eqb temporal_type "month_day" then strftime "--%m-%d"
      else strftime "%Y-%m-%d"
  | VTime strftime _ => strftime "%H:%M:%S"
  | VTimedelta total_seconds _ _ =>
      let hours := (total_seconds / 3600)%Z in
      let remainder := (total_seconds mod 3600)%Z in
      let minutes := (remainder / 60)%Z in
      let seconds := (remainder mod 60)%Z in
      ("PT" ++ Py.str_int hours ++ "H" ++ Py.str_int minutes ++ "M"
       ++ Py.str_int seconds ++ "S")%string
  | _ => format_temporal_string (str_of_value value) temporal_type
  end.

(** The text substituted for the value placeholder of a field
    ([formatted_value] in [_replace_field_placeholders]). *)
Definition formatted_value (field_type : string) (meta : FieldMeta) (value : Value)
  : string :=
  if String.eqb field_type "XdBoolean" then
    if truth_of_value value then "true" else "false"
  else if String.eqb field_type "XdTemporal" then
    let temporal_type :=
      match or_default (meta_temporal_types meta) ["date"] with
      | t :: _ => t
      | [] => "date"
      end in
    _escape_xml (_format_temporal_value value temporal_type)
  else _escape_xml (str_of_value value).

(** [xml_content.replace(PLACEHOLDER_PREFIX + name + '_' + ct_id, v)] when
    the optional value [v] is present and not empty. *)
Definition replace_if (v : option string) (name ct_id : string)
  (f : string -> string) (xml_content : string) : string :=
  match v with
  | Some (String _ _ as x) =>
      Py.replace (PLACEHOLDER_PREFIX ++ name ++ "_" ++ ct_id) (f x) xml_content
  | _ => xml_content
  end.

(** [_replace_optional_metadata] *)
Definition _replace_optional_metadata (xml_content ct_id : string)
  (field_meta : FormMeta) : string :=
  let xml_content := replace_if (form_act field_meta) "act" ct_id _escape_xml xml_content in
  let xml_content := replace_if (form_vtb field_meta) "vtb" ct_id (fun x => x) xml_content in
  let xml_content := replace_if (form_vte field_meta) "vte" ct_id (fun x => x) xml_content in
  let xml_content := replace_if (form_tr field_meta) "tr" ct_id (fun x => x) xml_content in
  let xml_content := replace_if (form_mod field_meta) "modified" ct_id (fun x => x) xml_content in
  match form_location field_meta with
  | Some (lat_value, lon_value) =>
      let xml_content :=
        match lat_value with
        | Some lat =>
            Py.replace (PLACEHOLDER_PREFIX ++ "latitude_" ++ ct_id) lat xml_content
        | None => xml_content
        end in
      match lon_value with
      | Some lon =>
          Py.replace (PLACEHOLDER_PREFIX ++ "longitude_" ++ ct_id) lon xml_content
      | None => xml_content
      end
  | None => xml_content
  end.

(** The first entry of the table whose own [ct_id] key is [ct_id]. *)
Fixpoint entry_by_ct_id (table : FieldMetadata) (ct_id : string)
  : option FieldMeta :=
  match table with
  | [] => None
  | (_, fmeta) :: rest =>
      match meta_ct_id fmeta with
      | Some c => if String.eqb c ct_id then Some fmeta else entry_by_ct_id rest ct_id
      | None => entry_by_ct_id rest ct_id
      end
  end.

Section Builder.

Variable field_metadata : FieldMetadata.

(** [_replace_units_placeholder] *)
Definition _replace_units_placeholder (xml_content ct_id : string)
  (field_meta : FormMeta) (field_label field_type : string) : string :=
  if negb (Py.mem field_type quantified_types) then xml_content
  else
    match form_units field_meta with
    | Some (String _ _ as selected_units) =>
        let by_label :=
          Py.get field_metadata (Py.replace " " "_" (Py.lower field_label)) in
        let field_info :=
          match by_label with
          | Some m => if meta_is_empty m then entry_by_ct_id field_metadata ct_id
                      else Some m
          | None => entry_by_ct_id field_metadata ct_id
          end in
        match field_info with
        | Some info =>
            match meta_units info with
            | Some units_info =>
                match units_ct_id units_info with
                | Some (String _ _ as u_ct_id) =>
                    let units_label :=
                      or_default (units_label units_info)
                        (field_label ++ "_units")%string in
                    let xml_content :=
                      Py.replace (PLACEHOLDER_PREFIX ++ "label_" ++ u_ct_id)
                        (_escape_xml units_label) xml_content in
                    Py.replace (PLACEHOLDER_PREFIX ++ "xdstring-value_" ++ u_ct_id)
                      (_escape_xml selected_units) xml_content
                | _ => xml_content
                end
            | None => xml_content
            end
        | None => xml_content
        end
    | _ => xml_content
    end.

(** The body of the loop of [_replace_field_placeholders]. *)
Definition replace_field (form_data : list (string * Value))
  (metadata_dict : list (string * FormMeta)) (xml_content : string)
  (entry : string * FieldMeta) : string :=
  let '(field_name, meta) := entry in
  let ct_id := field_name in
  let field_type := or_default (meta_type meta) "" in
  let field_label := or_default (meta_label meta) field_name in
  match Py.get form_data field_name with
  | None => xml_content
  | Some value =>
      let field_meta := or_default (Py.get metadata_dict field_name) no_form_meta in
      let value_elem_name := _get_value_element_name field_type meta in
      let placeholder :=
        (PLACEHOLDER_PREFIX ++ value_elem_name ++ "_" ++ ct_id)%string in
      let xml_content :=
        if is_supplied value
        then Py.replace placeholder (formatted_value field_type meta value) xml_content
        else xml_content in
      let xml_content := _replace_optional_metadata xml_content ct_id field_meta in
      _replace_units_placeholder xml_content ct_id field_meta field_label field_type
  end.

(** [_replace_field_placeholders] *)
Definition _replace_field_placeholders (xml_content : string)
  (form_data : list (string * Value)) (metadata_dict : list (string * FormMeta))
  : string :=
  fold_left (replace_field form_data metadata_dict) field_metadata xml_content.

(** The map [ev_map] built by [_process_ev_and_prune]: the own [ct_id] of
    an entry to the EV code selected for the field. *)
Definition build_ev_map (metadata_dict : list (string * FormMeta))
  : list (string * string) :=
  fold_left
    (fun ev_map (entry : string * FieldMeta) =>
       let '(field_name, meta) := entry in
       let ct_id := or_default (meta_ct_id meta) "" in
       let field_meta := or_default (Py.get metadata_dict field_name) no_form_meta in
       match form_ev field_meta with
       | Some (String _ _ as ev_code) =>
           match Py.get EV_CODES ev_code with
           | Some _ => Py.set ev_map ct_id ev_code
           | None => ev_map
           end
       | _ => ev_map
       end)
    field_metadata [].

End Builder.

(** The element put in the place of an [ev-placeholder]. *)
Definition ev_element (ev_code : string) : Element :=
  let ev_name := or_default (Py.get EV_CODES ev_code) ev_code in
  Elem ("{" ++ SDC4_NS ++ "}" ++ ev_code) [] None
       [Elem "ev-name" [] (Some ev_name) []].

(** What becomes of one [ev-placeholder]: the EV element when its [ct_id]
    has an EV selected, nothing otherwise. *)
Definition ev_replacement (ev_map : list (string * string)) (placeholder : Element)
  : list Element :=
  match ET.attr placeholder "ct_id" with
  | Some (String _ _ as ct_id) =>
      match Py.get ev_map ct_id with
      | Some ev_code => [ev_element ev_code]
      | None => []
      end
  | _ => []
  end.

(** [_process_ev_placeholders].  The source collects the [ev-placeholder]
    descendants of the root and, in document order, replaces each in its
    parent at the same index, or removes it.  A placeholder below another
    one leaves the tree with it.  On the tree this is the recursion below:
    in every list of children a placeholder gives way to its replacement
    and every other child is processed in turn. *)
Fixpoint _process_ev_placeholders (ev_map : list (string * string)) (e : Element)
  : Element :=
  match e with
  | Elem t a x kids =>
      Elem t a x
        (flat_map (fun k =>
                     if ET.has_tag "ev-placeholder" k
                     then ev_replacement ev_map k
                     else [_process_ev_placeholders ev_map k]) kids)
  | Comment _ => e
  end.

(** [etree.QName(tag).localname if '}' in tag else tag] *)
Definition localname (t : string) : string :=
  or_default (Py.after_first "}" t) t.

Definition REQUIRED_TAGS : list string :=
  [ "creation_timestamp"; "instance_id"; "instance_version"; "current-state" ].

Definition has_placeholder (x : option string) : bool :=
  match x with
  | Some (String _ _ as t) => Py.contains PLACEHOLDER_PREFIX t
  | _ => false
  end.

Definition has_optional_comment (x : option string) : bool :=
  match x with
  | Some (String _ _ as t) => Py.contains "<!-- Optional:" t
  | _ => false
  end.

(** [_is_empty_container] *)
Fixpoint _is_empty_container (element : Element) : bool :=
  match element with
  | Comment _ => true
  | Elem _ _ x [] =>
      let text := Py.strip (or_default x "") in
      (String.eqb text "" || Py.startswith text "<!--")%bool
  | Elem _ _ _ kids =>
      forallb
        (fun child =>
           match child with
           | Comment _ => true
           | Elem _ _ cx _ =>
               let child_text := Py.strip (or_default cx "") in
               if (negb (String.eqb child_text "")
                   && negb (Py.startswith child_text "<!--")
                   && negb (Py.contains PLACEHOLDER_PREFIX child_text))%bool
               then false
               else _is_empty_container child
           end) kids
  end.

(** One round of [_prune_empty_containers], for one container name: every
    descendant of that name that is empty when the round reaches it is
    removed from its parent.  The elements are visited in document order,
    so an element is judged before anything below it is removed. *)
Fixpoint prune_containers_named (name : string) (e : Element) : Element :=
  match e with
  | Elem t a x kids =>
      Elem t a x
        (flat_map (fun k =>
                     if (ET.has_tag name k && _is_empty_container k)%bool
                     then []
                     else [prune_containers_named name k]) kids)
  | Comment _ => e
  end.

(** [_prune_empty_containers], in a given iteration order of the set
    [OPTIONAL_CONTAINER_ELEMENTS]. *)
Definition _prune_empty_containers (order : list string) (root : Element)
  : Element :=
  fold_left (fun r name => prune_containers_named name r) order root.

(** [_remove_comments] *)
Fixpoint _remove_comments (e : Element) : Element :=
  match e with
  | Elem t a x kids =>
      Elem t a x
        (flat_map (fun k =>
                     match k with
                     | Comment _ => []
                     | Elem _ _ _ _ => [_remove_comments k]
                     end) kids)
  | Comment _ => e
  end.

Section Oracles.

(** [datetime.utcnow().isoformat()] and [cuid_generator()] at the n-th
    reading of the clock or of the generator. *)
Variable utcnow : nat -> string.
Variable cuid_generator : nat -> string.

(** [REQUIRED_ELEMENTS_DEFAULTS[tag_name]()] at reading [n]. *)
Definition required_default (tag_name : string) (n : nat) : string :=
  if String.eqb tag_name "creation_timestamp" then utcnow n
  else if String.eqb tag_name "instance_id" then ("i-" ++ cuid_generator n)%string
  else if String.eqb tag_name "instance_version" then "1.0"
  else "".

(** [_find_placeholder_elements] together with the removal loop that
    follows each of its calls.  The result is: whether the element itself
    was put on [to_remove], the element with the defaults filled in and
    the marked descendants removed from their parents, and the number of
    readings made so far. *)
Fixpoint _find_placeholder_elements (element : Element) (n : nat)
  : bool * Element * nat :=
  match element with
  | Comment _ => (false, element, n)
  | Elem t a x kids =>
      let tag_name := localname t in
      let required := (has_placeholder x && Py.mem tag_name REQUIRED_TAGS)%bool in
      if (has_placeholder x && negb required && Py.mem tag_name OPTIONAL_ELEMENTS)%bool
      then (true, element, n)
      else
        let x1 := if required then Some (required_default tag_name n) else x in
        let n1 := if required then S n else n in
        let '(kids', n2) :=
          (fix each (l : list Element) (n : nat) : list Element * nat :=
             match l with
             | [] => ([], n)
             | child :: l' =>
                 let '(marked, child', n') := _find_placeholder_elements child n in
                 let '(rest, n'') := each l' n' in
                 (if marked then rest else child' :: rest, n'')
             end) kids n1 in
        (has_optional_comment x1, Elem t a x1 kids', n2)
  end.

(** The pruning of the root: the root has no parent and stays. *)
Definition prune_placeholders (root : Element) (n : nat) : Element * nat :=
  let '(_, root', n') := _find_placeholder_elements root n in (root', n').

End Oracles.

(** [_string_based_prune]: the lines that hold both an optional-element
    comment and a placeholder are dropped; every other line is kept (the
    [continue] of the inner loop over [OPTIONAL_ELEMENTS] skips nothing). *)
Definition _string_based_prune (xml_content : string) : string :=
  Py.join (Py.chr Py.LF)
    (filter (fun line =>
               negb (Py.contains "<!-- Optional:" line
                     && Py.contains PLACEHOLDER_PREFIX line))
            (Py.split Py.LF xml_content)).

Definition XSI_NS : string := "http://www.w3.org/2001/XMLSchema-instance".

Definition clark (ns name : string) : string := ("{" ++ ns ++ "}" ++ name)%string.

Definition leaf (tag text : string) : Element := Elem tag [] (Some text) [].

Section Build.

(** The state of a builder object. *)
Variable dm_ct_id : option string.
Variable cluster_ct_id : option string.
Variable field_metadata : FieldMetadata.
Variable dm_label : option string.
(** The skeleton loaded from [xml_skeleton.xml]; [None] when the file is
    missing. *)
Variable _skeleton_xml : option string.

(** [etree.fromstring(xml.encode('utf-8'), parser)]; [None] stands for
    [etree.XMLSyntaxError]. *)
Variable fromstring : string -> option Element.
(** [etree.tostring(root, pretty_print=True, encoding='UTF-8',
    xml_declaration=True).decode('utf-8')] *)
Variable tostring : Element -> string.
Variable utcnow : nat -> string.
Variable cuid_generator : nat -> string.
(** The order in which the set [OPTIONAL_CONTAINER_ELEMENTS] is iterated. *)
Variable container_order : list string.

(** [_replace_metadata_placeholders], at reading [n] of the clock. *)
Definition _replace_metadata_placeholders (xml_content instance_id : string)
  (n : nat) : string :=
  let xml_content :=
    Py.replace (PLACEHOLDER_PREFIX ++ "creation_timestamp") (utcnow n) xml_content in
  Py.replace (PLACEHOLDER_PREFIX ++ "instance_id") instance_id xml_content.

(** The tree part of [_process_ev_and_prune]: EV placeholders, pruning of
    placeholders, of empty containers and of comments. *)
Definition process_tree (metadata_dict : list (string * FormMeta))
  (root : Element) (n : nat) : Element :=
  let ev_map := build_ev_map field_metadata metadata_dict in
  let root := _process_ev_placeholders ev_map root in
  let root := fst (prune_placeholders utcnow cuid_generator root n) in
  let root := _prune_empty_containers container_order root in
  _remove_comments root.

(** [_prune_unused_elements] *)
Definition _prune_unused_elements (xml_content : string) (n : nat) : string :=
  match fromstring xml_content with
  | Some root => tostring (fst (prune_placeholders utcnow cuid_generator root n))
  | None => _string_based_prune xml_content
  end.

(** [_process_ev_and_prune] *)
Definition _process_ev_and_prune (xml_content : string)
  (metadata_dict : list (string * FormMeta)) (n : nat) : string :=
  match fromstring xml_content with
  | Some root => tostring (process_tree metadata_dict root n)
  | None => _prune_unused_elements xml_content n
  end.

(** [_add_metadata_elements]: the children it appends to the root. *)
Definition metadata_elements (instance_id : string) (n : nat) : list Element :=
  [ leaf "dm-label"
      (match dm_label with
       | Some (String _ _ as l) => l
       | _ => or_default dm_ct_id "None"
       end);
    leaf "dm-language" "en-US";
    leaf "dm-encoding" "utf-8";
    leaf "creation_timestamp" (utcnow n);
    leaf "instance_id" instance_id;
    leaf "instance_version" "1.0";
    leaf "current-state" "" ].

(** The child of the cluster element that [_add_form_fields_fallback]
    builds for one entry of the table; nothing when the field is not in
    the form data. *)
Definition fallback_field (form_data : list (string * Value))
  (entry : string * FieldMeta) : list Element :=
  let '(field_name, meta) := entry in
  let ct_id := or_default (meta_ct_id meta) "" in
  let field_type := or_default (meta_type meta) "" in
  let field_label := or_default (meta_label meta) field_name in
  match Py.get form_data field_name with
  | None => []
  | Some value =>
      let value_elems :=
        if is_supplied value then
          let value_elem_name := _get_value_element_name field_type meta in
          let text :=
            if String.eqb field_type "XdBoolean" then
              if truth_of_value value then "true" else "false"
            else if String.eqb field_type "XdTemporal" then
              _format_temporal_value value
                (match or_default (meta_temporal_types meta) ["date"] with
                 | t :: _ => t
                 | [] => "date"
                 end)
            else str_of_value value in
          [leaf value_elem_name text]
        else [] in
      let units_elems :=
        if Py.mem field_type quantified_types then
          match meta_units meta with
          | Some units_info =>
              let units_value :=
                match units_def_val units_info with
                | Some (String _ _ as d) => d
                | _ =>
                    match units_symbols units_info with
                    | sym :: _ => sym
                    | [] => ""
                    end
                end in
              [Elem (Py.lower field_type ++ "-units") [] None
                 [ leaf "label"
                     (or_default (units_label units_info)
                        (field_label ++ "_units")%string);
                   leaf "xdstring-value" units_value ]]
          | None => []
          end
        else [] in
      let component_elem :=
        Elem (clark SDC4_NS ("ms-" ++ ct_id)) [] None
          (leaf "label" field_label :: value_elems ++ units_elems)%list in
      match meta_adapter_ctid meta with
      | Some (String _ _ as adapter_ctid) =>
          [Elem (clark SDC4_NS ("ms-" ++ adapter_ctid)) [] None [component_elem]]
      | _ => [component_elem]
      end
  end.

(** The tree built by [_build_from_form_fallback]. *)
Definition fallback_tree (dm cluster instance_id : string)
  (form_data : list (string * Value)) (n : nat) : Element :=
  Elem (clark SDC4_NS ("dm-" ++ dm))
    [ (clark XSI_NS "schemaLocation",
       (SDC4_NS ++ " https://semanticdatacharter.com/dmlib/dm-" ++ dm ++ ".xsd")%string) ]
    None
    (metadata_elements instance_id n ++
     [ Elem (clark SDC4_NS ("ms-" ++ cluster)) [] None
         (leaf "label" (or_default dm_label "None" ++ " Data Cluster")%string
          :: flat_map (fallback_field form_data) field_metadata) ])%list.

(** [_build_from_form_fallback] *)
Definition _build_from_form_fallback (instance_id : string)
  (form_data : list (string * Value)) (n : nat) : Py.res string :=
  match dm_ct_id with
  | Some (String _ _ as dm) =>
      match cluster_ct_id with
      | Some (String _ _ as cluster) =>
          Py.Ret (tostring (fallback_tree dm cluster instance_id form_data n))
      | _ => Py.Raise Py.ValueError
      end
  | _ => Py.Raise Py.ValueError
  end.

(** [build_from_form]; [n] is the number of readings of the clock and of
    the generator made before the call. *)
Definition build_from_form (instance_id : string)
  (form_data : list (string * Value))
  (metadata : option (list (string * FormMeta))) (n : nat) : Py.res string :=
  match _skeleton_xml with
  | Some (String _ _ as skeleton) =>
      let metadata := or_default metadata [] in
      let xml_content := _replace_metadata_placeholders skeleton instance_id n in
      let xml_content :=
        _replace_field_placeholders field_metadata xml_content form_data metadata in
      Py.Ret (_process_ev_and_prune xml_content metadata (S n))
  | _ => _build_from_form_fallback instance_id form_data n
  end.

End Build.

End XMLBuilder.

(* ================================================================== *)
(** ** A reference reader of decimal literals *)
(* ================================================================== *)

(** The projections take Python's [float] as a parameter.  [Dec] is an
    instance on plain decimal literals (sign, digits, an optional point),
    read as a mantissa and a number of decimals. *)
Module Dec.

Definition F : Type := (Z * nat)%type.

Fixpoint digits (acc : Z) (seen : bool) (s : string) : option (Z * string) :=
  match s with
  | EmptyString => if seen then Some (acc, EmptyString) else None
  | String c s' =>
      match Py.digit_val c with
      | Some d => digits (10 * acc + d)%Z true s'
      | None => if seen then Some (acc, s) else None
      end
  end.

Definition unsigned (s : string) : option F :=
  match digits 0 false s with
  | Some (m, EmptyString) => Some (m, 0)
  | Some (m, String "." r) =>
      match r with
      | EmptyString => Some (m, 0)
      | _ =>
          match digits m true r with
          | Some (m', EmptyString) => Some (m', String.length r)
          | _ => None
          end
      end
  | _ => None
  end.

Definition float (s : string) : option F :=
  match Py.strip s with
  | String "-" r => option_map (fun f => (Z.opp (fst f), snd f)) (unsigned r)
  | String "+" r => unsigned r
  | t => unsigned t
  end.

Definition str_float (f : F) : string :=
  (Py.str_int (fst f) ++ "e-" ++ Py.str_int (Z.of_nat (snd f)))%string.

End Dec.

(* ================================================================== *)
(** ** The statements of the specification *)
(* ================================================================== *)

Module Spec.

(** The ordered rule table of the Corrector's heuristic: the first rule
    with a keyword that occurs in the lower-cased message gives the EV. *)
Definition EV_RULES : list (list string * string) :=
  [ (["required"; "missing"; "mandatory"], "NotPerformed");
    (["type"; "format"; "pattern"], "NoInformation");
    (["range"; "constraint"; "bounds"; "limit"], "Unknown");
    (["refused"; "declined"], "Refused");
    (["not applicable"; "n/a"], "NotApplicable") ].

Fixpoint first_match (rules : list (list string * string)) (text default : string)
  : string :=
  match rules with
  | [] => default
  | (keywords, ev) :: rest =>
      if existsb (fun k => Py.contains k text) keywords then ev
      else first_match rest text default
  end.

(** A value cut at its first space or [T]. *)
Fixpoint truncate_at_space_or_T (s : string) : string :=
  match s with
  | EmptyString => EmptyString
  | String c s' =>
      if (Ascii.eqb c " " || Ascii.eqb c "T")%bool then EmptyString
      else String c (truncate_at_space_or_T s')
  end.




(** An optional leaf element that still holds a placeholder. *)
Definition unpopulated_optional (e : Element) : bool :=
  match e with
  | Elem t _ x _ =>
      (Py.mem (XMLBuilder.localname t) XMLBuilder.OPTIONAL_ELEMENTS
       && XMLBuilder.has_placeholder x)%bool
  | Comment _ => false
  end.

(** An element that no pass of the builder removes or rewrites: it is not
    an [ev-placeholder], not one of the optional containers, and its text
    holds neither a placeholder nor the marker of an optional comment. *)
Definition survives (order : list string) (e : Element) : bool :=
  match e with
  | Elem t _ x _ =>
      (negb (String.eqb t "ev-placeholder") && negb (Py.mem t order)
       && negb (XMLBuilder.has_placeholder x)
       && negb (XMLBuilder.has_optional_comment x))%bool
  | Comment _ => false
  end.


(** The [ct_id] an entry of the table holds itself ([meta.get('ct_id', '')]). *)
Definition own_ct_id (entry : string * FieldMeta) : string :=
  or_default (meta_ct_id (snd entry)) "".

(** An element carries an [exceptional-value] child. *)
Definition has_ev_child (elem : Element) : bool :=
  existsb (ET.has_tag "exceptional-value") (ET.children elem).




End Spec.

(* ================================================================== *)
(** ** Notions used in the proofs *)
(* ================================================================== *)

Module Aux.

Import XMLBuilder.

(** Every character replaced by a string. *)
Fixpoint smap (f : ascii -> string) (s : string) : string :=
  match s with
  | EmptyString => EmptyString
  | String a s' => (f a ++ smap f s')%string
  end.

(** No occurrence of [old] begins inside [pre] when [pre] is followed by
    [rest]. *)
Fixpoint free_before (old pre rest : string) : bool :=
  match pre with
  | EmptyString => true
  | String _ pre' =>
      (negb (String.prefix old (pre ++ rest)) && free_before old pre' rest)%bool
  end.


(** The shape of a pass that only removes subtrees. *)
Fixpoint filter_tree (keep : Element -> bool) (e : Element) : Element :=
  match e with
  | Elem t a x kids =>
      Elem t a x
        (flat_map (fun k => if keep k then [filter_tree keep k] else []) kids)
  | Comment _ => e
  end.

Definition is_element (e : Element) : bool :=
  match e with Elem _ _ _ _ => true | Comment _ => false end.

(** No proper descendant is an unpopulated optional element. *)
Definition clean (e : Element) : Prop :=
  forall d, In d (ET.descendants e) -> Spec.unpopulated_optional d = false.

Definition tidy (e : Element) : Prop :=
  Spec.unpopulated_optional e = false /\ clean e.

(** The body of the loop that builds [ev_map]. *)
Definition ev_step (metadata_dict : list (string * FormMeta))
  (ev_map : list (string * string)) (entry : string * FieldMeta)
  : list (string * string) :=
  let '(field_name, meta) := entry in
  let ct_id := or_default (meta_ct_id meta) "" in
  let field_meta := or_default (Py.get metadata_dict field_name) no_form_meta in
  match form_ev field_meta with
  | Some (String _ _ as ev_code) =>
      match Py.get EV_CODES ev_code with
      | Some _ => Py.set ev_map ct_id ev_code
      | None => ev_map
      end
  | _ => ev_map
  end.

(** The names [_get_value_element_name] can return. *)
Definition VALUE_NAMES : list string :=
  "value" :: "xdtemporal-date"
  :: (map snd type_map ++ map snd temporal_element_map)%list.


Section Passes.

Variable order : list string.
Variable ev_map : list (string * string).
Variable utcnow cuid : nat -> string.

(** The loop of [_find_placeholder_elements] over the children. *)
Fixpoint each_child (l : list Element) (n : nat) : list Element * nat :=
  match l with
  | [] => ([], n)
  | child :: l' =>
      let '(marked, child', n') := _find_placeholder_elements utcnow cuid child n in
      let '(rest, n'') := each_child l' n' in
      (if marked then rest else child' :: rest, n'')
  end.


(** The tree passes of the builder, for a given map of selected EVs. *)
Definition passes (root : Element) (n : nat) : Element :=
  _remove_comments
    (_prune_empty_containers order
       (fst (prune_placeholders utcnow cuid
               (_process_ev_placeholders ev_map root) n))).

End Passes.

(** Decimal numerals.  The number read from an accumulator followed by the
    digits of a numeral of the Standard Library. *)
Fixpoint uval (acc : Z) (d : Decimal.uint) : Z :=
  match d with
  | Decimal.Nil => acc
  | Decimal.D0 l => uval (10 * acc + 0) l
  | Decimal.D1 l => uval (10 * acc + 1) l
  | Decimal.D2 l => uval (10 * acc + 2) l
  | Decimal.D3 l => uval (10 * acc + 3) l
  | Decimal.D4 l => uval (10 * acc + 4) l
  | Decimal.D5 l => uval (10 * acc + 5) l
  | Decimal.D6 l => uval (10 * acc + 6) l
  | Decimal.D7 l => uval (10 * acc + 7) l
  | Decimal.D8 l => uval (10 * acc + 8) l
  | Decimal.D9 l => uval (10 * acc + 9) l
  end.

Definition is_digit (c : ascii) : bool :=
  match Py.digit_val c with Some _ => true | None => false end.

Fixpoint all_digits (s : string) : bool :=
  match s with
  | EmptyString => true
  | String c r => (is_digit c && all_digits r)%bool
  end.


End Aux.

(* ================================================================== *)
(** ** Sample data *)
(* ================================================================== *)

(** Documents, tables and form data on which the model is run. *)
Module Examples.

Definition sdc4 (name : string) : string := XMLBuilder.clark XMLBuilder.SDC4_NS name.

Definition count_meta : FieldMeta :=
  {| meta_ct_id := Some "abc123"; meta_label := Some "Population";
     meta_type := Some "XdCount"; meta_adapter_ctid := None;
     meta_units := None; meta_temporal_types := None |}.

Definition name_meta : FieldMeta :=
  {| meta_ct_id := Some "def456"; meta_label := Some "State";
     meta_type := Some "XdString"; meta_adapter_ctid := None;
     meta_units := None; meta_temporal_types := None |}.

Definition table : FieldMetadata :=
  [("abc123", count_meta); ("def456", name_meta)].



(** A component whose exceptional-value child has no text, and one whose
    child names an exceptional value; both hold a value element. *)
Definition component_empty_ev : Element :=
  Elem (sdc4 "ms-abc123") [] None
    [ Elem "label" [] (Some "Population") [];
      Elem "exceptional-value" [] None [];
      Elem "xdcount-value" [] (Some "5") [] ].

Definition component_with_ev : Element :=
  Elem (sdc4 "ms-abc123") [] None
    [ Elem "label" [] (Some "Population") [];
      Elem "xdcount-value" [] (Some "5") [];
      Elem "exceptional-value" [] (Some "NotPerformed") [] ].

(** Modelled from the spec: the skeleton [xml_skeleton.xml] of a data
    model, which is not part of the sources.  It follows the data model of
    the specification: the placeholders of the instance metadata, an
    optional container, and per component one value placeholder, one
    [ev-placeholder] and the optional leaf elements; a quantified
    component has a units element with the placeholders that
    [_replace_units_placeholder] fills in. *)
Definition skeleton : string :=
"<?xml version='1.0' encoding='UTF-8'?>
<sdc4:dm-dm1 xmlns:sdc4='https://semanticdatacharter.com/ns/sdc4/'>
  <dm-label>State Population</dm-label>
  <dm-language>en-US</dm-language>
  <dm-encoding>utf-8</dm-encoding>
  <creation_timestamp>__PLACEHOLDER__creation_timestamp</creation_timestamp>
  <instance_id>__PLACEHOLDER__instance_id</instance_id>
  <instance_version>__PLACEHOLDER__instance_version</instance_version>
  <current-state>__PLACEHOLDER__current-state</current-state>
  <subject><label>__PLACEHOLDER__subject_name</label></subject>
  <sdc4:ms-c1>
    <label>State Population Data Cluster</label>
    <sdc4:ms-abc123>
      <label>Population</label>
      <act>__PLACEHOLDER__act_abc123</act>
      <ev-placeholder ct_id='abc123'/>
      <vtb>__PLACEHOLDER__vtb_abc123</vtb>
      <vte>__PLACEHOLDER__vte_abc123</vte>
      <tr>__PLACEHOLDER__tr_abc123</tr>
      <modified>__PLACEHOLDER__modified_abc123</modified>
      <latitude>__PLACEHOLDER__latitude_abc123</latitude>
      <longitude>__PLACEHOLDER__longitude_abc123</longitude>
      <xdcount-value>__PLACEHOLDER__xdcount-value_abc123</xdcount-value>
      <xdcount-units><label>__PLACEHOLDER__label_u1</label><xdstring-value>__PLACEHOLDER__xdstring-value_u1</xdstring-value></xdcount-units>
    </sdc4:ms-abc123>
    <sdc4:ms-def456>
      <label>State</label>
      <act>__PLACEHOLDER__act_def456</act>
      <ev-placeholder ct_id='def456'/>
      <vtb>__PLACEHOLDER__vtb_def456</vtb>
      <xdstring-value>__PLACEHOLDER__xdstring-value_def456</xdstring-value>
    </sdc4:ms-def456>
    <sdc4:ms-ghi789>
      <label>Census date</label>
      <ev-placeholder ct_id='ghi789'/>
      <vtb>__PLACEHOLDER__vtb_ghi789</vtb>
      <xdtemporal-date>__PLACEHOLDER__xdtemporal-date_ghi789</xdtemporal-date>
    </sdc4:ms-ghi789>
  </sdc4:ms-c1>
</sdc4:dm-dm1>
".

Definition population_units : UnitsInfo :=
  {| units_ct_id := Some "u1"; units_label := Some "Population units";
     units_symbols := ["people"]; units_def_val := Some "people" |}.

Definition population_meta : FieldMeta :=
  {| meta_ct_id := Some "abc123"; meta_label := Some "Population";
     meta_type := Some "XdCount"; meta_adapter_ctid := None;
     meta_units := Some population_units; meta_temporal_types := None |}.

Definition date_meta : FieldMeta :=
  {| meta_ct_id := Some "ghi789"; meta_label := Some "Census date";
     meta_type := Some "XdTemporal"; meta_adapter_ctid := None;
     meta_units := None; meta_temporal_types := Some ["date"] |}.

Definition FIELD_METADATA : FieldMetadata :=
  [("abc123", population_meta); ("def456", name_meta); ("ghi789", date_meta)].

Definition utcnow (n : nat) : string := "2024-03-15T10:30:00".
Definition cuid_generator (n : nat) : string := "cuid".

(** A builder with the skeleton loaded, on the reference reader (comments
    kept, as [lxml] does) and writer. *)
Definition build (form_data : list (string * Value))
  (metadata : option (list (string * FormMeta))) : Py.res string :=
  XMLBuilder.build_from_form (Some "dm1") (Some "c1") FIELD_METADATA
    (Some "State Population") (Some skeleton)
    (XML.parse true) XML.serialize utcnow cuid_generator
    XMLBuilder.OPTIONAL_CONTAINER_ELEMENTS "i-xyz" form_data metadata 0.

(** The same builder without a skeleton. *)
Definition build_without_skeleton (form_data : list (string * Value))
  : Py.res string :=
  XMLBuilder.build_from_form (Some "dm1") (Some "c1") FIELD_METADATA
    (Some "State Population") None
    (XML.parse true) XML.serialize utcnow cuid_generator
    XMLBuilder.OPTIONAL_CONTAINER_ELEMENTS "i-xyz" form_data None 0.

(** The document a call returned, read again. *)
Definition reread (r : Py.res string) : option Element :=
  match r with
  | Py.Ret doc => XML.parse true doc
  | Py.Raise _ => None
  end.

(** Modelled from the spec: the element of a skeleton that holds the value
    placeholder of a date field. *)
Definition date_slot (ct_id : string) : string :=
  ("<xdtemporal-date>" ++ XMLBuilder.PLACEHOLDER_PREFIX ++ "xdtemporal-date_"
   ++ ct_id ++ "</xdtemporal-date>")%string.

(** The children of the component [ms-<ct_id>] of a document. *)
Definition component_children (doc : option Element) (ct_id : string)
  : option (list Element) :=
  match doc with
  | Some tree =>
      option_map ET.children
        (List.find (ET.has_tag (sdc4 ("ms-" ++ ct_id))) (ET.iter tree))
  | None => None
  end.



Definition substituted (form_data : list (string * Value))
  (metadata : list (string * FormMeta)) : string :=
  XMLBuilder._replace_field_placeholders FIELD_METADATA
    (XMLBuilder._replace_metadata_placeholders utcnow skeleton "i-xyz" 0)
    form_data metadata.

Definition parsed (form_data : list (string * Value))
  (metadata : list (string * FormMeta)) : Element :=
  or_default (XML.parse true (substituted form_data metadata)) (Comment "").


(** A component that carries the [ct-id] attribute the Corrector looks
    for. *)
Definition sample_component : Element :=
  Elem "ms-abc123" [("ct-id", "abc123")] None
    [ Elem "label" [] (Some "Population") [];
      Elem "value" [] (Some "many") [] ].

(** Three documents with a component that carries the [ct-id] of an error:
    one whose value element has the name the schema gives it, one whose
    [value] element lies one level down, one that holds an exceptional
    value already. *)
Definition doc_named_value : string :=
  "<dm><ms-abc123 ct-id='abc123'><label>Population</label><xdcount-value>many</xdcount-value></ms-abc123></dm>".

Definition doc_nested_value : string :=
  "<dm><ms-abc123 ct-id='abc123'><label>Population</label><data><value>many</value></data></ms-abc123></dm>".

Definition doc_with_ev : string :=
  "<dm><ms-abc123 ct-id='abc123'><label>Population</label><value>many</value><exceptional-value>Unknown</exceptional-value></ms-abc123></dm>".

Definition one_error : list (string * string) :=
  [("abc123", "required field missing")].

Definition component (kids : list Element) : Element :=
  Elem "dm" [] None [Elem "ms-abc123" [("ct-id", "abc123")] None kids].


(** Reading a projection: [j[key]] and [j['fields'][key]['value']]. *)
Definition item {F : Type} (j : json F) (key : string) : option (json F) :=
  match j with
  | JDict items => Py.get items key
  | _ => None
  end.

Definition field_value {F : Type} (j : json F) (key : string) : option (json F) :=
  match item j "fields" with
  | Some fields =>
      match item fields key with
      | Some record => item record "value"
      | None => None
      end
  | None => None
  end.

(** The two JSON projections of a document, on the reference reader (which
    drops comments, as [ElementTree] does) and the reference decimals. *)
Definition generate_clean_json (doc : string) : json Dec.F :=
  JSONInstanceGenerator.generate Dec.float (XML.parse false) FIELD_METADATA doc.

Definition extract_query_json (doc : string) : Py.res (json Dec.F) :=
  JSONExtractor.extract Dec.float Dec.str_float (XML.parse false) doc.

(** Form data: a date given with a time of day; a count for the field that
    has units in the table. *)
Definition date_form : list (string * Value) :=
  [("ghi789", VStr "2024-03-15T10:30:00")].

Definition state_form : list (string * Value) :=
  [("abc123", VInt 42); ("def456", VStr "Ohio")].

End Examples.

(* ================================================================== *)
(** ** Validation results ([sdc_validator.py]) *)
(* ================================================================== *)

Module Validation.

(** An error reported by the validator library, by what the code observes
    of it: an object with or without the attributes [ct_id] and [message]
    ([hasattr]), or a [dict]; [str] is [str(error)]. *)
Inductive Error : Type :=
| ErrObject (ct_id message : option string) (str : string)
| ErrDict (items : list (string * string)) (str : string).

(** [ValidationResult] *)
Record ValidationResult : Type := {
  is_valid : bool;
  errors : list (string * string);
  invalid_components : list string
}.

(** The body of the loop of [_format_errors]. *)
Definition format_step (formatted : list (string * string)) (error : Error)
  : list (string * string) :=
  match error with
  | ErrObject (Some ct_id) (Some message) _ => Py.set formatted ct_id message
  | ErrDict items str =>
      Py.set formatted (or_default (Py.get items "ct_id") "unknown")
        (or_default (Py.get items "message") str)
  | ErrObject _ _ str =>
      Py.set formatted
        ("error_" ++ Py.str_int (Z.of_nat (List.length formatted)))%string str
  end.

(** [_format_errors] *)
Definition _format_errors (errors : list Error) : list (string * string) :=
  fold_left format_step errors [].

(** [_extract_component_ids] *)
Definition _extract_component_ids (errors : list Error) : list string :=
  flat_map (fun error =>
              match error with
              | ErrObject (Some ct_id) _ _ => [ct_id]
              | ErrObject None _ _ => []
              | ErrDict items _ =>
                  match Py.get items "ct_id" with
                  | Some ct_id => [ct_id]
                  | None => []
                  end
              end) errors.

Section Validator.

(** [self.validator.validate]: the validator library. *)
Variable validator_validate : string -> list Error.

(** [validate] *)
Definition validate (xml_content : string) : ValidationResult :=
  let errors := validator_validate xml_content in
  {| is_valid := (List.length errors =? 0)%nat;
     errors := _format_errors errors;
     invalid_components := _extract_component_ids errors |}.

End Validator.

End Validation.

(* ================================================================== *)
(** ** Participations of the wizard ([xml_builder.py]) *)
(* ================================================================== *)

Module Wizard.

(** A participation as [_extract_participations] builds it. *)
Record Participation : Type := {
  p_name : Value;
  p_function : Value;
  p_mode : Value;
  p_time : Value;
  p_id : Value
}.

(** [f'participation_{idx}_'] *)
Definition participation_prefix (idx : nat) : string :=
  ("participation_" ++ Py.str_int (Z.of_nat idx) ++ "_")%string.

(** One turn of the loop of [_extract_participations]: the participation
    of index [idx], or [None] where the loop breaks. *)
Definition participation_at (context_data : list (string * Value)) (idx : nat)
  : option Participation :=
  let prefix := participation_prefix idx in
  let name := or_default (Py.get context_data (prefix ++ "name")) VNone in
  let name :=
    if truth_of_value name then name
    else
      let alt_prefix := ("participation_" ++ Py.str_int (Z.of_nat idx))%string in
      or_default (Py.get context_data (alt_prefix ++ "_name")) VNone in
  if truth_of_value name then
    Some {| p_name := name;
            p_function :=
              or_default (Py.get context_data (prefix ++ "function"))
                (or_default (Py.get context_data (prefix ++ "role")) (VStr ""));
            p_mode :=
              or_default (Py.get context_data (prefix ++ "mode"))
                (VStr "face-to-face");
            p_time := or_default (Py.get context_data (prefix ++ "time")) (VStr "");
            p_id := or_default (Py.get context_data (prefix ++ "id")) (VStr "") |}
  else None.

(** The [while True] loop of [_extract_participations] from index [idx];
    [None] when [fuel] turns do not reach the [break]. *)
Fixpoint participations_from (fuel idx : nat) (context_data : list (string * Value))
  : option (list Participation) :=
  match fuel with
  | O => None
  | S fuel' =>
      match participation_at context_data idx with
      | None => Some []
      | Some participation =>
          option_map (cons participation)
            (participations_from fuel' (S idx) context_data)
      end
  end.

(** [_extract_participations] *)
Definition _extract_participations (fuel : nat)
  (context_data : list (string * Value)) : option (list Participation) :=
  participations_from fuel 0 context_data.

End Wizard.

(* ================================================================== *)
(** ** Bulk import ([bulk_import.py]) *)
(* ================================================================== *)

Module BulkImport.

(** [ImportResult] *)
Record ImportResult : Type := {
  filename : string;
  success : bool;
  instance_id : option string;
  error_message : option string;
  validation_status : option string;
  auto_corrected_fields : list (option string)
}.

(** [BulkImportResult]; [datetime] is the type of the readings of the
    clock. *)
Record BulkImportResult {datetime : Type} : Type := {
  total_files : nat;
  successful : nat;
  failed : nat;
  results : list ImportResult;
  started_at : option datetime;
  completed_at : option datetime
}.
Arguments BulkImportResult : clear implicits.

(** [BulkImportResult.get_failures] *)
Definition get_failures {datetime : Type} (r : BulkImportResult datetime)
  : list ImportResult :=
  filter (fun r => negb (success r)) (results r).

(** The result returned for a directory or an archive that cannot be
    read: no file, one failure. *)
Definition not_read {datetime : Type} (name message : string)
  : BulkImportResult datetime :=
  {| total_files := 0; successful := 0; failed := 1;
     results := [ {| filename := name; success := false; instance_id := None;
                     error_message := Some message; validation_status := None;
                     auto_corrected_fields := [] |} ];
     started_at := None; completed_at := None |}.

Section Processor.

Context {Path datetime : Type}.
(** [_process_single_file]: the import of one file, with its reads of the
    file system and its writes to the database and the triple store. *)
Variable _process_single_file : Path -> ImportResult.
(** [Path(p).exists()] *)
Variable path_exists : string -> bool.
(** [list(Path(p).glob('*.xml'))] *)
Variable glob_xml : string -> list Path.
(** The XML files extracted from an archive; [None] stands for
    [zipfile.BadZipFile]. *)
Variable extract_xml : string -> option (list Path).

(** One iteration of the loop of [_process_files]. *)
Definition process_step (result : BulkImportResult datetime) (xml_file : Path)
  : BulkImportResult datetime :=
  let file_result := _process_single_file xml_file in
  {| total_files := total_files result;
     successful := if success file_result then successful result + 1
                   else successful result;
     failed := if success file_result then failed result
               else failed result + 1;
     results := results result ++ [file_result];
     started_at := started_at result;
     completed_at := completed_at result |}.

(** [_process_files]; [started] and [completed] are the two readings of the
    clock. *)
Definition _process_files (started completed : datetime) (xml_files : list Path)
  : BulkImportResult datetime :=
  let result :=
    {| total_files := List.length xml_files; successful := 0; failed := 0;
       results := []; started_at := Some started; completed_at := None |} in
  let result := fold_left process_step xml_files result in
  {| total_files := total_files result; successful := successful result;
     failed := failed result; results := results result;
     started_at := started_at result; completed_at := Some completed |}.

(** [process_directory] *)
Definition process_directory (started completed : datetime)
  (directory_path : string) : BulkImportResult datetime :=
  if negb (path_exists directory_path) then
    not_read directory_path ("Directory not found: " ++ directory_path)
  else _process_files started completed (glob_xml directory_path).

(** [process_zipfile] *)
Definition process_zipfile (started completed : datetime)
  (zip_path : string) : BulkImportResult datetime :=
  if negb (path_exists zip_path) then
    not_read zip_path ("Zip file not found: " ++ zip_path)
  else
    match extract_xml zip_path with
    | Some xml_files => _process_files started completed xml_files
    | None => not_read zip_path ("Invalid zip file: " ++ zip_path)
    end.

End Processor.

End BulkImport.

(* ================================================================== *)
(** ** Notions used to state the further properties *)
(* ================================================================== *)

Module Notions.

(** The characters that delimit markup in the text and the attribute
    values of an XML document. *)
Definition markup : list ascii := ["<"%char; ">"%char; Py.dquote; "'"%char].

(** [s.split(c)[0] if c in s else s] *)
Definition cut (c : ascii) (s : string) : string :=
  if Py.has_char c s then Py.split_head c s else s.

(** [code in self.EV_CODES] *)
Definition valid_code (code : string) : bool :=
  match Py.get XMLBuilder.EV_CODES code with Some _ => true | None => false end.

Definition no_placeholder_tag (d : Element) : bool :=
  negb (ET.has_tag "ev-placeholder" d).

(** A test that looks at the tag of an element only. *)
Definition by_tag (P : Element -> bool) : Prop :=
  forall t a x k a' x' k', P (Elem t a x k) = P (Elem t a' x' k').

(** The tags of the exceptional-value elements the builder writes. *)
Definition ev_tags : list string :=
  map (fun kv => XMLBuilder.clark XMLBuilder.SDC4_NS (fst kv)) XMLBuilder.EV_CODES.

Definition is_ev_element (d : Element) : bool :=
  match ET.tag d with
  | Some t => Py.mem t ev_tags
  | None => false
  end.

(** An element without the [ct-id] attribute the corrector looks for. *)
Definition unmarked (d : Element) : bool :=
  match d with
  | Elem _ a _ _ =>
      match Py.get a "ct-id" with Some _ => false | None => true end
  | Comment _ => false
  end.

Definition plain (d : Element) : bool := (unmarked d && negb (is_ev_element d))%bool.

(** No element of the tree carries the component id of the error. *)
Definition absent (tree : Element) (item : string * string) : bool :=
  match SDCValidator._find_element_by_ct_id tree (fst item) with
  | None => true
  | Some _ => false
  end.


(** The name under which the clean projection reports an entry of the
    table. *)
Definition reported_name (entry : string * FieldMeta) : string :=
  or_default (meta_label (snd entry)) (fst entry).

Definition nonempty_record {F : Type} (j : json F) : bool :=
  match j with
  | JDict (_ :: _) => true
  | _ => false
  end.

(** An error object that has a [ct_id] has a [message] too. *)
Definition with_message (error : Validation.Error) : bool :=
  match error with
  | Validation.ErrObject (Some _) None _ => false
  | _ => true
  end.

(** [k in d] *)
Definition has_key {V : Type} (d : list (string * V)) (k : string) : bool :=
  match Py.get d k with Some _ => true | None => false end.

(** The form holds a name for the participation of index [idx]. *)
Definition named (context_data : list (string * Value)) (idx : nat) : bool :=
  truth_of_value
    (or_default (Py.get context_data (Wizard.participation_prefix idx ++ "name"))
       VNone).

(** The counts of a bulk import agree with its list of results; the
    number of files does too, unless nothing could be read. *)
Definition counted {datetime : Type} (r : BulkImport.BulkImportResult datetime)
  : Prop :=
  BulkImport.successful r + BulkImport.failed r = List.length (BulkImport.results r) /\
  BulkImport.failed r = List.length (BulkImport.get_failures r) /\
  (BulkImport.total_files r = List.length (BulkImport.results r) \/
   BulkImport.total_files r = 0 /\ BulkImport.successful r = 0 /\
   BulkImport.failed r = 1).

End Notions.

(* ================================================================== *)
(** ** Further sample data *)
(* ================================================================== *)

Module Samples.


(** The context of a wizard with two participations, and a third name
    behind a gap. *)
Definition context_form : list (string * Value) :=
  [ ("participation_0_name", VStr "Ann");
    ("participation_0_function", VStr "nurse");
    ("participation_1_name", VStr "Bob");
    ("participation_3_name", VStr "Eve") ].

(** A validator that reports an error object and a dictionary. *)
Definition reported (xml_content : string) : list Validation.Error :=
  [ Validation.ErrObject (Some "abc123") (Some "required field missing") "e1";
    Validation.ErrDict [("message", "bad format")] "e2" ].

(** An error for a component that [Examples.doc_named_value] does not
    hold. *)
Definition other_error : list (string * string) :=
  [("zzz999", "required field missing")].

Definition named_value_tree : Element :=
  or_default (XML.parse false Examples.doc_named_value) (Comment "").

Definition state_component : Element :=
  Elem (Examples.sdc4 "ms-def456") [] None
    [ Elem "label" [] (Some "State") [];
      Elem "xdstring-value" [] (Some "Ohio") [] ].

Definition state_record : list (string * json Dec.F) :=
  or_default
    (JSONInstanceGenerator._extract_field_data Dec.float state_component "XdString")
    [].

End Samples.

(* ================================================================== *)
(** * Properties *)
(* ================================================================== *)

Module ETFacts.

Lemma first_path_unfold (p : Element -> bool) (e : Element) :
  ET.first_path p e =
  if p e then Some [] else ET.first_path_in p 0 (ET.children e).
Proof.
  destruct e as [t a x kids|b]; simpl.
  - destruct (p (Elem t a x kids)); [reflexivity|].
    generalize 0. induction kids as [|k l IH]; intros i; simpl; [reflexivity|].
    destruct (ET.first_path p k); [reflexivity|]. apply IH.
  - destruct (p (Comment b)); reflexivity.
Qed.

Lemma first_path_in_node (p : Element -> bool) (l : list Element) :
  Forall (fun k => forall q, ET.first_path p k = Some q ->
                     exists d, ET.node k q = Some d /\ p d = true) l ->
  forall pre i q, i = List.length pre ->
    ET.first_path_in p i l = Some q ->
    exists j q' k, q = j :: q' /\ nth_error (pre ++ l) j = Some k /\
                   (exists d, ET.node k q' = Some d /\ p d = true).
Proof.
  induction 1 as [|k l Hk Hl IH]; intros pre i q Hi Hq; simpl in Hq.
  - discriminate.
  - destruct (ET.first_path p k) as [q'|] eqn:Ek.
    + inversion Hq; subst. exists (List.length pre), q', k.
      split; [reflexivity|]. split.
      * rewrite nth_error_app2 by lia. rewrite Nat.sub_diag. reflexivity.
      * apply Hk. reflexivity.
    + specialize (IH (pre ++ [k]) (S i) q).
      rewrite <- app_assoc in IH. simpl in IH. apply IH; [|exact Hq].
      rewrite length_app. simpl. lia.
Qed.

(** The reference returned by a search leads to a node that satisfies the
    test. *)
Lemma first_path_node (p : Element -> bool) (e : Element) :
  forall q, ET.first_path p e = Some q ->
    exists d, ET.node e q = Some d /\ p d = true.
Proof.
  induction e as [b|t a x kids IH] using Element_rect'; intros q Hq;
    rewrite first_path_unfold in Hq.
  - destruct (p (Comment b)) eqn:E; [|discriminate].
    inversion Hq; subst. exists (Comment b). split; [reflexivity|exact E].
  - destruct (p (Elem t a x kids)) eqn:E.
    + inversion Hq; subst. exists (Elem t a x kids). split; [reflexivity|exact E].
    + simpl in Hq.
      destruct (first_path_in_node p kids IH [] 0 q eq_refl Hq)
        as (j & q' & k & -> & Hn & d & Hd & Hp).
      exists d. split; [|exact Hp]. simpl in *. rewrite Hn. exact Hd.
Qed.

Lemma nth_error_replace_nth {A : Type} (l : list A) (i : nat) (x y : A) :
  nth_error l i = Some y -> nth_error (ET.replace_nth l i x) i = Some x.
Proof.
  revert i. induction l as [|a l IH]; intros [|i] H; simpl in *;
    try discriminate; [reflexivity|]. apply IH. exact H.
Qed.

(** After a node has been mutated, its reference leads to the new node. *)
Lemma node_update (f : Element -> Element) :
  forall q e d, ET.node e q = Some d -> ET.node (ET.update e q f) q = Some (f d).
Proof.
  induction q as [|i q IH]; intros e d H; simpl in *.
  - inversion H; subst. reflexivity.
  - destruct e as [t a x kids|b]; simpl in *.
    + destruct (nth_error kids i) as [k|] eqn:Ek; [|discriminate].
      simpl. rewrite (nth_error_replace_nth kids i _ k Ek). apply IH. exact H.
    + destruct i; discriminate.
Qed.

End ETFacts.

(* ------------------------------------------------------------------ *)
(** *** The Corrector *)
(* ------------------------------------------------------------------ *)

Module CorrectorFacts.

Import SDCValidator.

Lemma has_ct_id_elem (ct_id : string) (e : Element) :
  has_ct_id ct_id e = true -> exists t a x kids, e = Elem t a x kids.
Proof.
  destruct e as [t a x kids|b]; intros H.
  - eauto.
  - discriminate.
Qed.

(** What the loop body does to a located element, by the place of its
    first [value] descendant. *)
Lemma correct_component_cases (t : string) (a : list (string * string))
  (x : option string) (kids : list Element) (ct_id msg : string) :
  let elem := Elem t a x kids in
  match correct_component elem ct_id msg with
  | Py.Ret (elem', _) =>
      exists kids',
        elem' = Elem t a x (kids' ++ [ev_element (_choose_ev_for_error msg)]) /\
        (ET.find_path elem "value" = None /\ kids' = kids \/
         exists i, ET.find_path elem "value" = Some [i] /\
                   kids' = ET.remove_nth kids i)
  | Py.Raise e =>
      e = Py.ValueError /\
      exists q, ET.find_path elem "value" = Some q /\ List.length q <> 1
  end.
Proof.
  intros elem. unfold correct_component.
  destruct (ET.find_path elem "value") as [q|] eqn:Eq; simpl.
  - destruct q as [|i [|j q]]; simpl.
    + split; [reflexivity|]. exists []. split; [reflexivity|]. simpl. lia.
    + destruct (i <? List.length kids)%nat eqn:Ei; simpl.
      * exists (ET.remove_nth kids i). split; [reflexivity|].
        right. exists i. split; reflexivity.
      * split; [reflexivity|].
        exfalso. unfold ET.find_path in Eq. simpl in Eq.
        apply Nat.ltb_ge in Ei.
        assert (H : forall l pre n q, n = List.length pre ->
                  ET.first_path_in (ET.has_tag "value") n l = Some q ->
                  exists j r, q = j :: r /\ (j < List.length (pre ++ l))%nat).
        { induction l as [|k l IH]; intros pre n q0 Hn Hq; simpl in Hq;
            [discriminate|].
          destruct (ET.first_path (ET.has_tag "value") k).
          - inversion Hq; subst. eexists _, _. split; [reflexivity|].
            rewrite length_app. simpl. lia.
          - destruct (IH (pre ++ [k]) (S n) q0) as (j & r & -> & Hj).
            + rewrite length_app. simpl. lia.
            + exact Hq.
            + rewrite <- app_assoc in Hj. simpl in Hj. eauto. }
        destruct (H kids [] 0 [i] eq_refl Eq) as (j & r & Hjr & Hj).
        inversion Hjr; subst. simpl in Hj. lia.
    + split; [reflexivity|]. eexists. split; [reflexivity|]. simpl. lia.
  - exists kids. split; [reflexivity|]. left. split; reflexivity.
Qed.

Lemma choose_ev_first_match (error_msg : string) :
  _choose_ev_for_error error_msg =
  Spec.first_match Spec.EV_RULES (Py.lower error_msg) "NoInformation".
Proof. reflexivity. Qed.

(** C5.  The EV is chosen by the ordered rule table, the first rule with a
    keyword in the lower-cased message winning and NoInformation being the
    default; the message "required field missing" gives NotPerformed, and
    correcting a located component with it either appends the element
    exceptional-value with text NotPerformed as the last child, or raises
    because the first value descendant is not a direct child. *)
Theorem choose_ev_ordered_heuristic :
  (forall error_msg,
     _choose_ev_for_error error_msg =
     Spec.first_match Spec.EV_RULES (Py.lower error_msg) "NoInformation") /\
  _choose_ev_for_error "required field missing" = "NotPerformed" /\
  (forall tree ct_id p,
     _find_element_by_ct_id tree ct_id = Some p ->
     match correct_tree tree [(ct_id, "required field missing")] with
     | Py.Ret (tree', labels) =>
         exists elem' kids',
           ET.node tree' p = Some elem' /\
           ET.children elem' =
             kids' ++ [Elem "exceptional-value" [] (Some "NotPerformed") []] /\
           List.length labels = 1
     | Py.Raise _ =>
         exists elem q,
           ET.node tree p = Some elem /\
           ET.find_path elem "value" = Some q /\ List.length q <> 1
     end).
Proof.
  split; [exact choose_ev_first_match|]. split; [reflexivity|].
  intros tree ct_id p Hp.
  unfold correct_tree. simpl. rewrite Hp.
  destruct (ETFacts.first_path_node _ _ _ Hp) as (elem & Hn & Hc).
  rewrite Hn.
  destruct (has_ct_id_elem _ _ Hc) as (t & a & x & kids & ->).
  pose proof (correct_component_cases t a x kids ct_id "required field missing") as H.
  simpl in H.
  destruct (correct_component (Elem t a x kids) ct_id "required field missing")
    as [[elem' lbl]|e]; simpl.
  - destruct H as (kids' & -> & _).
    eexists _, kids'. split; [apply ETFacts.node_update; exact Hn|].
    split; reflexivity.
  - destruct H as (_ & q & Hq & Hl). exists (Elem t a x kids), q. auto.
Qed.

Lemma choose_ev_ordered_heuristic_witness :
  _find_element_by_ct_id (Elem "dm" [] None [Examples.sample_component]) "abc123"
    = Some [0] /\
  exists elem' kids',
    ET.node (Elem "dm" [] None
               [Elem "ms-abc123" [("ct-id", "abc123")] None
                  [ Elem "label" [] (Some "Population") [];
                    Elem "exceptional-value" [] (Some "NotPerformed") [] ]])
      [0] = Some elem' /\
    ET.children elem' =
      kids' ++ [Elem "exceptional-value" [] (Some "NotPerformed") []] /\
    List.length [Some "Population"] = 1.
Proof.
  split; [reflexivity|].
  exact (proj2 (proj2 choose_ev_ordered_heuristic)
           (Elem "dm" [] None [Examples.sample_component]) "abc123" [0] eq_refl).
Defined.

(** C9.  Input that does not parse is returned unchanged, with no
    corrected label, and nothing is raised. *)
Theorem auto_correct_unparseable
  (fromstring : string -> option Element) (tostring : Element -> string)
  (xml_content : string) (errors : list (string * string)) :
  fromstring xml_content = None ->
  auto_correct_with_evs fromstring tostring xml_content errors =
  Py.Ret (xml_content, []).
Proof.
  intros H. unfold auto_correct_with_evs. rewrite H. reflexivity.
Qed.

Lemma auto_correct_unparseable_witness :
  XML.parse false "<dm><label>Population</dm>" = None /\
  auto_correct_with_evs (XML.parse false) XML.serialize
    "<dm><label>Population</dm>" [("abc123", "required field missing")] =
  Py.Ret ("<dm><label>Population</dm>", []).
Proof.
  split; [reflexivity|].
  apply (auto_correct_unparseable (XML.parse false) XML.serialize
           "<dm><label>Population</dm>" [("abc123", "required field missing")]).
  reflexivity.
Defined.

(** C1.  The Corrector on three documents it locates a component in: the
    value element named xdcount-value is still a child after the
    correction; a value element below a child of the component makes the
    call raise ValueError; a component that held an exceptional-value child
    holds two afterwards. *)
Theorem auto_correct_keeps_value_element :
  (XML.parse false Examples.doc_named_value =
     Some (Examples.component [ Elem "label" [] (Some "Population") [];
                       Elem "xdcount-value" [] (Some "many") [] ]) /\
   correct_tree
     (Examples.component [ Elem "label" [] (Some "Population") [];
                  Elem "xdcount-value" [] (Some "many") [] ]) Examples.one_error =
   Py.Ret (Examples.component [ Elem "label" [] (Some "Population") [];
                       Elem "xdcount-value" [] (Some "many") [];
                       Elem "exceptional-value" [] (Some "NotPerformed") [] ],
           [Some "Population"])) /\
  (XML.parse false Examples.doc_nested_value =
     Some (Examples.component [ Elem "label" [] (Some "Population") [];
                       Elem "data" [] None [Elem "value" [] (Some "many") []] ]) /\
   auto_correct_with_evs (XML.parse false) XML.serialize
     Examples.doc_nested_value Examples.one_error =
   Py.Raise Py.ValueError) /\
  (XML.parse false Examples.doc_with_ev =
     Some (Examples.component [ Elem "label" [] (Some "Population") [];
                       Elem "value" [] (Some "many") [];
                       Elem "exceptional-value" [] (Some "Unknown") [] ]) /\
   correct_tree
     (Examples.component [ Elem "label" [] (Some "Population") [];
                  Elem "value" [] (Some "many") [];
                  Elem "exceptional-value" [] (Some "Unknown") [] ]) Examples.one_error =
   Py.Ret (Examples.component [ Elem "label" [] (Some "Population") [];
                       Elem "exceptional-value" [] (Some "Unknown") [];
                       Elem "exceptional-value" [] (Some "NotPerformed") [] ],
           [Some "Population"])).
Proof.
  repeat split; vm_compute; reflexivity.
Qed.

End CorrectorFacts.

(* ------------------------------------------------------------------ *)
(** *** Strings *)
(* ------------------------------------------------------------------ *)

Module PyFacts.

Import Aux.

Lemma append_assoc (a b c : string) : ((a ++ b) ++ c = a ++ (b ++ c))%string.
Proof. induction a as [|x a IH]; simpl; [reflexivity|]. now rewrite IH. Qed.

Lemma append_nil_r (a : string) : (a ++ "")%string = a.
Proof. induction a as [|x a IH]; simpl; [reflexivity|]. now rewrite IH. Qed.

Lemma prefix_nil (s : string) : String.prefix "" s = true.
Proof. destruct s; reflexivity. Qed.

Lemma smap_app (f : ascii -> string) (s1 s2 : string) :
  smap f (s1 ++ s2) = (smap f s1 ++ smap f s2)%string.
Proof.
  induction s1 as [|a s1 IH]; simpl; [reflexivity|].
  rewrite IH. now rewrite append_assoc.
Qed.

(** Replacing a one-character pattern acts on each character. *)
Lemma replace_char (c : ascii) (new s : string) :
  Py.replace (Py.chr c) new s =
  smap (fun a => if Ascii.eqb a c then new else Py.chr a) s.
Proof.
  unfold Py.replace, Py.chr.
  induction s as [|a s IH]; [reflexivity|].
  cbn [Py.replace_from String.prefix String.length Nat.sub smap].
  destruct (ascii_dec c a) as [->|Hne].
  - rewrite Ascii.eqb_refl, prefix_nil. now rewrite IH.
  - destruct (Ascii.eqb a c) eqn:E.
    + apply Ascii.eqb_eq in E. congruence.
    + rewrite IH. reflexivity.
Qed.

Lemma replace_char_app (c : ascii) (new s1 s2 : string) :
  Py.replace (Py.chr c) new (s1 ++ s2) =
  (Py.replace (Py.chr c) new s1 ++ Py.replace (Py.chr c) new s2)%string.
Proof. rewrite !replace_char. apply smap_app. Qed.

End PyFacts.

(* ------------------------------------------------------------------ *)
(** *** The RDF Extractor *)
(* ------------------------------------------------------------------ *)

Module RDFFacts.

Import RDFExtractor.








End RDFFacts.

Module RDFWitness.

Import RDFExtractor.


End RDFWitness.

(* ------------------------------------------------------------------ *)
(** *** The JSON projections *)
(* ------------------------------------------------------------------ *)

Module JSONFacts.

(** On a component whose exceptional-value child is empty the record holds
    the value, and no exceptional value. *)
Lemma extract_field_empty_ev_reports_value :
  Spec.has_ev_child Examples.component_empty_ev = true /\
  JSONExtractor._extract_field Dec.float Examples.component_empty_ev =
  Py.Ret (Some [("label", JStr "Population"); ("value", JInt 5)]).
Proof. split; reflexivity. Qed.

(** C8, amended.  When the first exceptional-value element below the
    component has a text, the record holds that text under
    exceptional_value, and the label when the first label element has a
    text, and nothing else: no value, units, valid times or location, also
    when a value element is present. *)
Theorem extract_field_ev_only {F : Type} (float : string -> option F)
  (elem : Element) (ev : string) :
  JSONExtractor.find_text elem "exceptional-value" = Some ev ->
  exists record,
    JSONExtractor._extract_field float elem = Py.Ret (Some record) /\
    record =
      (match JSONExtractor.find_text elem "label" with
       | Some l => [("label", JStr l)]
       | None => []
       end ++ [("exceptional_value", JStr ev)])%list /\
    Py.get record "value" = None /\
    Py.get record "units" = None /\
    Py.get record "valid_time_begin" = None /\
    Py.get record "valid_time_end" = None /\
    Py.get record "location" = None.
Proof.
  intros H. unfold JSONExtractor._extract_field. rewrite H.
  destruct (JSONExtractor.find_text elem "label") as [l|];
    eexists; (split; [reflexivity|]); repeat split.
Qed.

Lemma extract_field_ev_only_witness :
  JSONExtractor.find_text Examples.component_with_ev "exceptional-value" =
    Some "NotPerformed" /\
  exists record,
    JSONExtractor._extract_field Dec.float Examples.component_with_ev =
      Py.Ret (Some record) /\
    record =
      (match JSONExtractor.find_text Examples.component_with_ev "label" with
       | Some l => [("label", JStr l)]
       | None => []
       end ++ [("exceptional_value", JStr "NotPerformed")])%list /\
    Py.get record "value" = None /\
    Py.get record "units" = None /\
    Py.get record "valid_time_begin" = None /\
    Py.get record "valid_time_end" = None /\
    Py.get record "location" = None.
Proof.
  split; [reflexivity|].
  apply (extract_field_ev_only Dec.float Examples.component_with_ev "NotPerformed").
  reflexivity.
Defined.

(** C10.  On input that does not parse the query extractor returns its
    empty record, the clean generator the empty dictionary and the RDF
    extractor the empty string. *)
Theorem projections_unparseable {F : Type} (float : string -> option F)
  (str_float : F -> string) (fromstring : string -> option Element)
  (dm_ct_id dm_label : string) (field_metadata : FieldMetadata)
  (xml_content instance_id validation_status : string)
  (auto_corrected_fields : list (option string)) :
  fromstring xml_content = None ->
  JSONExtractor.extract float str_float fromstring xml_content =
    Py.Ret (JDict [("metadata", JDict []); ("fields", JDict []);
                   ("search_text", JStr "")]) /\
  JSONInstanceGenerator.generate float fromstring field_metadata xml_content =
    JDict [] /\
  RDFExtractor.extract dm_ct_id dm_label field_metadata fromstring xml_content
    instance_id validation_status auto_corrected_fields = "".
Proof.
  intros H.
  unfold JSONExtractor.extract, JSONInstanceGenerator.generate,
    RDFExtractor.extract.
  rewrite H. repeat split.
Qed.

Lemma projections_unparseable_witness :
  XML.parse false "<dm><label>Population</dm>" = None /\
  JSONExtractor.extract Dec.float Dec.str_float (XML.parse false)
    "<dm><label>Population</dm>" =
    Py.Ret (JDict [("metadata", JDict []); ("fields", JDict []);
                   ("search_text", JStr "")]) /\
  JSONInstanceGenerator.generate Dec.float (XML.parse false) Examples.table
    "<dm><label>Population</dm>" = JDict [] /\
  RDFExtractor.extract "dm1" "Model" Examples.table (XML.parse false)
    "<dm><label>Population</dm>" "i-xyz" "valid" [] = "".
Proof.
  split; [reflexivity|].
  apply (projections_unparseable Dec.float Dec.str_float (XML.parse false)
           "dm1" "Model" Examples.table "<dm><label>Population</dm>"
           "i-xyz" "valid" []).
  reflexivity.
Defined.

End JSONFacts.

(* ------------------------------------------------------------------ *)
(** *** Replacement in a template *)
(* ------------------------------------------------------------------ *)

Module ReplaceFacts.

Import Aux.

Lemma prefix_app (p r : string) : String.prefix p (p ++ r) = true.
Proof.
  induction p as [|a p IH]; simpl; [apply PyFacts.prefix_nil|].
  destruct (ascii_dec a a); [exact IH|congruence].
Qed.

Lemma replace_from_skip (a old new r : string) :
  Py.replace_from (String.length a) old new (a ++ r) =
  Py.replace_from 0 old new r.
Proof.
  induction a as [|c a IH]; simpl; [reflexivity|exact IH].
Qed.

Lemma replace_from_at (c : ascii) (o new pre post : string) :
  free_before (String c o) pre (String c o ++ post) = true ->
  Py.replace_from 0 (String c o) new (pre ++ String c o ++ post) =
  (pre ++ new ++ Py.replace_from 0 (String c o) new post)%string.
Proof.
  induction pre as [|a pre IH]; intros H.
  - change (("" ++ String c o ++ post)%string) with (String c (o ++ post)).
    cbn [Py.replace_from].
    change (String c (o ++ post)) with (String c o ++ post)%string.
    rewrite prefix_app. cbn [String.length Nat.sub append].
    rewrite Nat.sub_0_r, replace_from_skip. reflexivity.
  - cbn [free_before] in H. apply andb_prop in H. destruct H as [H1 H2].
    apply negb_true_iff in H1.
    change ((String a pre ++ String c o ++ post)%string)
      with (String a (pre ++ String c o ++ post)) in *.
    cbn [Py.replace_from]. rewrite H1. rewrite (IH H2). reflexivity.
Qed.

Lemma replace_from_free (c : ascii) (o new s : string) :
  free_before (String c o) s "" = true ->
  Py.replace_from 0 (String c o) new s = s.
Proof.
  induction s as [|a s IH]; intros H; [reflexivity|].
  cbn [free_before] in H. apply andb_prop in H. destruct H as [H1 H2].
  apply negb_true_iff in H1. rewrite PyFacts.append_nil_r in H1.
  cbn [Py.replace_from]. rewrite H1, (IH H2). reflexivity.
Qed.

(** One occurrence of a pattern, between a text in which no occurrence
    begins and a text without occurrence, is replaced where it stands. *)
Lemma replace_between (old new pre post : string) :
  old <> EmptyString ->
  free_before old pre (old ++ post) = true ->
  free_before old post "" = true ->
  Py.replace old new (pre ++ old ++ post) = (pre ++ new ++ post)%string.
Proof.
  destruct old as [|c o]; [congruence|]. intros _ H1 H2.
  unfold Py.replace. rewrite (replace_from_at c o new pre post H1).
  rewrite (replace_from_free c o new post H2). reflexivity.
Qed.

Lemma split_head_absent (c : ascii) (s : string) :
  Py.has_char c s = false -> Py.split_head c s = s.
Proof.
  induction s as [|a s IH]; simpl; [reflexivity|].
  destruct (Ascii.eqb a c); simpl; [discriminate|].
  intros H. now rewrite IH.
Qed.

Lemma split_head_if (c : ascii) (s : string) :
  (if Py.has_char c s then Py.split_head c s else s) = Py.split_head c s.
Proof.
  destruct (Py.has_char c s) eqn:E; [reflexivity|].
  symmetry. now apply split_head_absent.
Qed.

Lemma truncate_split (s : string) :
  Py.split_head "T" (Py.split_head " " s) = Spec.truncate_at_space_or_T s.
Proof.
  induction s as [|a s IH]; simpl; [reflexivity|].
  destruct (Ascii.eqb a " "); simpl; [reflexivity|].
  destruct (Ascii.eqb a "T"); simpl; [reflexivity|].
  now rewrite IH.
Qed.

End ReplaceFacts.

(* ------------------------------------------------------------------ *)
(** *** The Document Builder: values *)
(* ------------------------------------------------------------------ *)

Module FormatFacts.

Import XMLBuilder.

Lemma format_date_string (s : string) :
  _format_temporal_value (VStr s) "date" = Spec.truncate_at_space_or_T s.
Proof.
  destruct s as [|a s]; [reflexivity|].
  unfold _format_temporal_value, str_of_value, format_temporal_string.
  cbn [String.eqb Ascii.eqb Bool.eqb].
  rewrite !ReplaceFacts.split_head_if.
  apply ReplaceFacts.truncate_split.
Qed.

Lemma replace_date_slot (field_metadata : FieldMetadata) (ct_id : string)
  (meta : FieldMeta) (s : string) (rest : list string)
  (form_data : list (string * Value)) (metadata_dict : list (string * FormMeta)) :
  meta_type meta = Some "XdTemporal" ->
  meta_temporal_types meta = Some ("date" :: rest) ->
  Py.get form_data ct_id = Some (VStr s) ->
  s <> "" ->
  Py.get metadata_dict ct_id = None ->
  replace_field field_metadata form_data metadata_dict
    (Examples.date_slot ct_id) (ct_id, meta) =
  ("<xdtemporal-date>" ++ _escape_xml (Spec.truncate_at_space_or_T s)
   ++ "</xdtemporal-date>")%string.
Proof.
  intros Ht Htt Hv Hs Hm.
  unfold replace_field. rewrite Ht, Hv, Hm. cbn [or_default].
  unfold _get_value_element_name. rewrite Htt.
  cbn [String.eqb Ascii.eqb Bool.eqb or_default Py.get temporal_element_map].
  assert (Hsup : is_supplied (VStr s) = true)
    by (destruct s; [congruence|reflexivity]).
  rewrite Hsup.
  unfold formatted_value. rewrite Htt.
  cbn [String.eqb Ascii.eqb Bool.eqb or_default].
  rewrite format_date_string.
  unfold _replace_units_placeholder.
  cbn [Py.mem existsb quantified_types String.eqb Ascii.eqb Bool.eqb negb orb].
  unfold _replace_optional_metadata, no_form_meta, replace_if.
  cbn [form_act form_vtb form_vte form_tr form_mod form_location].
  unfold Examples.date_slot.
  change (PLACEHOLDER_PREFIX ++ "xdtemporal-date_" ++ ct_id
          ++ "</xdtemporal-date>")%string
    with ((PLACEHOLDER_PREFIX ++ "xdtemporal-date" ++ "_" ++ ct_id)
          ++ "</xdtemporal-date>")%string.
  apply ReplaceFacts.replace_between.
  - discriminate.
  - reflexivity.
  - reflexivity.
Qed.

(** C6.  A string value of a date field is cut at its first space or T;
    the value element is named after the first entry of temporal_types;
    the placeholder of the date element of a skeleton gives way to the cut
    value, and the value 2024-03-15T10:30:00 gives the element
    xdtemporal-date with the text 2024-03-15, also in the document built
    from the sample skeleton. *)
Theorem temporal_date_truncation :
  (forall s,
     _format_temporal_value (VStr s) "date" = Spec.truncate_at_space_or_T s) /\
  (forall meta first rest,
     meta_temporal_types meta = Some (first :: rest) ->
     _get_value_element_name "XdTemporal" meta =
       or_default (Py.get temporal_element_map first) "xdtemporal-date") /\
  (forall field_metadata ct_id meta s rest form_data metadata_dict,
     meta_type meta = Some "XdTemporal" ->
     meta_temporal_types meta = Some ("date" :: rest) ->
     Py.get form_data ct_id = Some (VStr s) ->
     s <> "" ->
     Py.get metadata_dict ct_id = None ->
     replace_field field_metadata form_data metadata_dict
       (Examples.date_slot ct_id) (ct_id, meta) =
     ("<xdtemporal-date>" ++ _escape_xml (Spec.truncate_at_space_or_T s)
      ++ "</xdtemporal-date>")%string) /\
  replace_field Examples.FIELD_METADATA
    [("ghi789", VStr "2024-03-15T10:30:00")] []
    (Examples.date_slot "ghi789") ("ghi789", Examples.date_meta) =
    "<xdtemporal-date>2024-03-15</xdtemporal-date>" /\
  Examples.component_children
    (Examples.reread
       (Examples.build [("ghi789", VStr "2024-03-15T10:30:00")] None))
    "ghi789" =
    Some [ Elem "label" [] (Some "Census date") [];
           Elem "xdtemporal-date" [] (Some "2024-03-15") [] ].
Proof.
  split; [exact format_date_string|].
  split.
  { intros meta first rest H. unfold _get_value_element_name.
    rewrite H. reflexivity. }
  split; [exact replace_date_slot|].
  split; vm_compute; reflexivity.
Qed.

Lemma temporal_date_truncation_witness :
  (meta_temporal_types Examples.date_meta = Some ["date"] /\
   _get_value_element_name "XdTemporal" Examples.date_meta = "xdtemporal-date") /\
  (meta_type Examples.date_meta = Some "XdTemporal" /\
   Py.get [("ghi789", VStr "2024-03-15T10:30:00")] "ghi789" =
     Some (VStr "2024-03-15T10:30:00") /\
   "2024-03-15T10:30:00" <> "" /\
   replace_field Examples.FIELD_METADATA
     [("ghi789", VStr "2024-03-15T10:30:00")] []
     (Examples.date_slot "ghi789") ("ghi789", Examples.date_meta) =
   "<xdtemporal-date>2024-03-15</xdtemporal-date>").
Proof.
  split.
  - split; [reflexivity|].
    exact (proj1 (proj2 temporal_date_truncation) Examples.date_meta "date" []
             eq_refl).
  - split; [reflexivity|]. split; [reflexivity|].
    assert (Hne : "2024-03-15T10:30:00" <> "") by discriminate.
    split; [exact Hne|].
    exact (proj1 (proj2 (proj2 temporal_date_truncation))
             Examples.FIELD_METADATA "ghi789" Examples.date_meta
             "2024-03-15T10:30:00" [] [("ghi789", VStr "2024-03-15T10:30:00")] []
             eq_refl eq_refl eq_refl Hne eq_refl).
Defined.

End FormatFacts.

(* ------------------------------------------------------------------ *)
(** *** The Document Builder: the passes over the tree *)
(* ------------------------------------------------------------------ *)

Module TreeFacts.

Import XMLBuilder Spec Aux.

Lemma flat_map_ext_Forall {A B : Type} (f g : A -> list B) (l : list A) :
  Forall (fun a => f a = g a) l -> flat_map f l = flat_map g l.
Proof. induction 1 as [|a l H _ IH]; simpl; [reflexivity|]. now rewrite H, IH. Qed.

Lemma prune_named_filter (name : string) (e : Element) :
  prune_containers_named name e =
  filter_tree (fun k => negb (ET.has_tag name k && _is_empty_container k)) e.
Proof.
  induction e as [b|t a x kids IH] using Element_rect'; [reflexivity|].
  simpl. f_equal. apply flat_map_ext_Forall.
  eapply Forall_impl; [|exact IH]. intros k Hk. cbv beta.
  destruct (ET.has_tag name k && _is_empty_container k)%bool; simpl;
    [reflexivity|]. now rewrite Hk.
Qed.

Lemma remove_comments_filter (e : Element) :
  _remove_comments e = filter_tree is_element e.
Proof.
  induction e as [b|t a x kids IH] using Element_rect'; [reflexivity|].
  simpl. f_equal. apply flat_map_ext_Forall.
  eapply Forall_impl; [|exact IH]. intros k Hk. cbv beta.
  destruct k; simpl in *; [now rewrite Hk|reflexivity].
Qed.

(** Every node of a filtered tree is the image of a node of the tree. *)
Lemma filter_tree_iter (keep : Element -> bool) (e : Element) :
  forall d, In d (ET.iter (filter_tree keep e)) ->
    exists d0, In d0 (ET.iter e) /\ d = filter_tree keep d0.
Proof.
  induction e as [b|t a x kids IH] using Element_rect'; intros d Hd.
  - simpl in Hd. destruct Hd as [<-|[]]. exists (Comment b). simpl. auto.
  - simpl in Hd. destruct Hd as [<-|Hd].
    + exists (Elem t a x kids). split; [simpl; auto|reflexivity].
    + apply in_flat_map in Hd. destruct Hd as (k' & Hk' & Hd).
      apply in_flat_map in Hk'. destruct Hk' as (k & Hk & Hk').
      destruct (keep k); [|destruct Hk'].
      destruct Hk' as [<-|[]].
      rewrite Forall_forall in IH.
      destruct (IH k Hk d Hd) as (d0 & Hd0 & ->).
      exists d0. split; [|reflexivity].
      simpl. right. apply in_flat_map. exists k. auto.
Qed.

Lemma filter_tree_descendants (keep : Element -> bool) (e : Element) :
  forall d, In d (ET.descendants (filter_tree keep e)) ->
    exists d0, In d0 (ET.descendants e) /\ d = filter_tree keep d0.
Proof.
  destruct e as [t a x kids|b]; intros d Hd; [|destruct Hd].
  unfold ET.descendants in *. simpl in Hd.
  apply in_flat_map in Hd. destruct Hd as (k' & Hk' & Hd).
  apply in_flat_map in Hk'. destruct Hk' as (k & Hk & Hk').
  destruct (keep k); [|destruct Hk']. destruct Hk' as [<-|[]].
  destruct (filter_tree_iter keep k d Hd) as (d0 & Hd0 & ->).
  exists d0. split; [|reflexivity]. simpl. apply in_flat_map. exists k. auto.
Qed.

Lemma unpopulated_filter (keep : Element -> bool) (e : Element) :
  unpopulated_optional (filter_tree keep e) = unpopulated_optional e.
Proof. destruct e; reflexivity. Qed.

Lemma clean_filter (keep : Element -> bool) (e : Element) :
  clean e -> clean (filter_tree keep e).
Proof.
  intros H d Hd. destruct (filter_tree_descendants keep e d Hd) as (d0 & Hd0 & ->).
  rewrite unpopulated_filter. now apply H.
Qed.

Section Prune.

Variable utcnow cuid : nat -> string.

Lemma find_unfold (t : string) (a : list (string * string)) (x : option string)
  (kids : list Element) (n : nat) :
  _find_placeholder_elements utcnow cuid (Elem t a x kids) n =
  let tag_name := localname t in
  let required := (has_placeholder x && Py.mem tag_name REQUIRED_TAGS)%bool in
  if (has_placeholder x && negb required && Py.mem tag_name OPTIONAL_ELEMENTS)%bool
  then (true, Elem t a x kids, n)
  else
    let x1 := if required then Some (required_default utcnow cuid tag_name n) else x in
    let n1 := if required then S n else n in
    let '(kids', n2) := each_child utcnow cuid kids n1 in
    (has_optional_comment x1, Elem t a x1 kids', n2).
Proof.
  cbn [_find_placeholder_elements]. cbv zeta.
  destruct (has_placeholder x && negb (has_placeholder x && Py.mem (localname t) REQUIRED_TAGS) && Py.mem (localname t) OPTIONAL_ELEMENTS)%bool; [reflexivity|].
  match goal with |- (let '(_, _) := ?F kids _ in _) = _ =>
    assert (E : forall l j, F l j = each_child utcnow cuid l j) end.
  { induction l as [|k l IH]; intros j; [reflexivity|].
    cbn [each_child].
    destruct (_find_placeholder_elements utcnow cuid k j) as [[mk k'] n'] eqn:Ek.
    rewrite IH. reflexivity. }
  rewrite E. reflexivity.
Qed.
Lemma required_not_optional (tag : string) :
  Py.mem tag REQUIRED_TAGS = true -> Py.mem tag OPTIONAL_ELEMENTS = false.
Proof.
  unfold Py.mem, REQUIRED_TAGS. cbn [existsb].
  intros H. repeat (apply orb_prop in H; destruct H as [H|H]);
    try discriminate; apply String.eqb_eq in H; subst; reflexivity.
Qed.

Lemma clean_children (t : string) (a : list (string * string))
  (x : option string) (kids : list Element) :
  Forall tidy kids -> clean (Elem t a x kids).
Proof.
  intros H d Hd. unfold ET.descendants in Hd. simpl in Hd.
  apply in_flat_map in Hd. destruct Hd as (k & Hk & Hd).
  rewrite Forall_forall in H. destruct (H k Hk) as [H1 H2].
  destruct k as [kt ka kx kk|b]; simpl in Hd.
  - destruct Hd as [<-|Hd]; [exact H1|]. apply H2. exact Hd.
  - destruct Hd as [<-|[]]. reflexivity.
Qed.

Lemma each_child_tidy (kids : list Element) :
  Forall (fun k => forall n,
            if unpopulated_optional k
            then _find_placeholder_elements utcnow cuid k n = (true, k, n)
            else tidy (snd (fst (_find_placeholder_elements utcnow cuid k n))))
         kids ->
  forall n, Forall tidy (fst (each_child utcnow cuid kids n)).
Proof.
  induction 1 as [|k l Hk _ IH]; intros n; cbn [each_child]; [constructor|].
  specialize (Hk n).
  destruct (_find_placeholder_elements utcnow cuid k n) as [[mk k'] n'] eqn:Ek.
  specialize (IH n').
  destruct (each_child utcnow cuid l n') as [rest n''].
  cbn [fst snd] in *.
  destruct mk; [exact IH|].
  constructor; [|exact IH].
  destruct (unpopulated_optional k); [discriminate|exact Hk].
Qed.

Lemma find_placeholder_tidy (e : Element) :
  forall n,
    if unpopulated_optional e
    then _find_placeholder_elements utcnow cuid e n = (true, e, n)
    else tidy (snd (fst (_find_placeholder_elements utcnow cuid e n))).
Proof.
  induction e as [b|t a x kids IH] using Element_rect'; intros n.
  - simpl. split; [reflexivity|]. intros d [].
  - rewrite find_unfold. cbv zeta.
    unfold unpopulated_optional.
    pose proof (required_not_optional (localname t)) as Hd.
    pose proof (each_child_tidy kids IH) as Hk.
    destruct (has_placeholder x) eqn:Hp;
      destruct (Py.mem (localname t) REQUIRED_TAGS) eqn:Hr;
      destruct (Py.mem (localname t) OPTIONAL_ELEMENTS) eqn:Ho;
      cbn [andb negb]; try (specialize (Hd eq_refl); discriminate);
      try reflexivity.
    all: match goal with
         | |- context [each_child _ _ ?l ?m] =>
             specialize (Hk m); destruct (each_child utcnow cuid l m) as [kids' n2]
         end; cbn [fst snd] in *.
    all: split; [cbn [unpopulated_optional]; rewrite ?Ho, ?Hp; reflexivity
                |apply clean_children; exact Hk].
Qed.
End Prune.



Section Survival.
Variable order : list string.
Variable ev_map : list (string * string).
Variable utcnow cuid : nat -> string.

Let S := survives order.

Lemma survives_tag_text t a x kids a' kids' :
  S (Elem t a x kids) = S (Elem t a' x kids').
Proof. reflexivity. Qed.








End Survival.


Lemma get_set_same {V} (d : list (string * V)) k v : Py.get (Py.set d k v) k = Some v.
Proof.
  induction d as [|[k' v'] d IH]; simpl.
  - now rewrite String.eqb_refl.
  - destruct (String.eqb k' k) eqn:E; simpl; rewrite E; [reflexivity|exact IH].
Qed.

Lemma get_set_other {V} (d : list (string * V)) k k2 v :
  k <> k2 -> Py.get (Py.set d k v) k2 = Py.get d k2.
Proof.
  intros Hne. induction d as [|[k' v'] d IH]; simpl.
  - destruct (String.eqb k k2) eqn:E; [apply String.eqb_eq in E; congruence|reflexivity].
  - destruct (String.eqb k' k) eqn:E; simpl.
    + apply String.eqb_eq in E. subst k'.
      destruct (String.eqb k k2) eqn:E2; [apply String.eqb_eq in E2; congruence|reflexivity].
    + destruct (String.eqb k' k2); [reflexivity|exact IH].
Qed.




Lemma get_in_values {V} (d : list (string * V)) k v :
  Py.get d k = Some v -> In v (map snd d).
Proof.
  induction d as [|[k' v'] d IH]; simpl; [discriminate|].
  destruct (String.eqb k' k); [intros H; inversion H; auto|auto].
Qed.

Lemma value_name_in (field_type : string) (meta : FieldMeta) :
  In (_get_value_element_name field_type meta) VALUE_NAMES.
Proof.
  unfold _get_value_element_name, VALUE_NAMES.
  destruct (String.eqb field_type "XdTemporal").
  - destruct (meta_temporal_types meta) as [[|first rest]|]; try (simpl; tauto).
    destruct (Py.get temporal_element_map first) as [v|] eqn:E; cbn [or_default].
    + right. right. apply in_or_app. right. eapply get_in_values; eauto.
    + simpl; tauto.
  - destruct (Py.get type_map field_type) as [v|] eqn:E; cbn [or_default].
    + right. right. apply in_or_app. left. eapply get_in_values; eauto.
    + simpl; tauto.
Qed.





Section Children.
Variable order : list string.
Variable ev_map : list (string * string).
Variable utcnow cuid : nat -> string.
Hypothesis order_ok : incl order OPTIONAL_CONTAINER_ELEMENTS.









End Children.

Section Assembly.
Variable order : list string.
Variable ev_map : list (string * string).
Variable utcnow cuid : nat -> string.
Hypothesis order_ok : incl order OPTIONAL_CONTAINER_ELEMENTS.

Let S := survives order.






Lemma prune_placeholders_fst (e : Element) (n : nat) :
  fst (prune_placeholders utcnow cuid e n) =
  snd (fst (_find_placeholder_elements utcnow cuid e n)).
Proof.
  unfold prune_placeholders.
  destruct (_find_placeholder_elements utcnow cuid e n) as [[m e'] n']. reflexivity.
Qed.


End Assembly.

Lemma pcs_clean (l : list string) : forall e,
  clean e ->
  clean (fold_left (fun r name => prune_containers_named name r) l e).
Proof.
  induction l as [|name l IH]; intros e H; [exact H|].
  cbn [fold_left]. apply IH. rewrite prune_named_filter. now apply clean_filter.
Qed.

Lemma process_tree_passes (field_metadata : FieldMetadata)
  (utcnow cuid : nat -> string) (order : list string)
  (metadata_dict : list (string * FormMeta)) (root : Element) (n : nat) :
  process_tree field_metadata utcnow cuid order metadata_dict root n =
  passes order (build_ev_map field_metadata metadata_dict) utcnow cuid root n.
Proof. reflexivity. Qed.

Lemma process_tree_clean (field_metadata : FieldMetadata)
  (utcnow cuid : nat -> string) (order : list string)
  (metadata_dict : list (string * FormMeta)) (root : Element) (n : nat) :
  unpopulated_optional root = false ->
  clean (process_tree field_metadata utcnow cuid order metadata_dict root n).
Proof.
  intros H. rewrite process_tree_passes. unfold passes.
  rewrite remove_comments_filter. apply clean_filter.
  unfold _prune_empty_containers. apply pcs_clean.
  rewrite prune_placeholders_fst.
  pose proof (find_placeholder_tidy utcnow cuid
                (_process_ev_placeholders (build_ev_map field_metadata metadata_dict) root)
                n) as Ht.
  replace (unpopulated_optional
             (_process_ev_placeholders (build_ev_map field_metadata metadata_dict) root))
    with false in Ht by (destruct root; [exact (eq_sym H)|reflexivity]).
  apply Ht.
Qed.

(** C7, counterexample.  The count scenario for a field of the table with
    units: on the sample skeleton the units element of the component is
    still there, with its placeholders; the builder without skeleton
    creates a units element for the component. *)
Lemma build_count_keeps_units :
  option_map (existsb (ET.has_tag "xdcount-units"))
    (Examples.component_children
       (Examples.reread (Examples.build [("abc123", VInt 42)] None)) "abc123") =
  Some true /\
  Examples.component_children
    (Examples.reread (Examples.build_without_skeleton [("abc123", VInt 42)]))
    "abc123" =
  Some [ Elem "label" [] (Some "Population") [];
         Elem "xdcount-value" [] (Some "42") [];
         Elem "xdcount-units" [] None
           [ Elem "label" [] (Some "Population units") [];
             Elem "xdstring-value" [] (Some "people") [] ] ].
Proof. split; vm_compute; reflexivity. Qed.

(** C7, amended.  After the passes of the builder no element below the
    root is an optional leaf (act, vtb, vte, tr, modified, latitude,
    longitude, ...) that still holds a placeholder; the returned document
    is the serialization of that tree.  Building from the sample skeleton
    with the count 42 and no metadata gives the component its value
    element with text 42 and leaves no act, vtb, latitude or other
    optional leaf, while the units element, which is not in the optional
    set, stays with its placeholders. *)
Theorem optional_leaves_pruned :
  (forall field_metadata utcnow cuid order metadata_dict root n d,
     unpopulated_optional root = false ->
     In d (ET.descendants
             (process_tree field_metadata utcnow cuid order metadata_dict root n)) ->
     unpopulated_optional d = false) /\
  (forall field_metadata fromstring tostring utcnow cuid order xml_content
          metadata_dict n root,
     fromstring xml_content = Some root ->
     _process_ev_and_prune field_metadata fromstring tostring utcnow cuid order
       xml_content metadata_dict n =
     tostring (process_tree field_metadata utcnow cuid order metadata_dict root n)) /\
  Examples.component_children
    (Examples.reread (Examples.build [("abc123", VInt 42)] None)) "abc123" =
  Some [ Elem "label" [] (Some "Population") [];
         Elem "xdcount-value" [] (Some "42") [];
         Elem "xdcount-units" [] None
           [ Elem "label" [] (Some "__PLACEHOLDER__label_u1") [];
             Elem "xdstring-value" [] (Some "__PLACEHOLDER__xdstring-value_u1") [] ] ].
Proof.
  split; [|split].
  - intros field_metadata utcnow cuid order metadata_dict root n d H Hd.
    exact (process_tree_clean field_metadata utcnow cuid order metadata_dict
             root n H d Hd).
  - intros until root. intros H. unfold _process_ev_and_prune. now rewrite H.
  - vm_compute. reflexivity.
Qed.

Lemma optional_leaves_pruned_witness :
  (unpopulated_optional (Examples.parsed [("abc123", VInt 42)] []) = false /\
   forall d,
     In d (ET.descendants
             (process_tree Examples.FIELD_METADATA Examples.utcnow
                Examples.cuid_generator OPTIONAL_CONTAINER_ELEMENTS []
                (Examples.parsed [("abc123", VInt 42)] []) 1)) ->
     unpopulated_optional d = false) /\
  (XML.parse true (Examples.substituted [("abc123", VInt 42)] []) =
     Some (Examples.parsed [("abc123", VInt 42)] []) /\
   _process_ev_and_prune Examples.FIELD_METADATA (XML.parse true) XML.serialize
     Examples.utcnow Examples.cuid_generator OPTIONAL_CONTAINER_ELEMENTS
     (Examples.substituted [("abc123", VInt 42)] []) [] 1 =
   XML.serialize
     (process_tree Examples.FIELD_METADATA Examples.utcnow
        Examples.cuid_generator OPTIONAL_CONTAINER_ELEMENTS []
        (Examples.parsed [("abc123", VInt 42)] []) 1)).
Proof.
  assert (H1 : unpopulated_optional (Examples.parsed [("abc123", VInt 42)] []) = false)
    by (vm_compute; reflexivity).
  assert (H2 : XML.parse true (Examples.substituted [("abc123", VInt 42)] []) =
               Some (Examples.parsed [("abc123", VInt 42)] []))
    by (vm_compute; reflexivity).
  split.
  - split; [exact H1|]. intros d.
    exact (proj1 optional_leaves_pruned Examples.FIELD_METADATA Examples.utcnow
             Examples.cuid_generator OPTIONAL_CONTAINER_ELEMENTS []
             (Examples.parsed [("abc123", VInt 42)] []) 1 d H1).
  - split; [exact H2|].
    exact (proj1 (proj2 optional_leaves_pruned) Examples.FIELD_METADATA
             (XML.parse true) XML.serialize Examples.utcnow
             Examples.cuid_generator OPTIONAL_CONTAINER_ELEMENTS
             (Examples.substituted [("abc123", VInt 42)] []) [] 1
             (Examples.parsed [("abc123", VInt 42)] []) H2).
Defined.



End TreeFacts.

Module TreeWitness.

Import XMLBuilder Spec Examples.


End TreeWitness.

(* ------------------------------------------------------------------ *)
(** ** Decimal text of integers                                        *)
(* ------------------------------------------------------------------ *)

Module DecimalFacts.

Import Aux.

Lemma digits_acc_uint (d : Decimal.uint) : forall acc,
  Py.digits_acc acc true (NilEmpty.string_of_uint d) = Some (uval acc d).
Proof.
  induction d; intros acc; cbn [NilEmpty.string_of_uint uval];
    [reflexivity|..];
    (cbn [Py.digits_acc];
     change (Py.digits_acc ?a true ?s) with (Py.digits_acc a true s);
     apply IHd).
Qed.

Lemma digits_acc_start (d : Decimal.uint) :
  d <> Decimal.Nil ->
  Py.digits_acc 0 false (NilEmpty.string_of_uint d) = Some (uval 0 d).
Proof.
  destruct d; intros H; [congruence|..];
    cbn [NilEmpty.string_of_uint uval]; cbn [Py.digits_acc];
    apply digits_acc_uint.
Qed.

Lemma uval_acc (d : Decimal.uint) : forall acc,
  uval (Z.pos acc) d = Z.pos (Pos.of_uint_acc d acc).
Proof.
  induction d; intros acc; cbn [uval Pos.of_uint_acc]; [reflexivity|..];
    match goal with
    | |- uval ?z _ = Z.pos (Pos.of_uint_acc _ ?p) =>
        replace z with (Z.pos p) by lia; apply IHd
    end.
Qed.

Lemma uval_of_uint (d : Decimal.uint) : uval 0 d = Z.of_N (Pos.of_uint d).
Proof.
  induction d; cbn [uval Pos.of_uint]; [reflexivity|exact IHd|..];
    match goal with
    | |- uval ?z _ = _ =>
        let p := eval cbv in (Z.to_pos z) in
        change z with (Z.pos p); rewrite uval_acc; reflexivity
    end.
Qed.

Lemma uval_to_uint (p : positive) : uval 0 (Pos.to_uint p) = Z.pos p.
Proof. rewrite uval_of_uint, DecimalPos.Unsigned.of_to. reflexivity. Qed.

Lemma all_digits_uint (d : Decimal.uint) :
  all_digits (NilEmpty.string_of_uint d) = true.
Proof. induction d; cbn; auto. Qed.

Lemma digit_not_space (c : ascii) : is_digit c = true -> Py.is_space c = false.
Proof.
  unfold is_digit, Py.digit_val, Py.is_space.
  destruct ((48 <=? nat_of_ascii c)%nat && (nat_of_ascii c <=? 57)%nat)%bool eqn:E;
    [|discriminate].
  intros _. apply andb_prop in E. destruct E as [E1 E2].
  apply Nat.leb_le in E1, E2.
  repeat match goal with
         | |- context [(?a =? ?b)%nat] =>
             let H := fresh in destruct (Nat.eqb_spec a b) as [H|H]; [lia|]
         | |- context [(?a <=? ?b)%nat] =>
             let H := fresh in destruct (Nat.leb_spec a b) as [H|H]; try lia
         end; reflexivity.
Qed.

Lemma rstrip_digits (s : string) :
  all_digits s = true -> Py.rstrip_by Py.is_space s = s.
Proof.
  induction s as [|c r IH]; [reflexivity|].
  cbn [all_digits]. intros H. apply andb_prop in H. destruct H as [Hc Hr].
  cbn [Py.rstrip_by]. rewrite (IH Hr).
  destruct r; [|reflexivity]. now rewrite (digit_not_space c Hc).
Qed.

Lemma strip_digits (c : ascii) (r : string) :
  Py.is_space c = false -> all_digits r = true ->
  Py.strip (String c r) = String c r.
Proof.
  intros Hc Hr. unfold Py.strip. cbn [Py.lstrip]. rewrite Hc.
  cbn [Py.rstrip_by]. rewrite (rstrip_digits r Hr).
  destruct r; [now rewrite Hc|reflexivity].
Qed.

Lemma digit_neq (c c0 : ascii) :
  is_digit c = true -> is_digit c0 = false -> Ascii.eqb c c0 = false.
Proof.
  intros H H0. destruct (Ascii.eqb c c0) eqn:E; [|reflexivity].
  apply Ascii.eqb_eq in E. congruence.
Qed.

Lemma uint_string_cons (d : Decimal.uint) :
  d <> Decimal.Nil ->
  exists c r, NilEmpty.string_of_uint d = String c r /\
              is_digit c = true /\ all_digits r = true.
Proof.
  destruct d; intros H; [congruence|..];
    cbn [NilEmpty.string_of_uint]; eexists _, _;
    (split; [reflexivity|split; [reflexivity|apply all_digits_uint]]).
Qed.

Lemma nilzero_nonnil (d : Decimal.uint) :
  d <> Decimal.Nil -> NilZero.string_of_uint d = NilEmpty.string_of_uint d.
Proof. destruct d; [congruence|reflexivity..]. Qed.

(** [int(str(z)) == z] *)
Lemma int_str_int (z : Z) : Py.int (Py.str_int z) = Some z.
Proof.
  unfold Py.str_int. destruct z as [|p|p]; cbn [Z.to_int NilZero.string_of_int].
  - reflexivity.
  - pose proof (DecimalPos.Unsigned.to_uint_nonnil p) as Hn.
    rewrite (nilzero_nonnil _ Hn).
    destruct (uint_string_cons _ Hn) as (c & r & E & Hc & Hr).
    unfold Py.int. rewrite E.
    rewrite (strip_digits c r (digit_not_space c Hc) Hr).
    rewrite (digit_neq c "+" Hc eq_refl), (digit_neq c "-" Hc eq_refl).
    rewrite <- E, (digits_acc_start _ Hn), uval_to_uint. reflexivity.
  - pose proof (DecimalPos.Unsigned.to_uint_nonnil p) as Hn.
    rewrite (nilzero_nonnil _ Hn).
    unfold Py.int.
    rewrite (strip_digits "-" _ eq_refl (all_digits_uint _)).
    cbn [Ascii.eqb Bool.eqb].
    rewrite (digits_acc_start _ Hn), uval_to_uint. reflexivity.
Qed.










End DecimalFacts.

(* ------------------------------------------------------------------ *)
(** ** Round trip through the JSON projections                         *)
(* ------------------------------------------------------------------ *)

Module RoundTripFacts.

Import Spec Aux.



Section Projections.

Context {F : Type}.
Variable float : string -> option F.





End Projections.




(** The same form data through the builder with the skeleton. *)
Lemma round_trip_date_cut_with_skeleton :
  exists doc q,
    Examples.build Examples.date_form None = Py.Ret doc /\
    Examples.extract_query_json doc = Py.Ret q /\
    Examples.field_value (Examples.generate_clean_json doc) "Census date"
      = Some (JStr "2024-03-15") /\
    Examples.field_value q "ghi789" = Some (JStr "2024-03-15").
Proof.
  eexists. eexists.
  split; [vm_compute; reflexivity|].
  split; [vm_compute; reflexivity|].
  repeat split; vm_compute; reflexivity.
Qed.

(** A count and a name through the builder with the skeleton: the clean
    projection reports both values, the query projection the name. *)
Lemma round_trip_with_skeleton :
  exists doc q,
    Examples.build Examples.state_form None = Py.Ret doc /\
    Examples.extract_query_json doc = Py.Ret q /\
    Examples.field_value (Examples.generate_clean_json doc) "Population"
      = Some (JInt 42) /\
    Examples.field_value (Examples.generate_clean_json doc) "State"
      = Some (JStr "Ohio") /\
    Examples.field_value q "def456" = Some (JStr "Ohio").
Proof.
  eexists. eexists.
  split; [vm_compute; reflexivity|].
  split; [vm_compute; reflexivity|].
  repeat split; vm_compute; reflexivity.
Qed.

(** The units of a count.  [VALUE_ELEMENT_NAMES] starts with
    [xdstring-value], the name of the element that holds the text of the
    units inside the units element, and [find('.//...')] searches below
    the children: for a count with units the query projection reports the
    units as the value of the field, where the clean projection reports the
    count. *)
Lemma query_reports_units_as_value :
  exists doc q,
    Examples.build_without_skeleton Examples.state_form = Py.Ret doc /\
    Examples.extract_query_json doc = Py.Ret q /\
    Examples.field_value (Examples.generate_clean_json doc) "Population"
      = Some (JInt 42) /\
    Examples.field_value q "abc123" = Some (JStr "people").
Proof.
  eexists. eexists.
  split; [vm_compute; reflexivity|].
  split; [vm_compute; reflexivity|].
  repeat split; vm_compute; reflexivity.
Qed.

End RoundTripFacts.

(* ------------------------------------------------------------------ *)
(** *** Lists, strings and trees *)
(* ------------------------------------------------------------------ *)

Module MoreFacts.

Lemma strlen_app (s1 s2 : string) :
  String.length (s1 ++ s2) = String.length s1 + String.length s2.
Proof. induction s1 as [|a s1 IH]; cbn; [reflexivity|now rewrite IH]. Qed.

Lemma has_char_app (c : ascii) (s1 s2 : string) :
  Py.has_char c (s1 ++ s2) = (Py.has_char c s1 || Py.has_char c s2)%bool.
Proof.
  induction s1 as [|a s1 IH]; [reflexivity|].
  cbn [append Py.has_char]. rewrite IH. now rewrite orb_assoc.
Qed.

Lemma iter_unfold (e : Element) : ET.iter e = e :: ET.descendants e.
Proof. destruct e; reflexivity. Qed.

Lemma forallb_flat_map {A B : Type} (P : B -> bool) (f : A -> list B) (l : list A) :
  forallb P (flat_map f l) = forallb (fun a => forallb P (f a)) l.
Proof.
  induction l as [|a l IH]; [reflexivity|].
  cbn [flat_map forallb]. now rewrite forallb_app, IH.
Qed.

Lemma filter_all {A : Type} (f : A -> bool) (l : list A) :
  forallb f l = true -> filter f l = l.
Proof.
  induction l as [|a l IH]; [reflexivity|].
  cbn [forallb filter]. intros H. apply andb_prop in H. destruct H as [H1 H2].
  now rewrite H1, (IH H2).
Qed.

Lemma get_in {V : Type} (d : list (string * V)) (k : string) (v : V) :
  Py.get d k = Some v -> In (k, v) d.
Proof.
  induction d as [|[k' v'] d IH]; [discriminate|].
  cbn [Py.get]. destruct (String.eqb k' k) eqn:E.
  - apply String.eqb_eq in E. intros H. inversion H. subst. now left.
  - intros H. right. now apply IH.
Qed.

Lemma set_Forall {V : Type} (P : string * V -> Prop) (d : list (string * V)) k v :
  Forall P d -> P (k, v) -> Forall P (Py.set d k v).
Proof.
  intros Hd Hk. induction d as [|[k' v'] d IH]; cbn [Py.set].
  - constructor; [exact Hk|constructor].
  - inversion Hd; subst. destruct (String.eqb k' k) eqn:E.
    + apply String.eqb_eq in E. subst k'. constructor; assumption.
    + constructor; [assumption|]. apply IH. assumption.
Qed.


End MoreFacts.

(* ------------------------------------------------------------------ *)
(** *** The escaping of the builder *)
(* ------------------------------------------------------------------ *)

Module EscapeFacts.
Import XMLBuilder Notions MoreFacts.

Lemma escape_xml_app (s1 s2 : string) :
  _escape_xml (s1 ++ s2) = (_escape_xml s1 ++ _escape_xml s2)%string.
Proof.
  unfold _escape_xml.
  change "&" with (Py.chr "&"). change "<" with (Py.chr "<").
  change ">" with (Py.chr ">"). change "'" with (Py.chr "'").
  now rewrite !PyFacts.replace_char_app.
Qed.

Lemma escape_xml_cons (a : ascii) (s : string) :
  _escape_xml (String a s) = (_escape_xml (Py.chr a) ++ _escape_xml s)%string.
Proof. apply (escape_xml_app (Py.chr a) s). Qed.

Lemma escape_char_no_markup (a : ascii) :
  forallb (fun c => negb (Py.has_char c (_escape_xml (Py.chr a)))) markup = true.
Proof. destruct a as [[] [] [] [] [] [] [] []]; vm_compute; reflexivity. Qed.

Lemma escape_no_markup (s : string) (c : ascii) :
  In c markup -> Py.has_char c (_escape_xml s) = false.
Proof.
  intros Hc. induction s as [|a s IH]; [reflexivity|].
  rewrite escape_xml_cons, has_char_app, IH, orb_false_r.
  pose proof (escape_char_no_markup a) as H.
  rewrite forallb_forall in H. apply negb_true_iff. apply H. exact Hc.
Qed.

Lemma break_at_app (name rest : string) :
  Py.has_char ";" name = false ->
  XML.break_at ";" (name ++ String ";" rest) = Some (name, rest).
Proof.
  induction name as [|a name IH]; intros H.
  - cbn [append XML.break_at String.prefix]. simpl.
    rewrite PyFacts.prefix_nil. reflexivity.
  - cbn [Py.has_char] in H. apply orb_false_elim in H. destruct H as [Ha Hn].
    cbn [append XML.break_at String.prefix].
    destruct (ascii_dec ";" a) as [e|n];
      [subst a; discriminate|].
    rewrite (IH Hn). reflexivity.
Qed.

Lemma break_amp (rest : string) :
  XML.break_at ";" (String "a" (String "m" (String "p" (String ";" rest))))
  = Some ("amp", rest).
Proof. exact (break_at_app "amp" rest eq_refl). Qed.

Lemma break_lt (rest : string) :
  XML.break_at ";" (String "l" (String "t" (String ";" rest))) = Some ("lt", rest).
Proof. exact (break_at_app "lt" rest eq_refl). Qed.

Lemma break_gt (rest : string) :
  XML.break_at ";" (String "g" (String "t" (String ";" rest))) = Some ("gt", rest).
Proof. exact (break_at_app "gt" rest eq_refl). Qed.

Lemma break_quot (rest : string) :
  XML.break_at ";"
    (String "q" (String "u" (String "o" (String "t" (String ";" rest)))))
  = Some ("quot", rest).
Proof. exact (break_at_app "quot" rest eq_refl). Qed.

Lemma break_apos (rest : string) :
  XML.break_at ";"
    (String "a" (String "p" (String "o" (String "s" (String ";" rest)))))
  = Some ("apos", rest).
Proof. exact (break_at_app "apos" rest eq_refl). Qed.

Lemma decode_step (a : ascii) (rest d : string) (fuel : nat) :
  XML.decode fuel rest = Some d ->
  XML.decode (S fuel) (_escape_xml (Py.chr a) ++ rest) = Some (String a d).
Proof.
  intros H.
  destruct a as [[] [] [] [] [] [] [] []];
    match goal with
    | |- XML.decode _ (?e ++ _) = _ =>
        let v := eval vm_compute in e in change e with v
    end;
    cbn [append XML.decode];
    try first [rewrite break_amp | rewrite break_lt | rewrite break_gt
              | rewrite break_quot | rewrite break_apos];
    cbn -[XML.decode]; rewrite H; reflexivity.
Qed.

Lemma decode_escape (s : string) :
  XML.decode (String.length s) (_escape_xml s) = Some s.
Proof.
  induction s as [|a s IH]; [reflexivity|].
  rewrite escape_xml_cons. cbn [String.length]. apply decode_step. exact IH.
Qed.

Lemma decode_cons (fuel : nat) (c : ascii) (r : string) :
  XML.decode (S fuel) (String c r) =
  if Ascii.eqb c "&" then
    match XML.break_at ";" r with
    | Some (name, rest) =>
        match (if String.eqb name "amp" then Some "&"%char
               else if String.eqb name "lt" then Some "<"%char
               else if String.eqb name "gt" then Some ">"%char
               else if String.eqb name "quot" then Some Py.dquote
               else if String.eqb name "apos" then Some "'"%char
               else None),
              XML.decode fuel rest with
        | Some c, Some d => Some (String c d)
        | _, _ => None
        end
    | None => None
    end
  else option_map (String c) (XML.decode fuel r).
Proof. destruct c as [[] [] [] [] [] [] [] []]; reflexivity. Qed.

Lemma decode_more (fuel : nat) : forall s d,
  XML.decode fuel s = Some d -> XML.decode (S fuel) s = Some d.
Proof.
  induction fuel as [|fuel IH]; intros s d H.
  - destruct s; [|discriminate]. exact H.
  - destruct s as [|c r]; [exact H|].
    rewrite decode_cons in H. rewrite decode_cons.
    destruct (Ascii.eqb c "&").
    + destruct (XML.break_at ";" r) as [[name rest]|]; [|discriminate].
      destruct (if (name =? "amp")%string then Some "&"%char
                else if (name =? "lt")%string then Some "<"%char
                else if (name =? "gt")%string then Some ">"%char
                else if (name =? "quot")%string then Some Py.dquote
                else if (name =? "apos")%string then Some "'"%char else None);
        [|discriminate].
      destruct (XML.decode fuel rest) as [d'|] eqn:Ed; [|discriminate].
      rewrite (IH _ _ Ed). exact H.
    + destruct (XML.decode fuel r) as [d'|] eqn:Ed; [|discriminate].
      rewrite (IH _ _ Ed). exact H.
Qed.

Lemma decode_le (fuel fuel' : nat) (s d : string) :
  fuel <= fuel' -> XML.decode fuel s = Some d -> XML.decode fuel' s = Some d.
Proof.
  intros Hle H. induction Hle; [exact H|]. now apply decode_more.
Qed.

Lemma escape_char_length (a : ascii) : 1 <= String.length (_escape_xml (Py.chr a)).
Proof.
  destruct a as [[] [] [] [] [] [] [] []]; vm_compute;
    repeat constructor.
Qed.

Lemma escape_xml_length (s : string) :
  String.length s <= String.length (_escape_xml s).
Proof.
  induction s as [|a s IH]; [apply le_n|].
  rewrite escape_xml_cons, strlen_app. cbn [String.length].
  pose proof (escape_char_length a). lia.
Qed.

Lemma escape_decodes (s : string) :
  XML.decode_text (_escape_xml s) = Some s.
Proof.
  unfold XML.decode_text.
  apply (decode_le (String.length s)); [apply escape_xml_length|apply decode_escape].
Qed.

(** X1.  The text returned by [_escape_xml] holds none of the characters
    [<], [>], the double quote and the apostrophe, and the reference
    decoder of the five predefined entities reads the argument back from
    it. *)
Theorem escape_xml_safe (s : string) :
  forallb (fun c => negb (Py.has_char c (_escape_xml s))) markup = true /\
  XML.decode_text (_escape_xml s) = Some s.
Proof.
  split; [|apply escape_decodes].
  apply forallb_forall. intros c Hc. apply negb_true_iff.
  now apply escape_no_markup.
Qed.

End EscapeFacts.

(* ------------------------------------------------------------------ *)
(** *** The temporal formats of the builder *)
(* ------------------------------------------------------------------ *)

Module TemporalFacts.
Import XMLBuilder Notions.


Lemma has_char_split_head (c : ascii) (s : string) :
  Py.has_char c (Py.split_head c s) = false.
Proof.
  induction s as [|a s IH]; [reflexivity|].
  cbn [Py.split_head]. destruct (Ascii.eqb a c) eqn:E; [reflexivity|].
  cbn [Py.has_char]. now rewrite E, IH.
Qed.

Lemma has_char_split_head_other (c d : ascii) (s : string) :
  Py.has_char d s = false -> Py.has_char d (Py.split_head c s) = false.
Proof.
  induction s as [|a s IH]; [reflexivity|].
  cbn [Py.split_head Py.has_char]. intros H.
  apply orb_false_elim in H. destruct H as [H1 H2].
  destruct (Ascii.eqb a c); [reflexivity|].
  cbn [Py.has_char]. now rewrite H1, (IH H2).
Qed.

Lemma has_char_after_first (c d : ascii) (s r : string) :
  Py.after_first c s = Some r -> Py.has_char d s = false -> Py.has_char d r = false.
Proof.
  revert r. induction s as [|a s IH]; intros r; [discriminate|].
  cbn [Py.after_first Py.has_char]. intros H H0.
  apply orb_false_elim in H0. destruct H0 as [H1 H2].
  destruct (Ascii.eqb a c); [inversion H; subst; exact H2|].
  now apply IH.
Qed.

Lemma has_char_split_second (c : ascii) (s r : string) :
  Py.split_second c s = Some r -> Py.has_char c r = false.
Proof.
  unfold Py.split_second. destruct (Py.after_first c s); [|discriminate].
  intros H. inversion H. apply has_char_split_head.
Qed.

Lemma has_char_split_second_other (c d : ascii) (s r : string) :
  Py.split_second c s = Some r -> Py.has_char d s = false -> Py.has_char d r = false.
Proof.
  unfold Py.split_second. destruct (Py.after_first c s) as [t|] eqn:E; [|discriminate].
  intros H H0. inversion H. apply has_char_split_head_other.
  exact (has_char_after_first c d s t E H0).
Qed.

Lemma after_first_some (c : ascii) (s : string) :
  Py.has_char c s = true -> exists r, Py.after_first c s = Some r.
Proof.
  induction s as [|a s IH]; [discriminate|].
  cbn [Py.has_char Py.after_first]. destruct (Ascii.eqb a c); [eauto|].
  cbn [orb]. exact IH.
Qed.

Lemma split_second_some (c : ascii) (s : string) :
  Py.has_char c s = true -> exists r, Py.split_second c s = Some r.
Proof.
  intros H. destruct (after_first_some c s H) as (r & E).
  unfold Py.split_second. rewrite E. eauto.
Qed.

Lemma cut_free (c : ascii) (s : string) : Py.has_char c (cut c s) = false.
Proof.
  unfold cut. destruct (Py.has_char c s) eqn:E; [apply has_char_split_head|exact E].
Qed.

Lemma cut_other (c d : ascii) (s : string) :
  Py.has_char d s = false -> Py.has_char d (cut c s) = false.
Proof.
  unfold cut. intros H. destruct (Py.has_char c s);
    [now apply has_char_split_head_other|exact H].
Qed.

Lemma split_length (c : ascii) (s : string) :
  1 <= Datatypes.length (Py.split c s).
Proof.
  induction s as [|a s IH]; [apply le_n|].
  cbn [Py.split]. destruct (Ascii.eqb a c); [cbn [Datatypes.length]; lia|].
  destruct (Py.split c s); cbn [Datatypes.length] in *; lia.
Qed.

Lemma split_length_occurs (c : ascii) (s : string) :
  Py.has_char c s = true -> 2 <= Datatypes.length (Py.split c s).
Proof.
  induction s as [|a s IH]; [discriminate|].
  cbn [Py.has_char Py.split]. destruct (Ascii.eqb a c).
  - intros _. pose proof (split_length c s). cbn [Datatypes.length]. lia.
  - cbn [orb]. intros H. specialize (IH H).
    destruct (Py.split c s); cbn [Datatypes.length] in *; lia.
Qed.

Lemma time_format_strips (s : string) :
  let r := _format_temporal_value (VStr s) "time" in
  Py.has_char "T" r = false /\ Py.has_char "+" r = false /\ Py.has_char " " r = false.
Proof.
  destruct s as [|a0 s0]; [repeat split; reflexivity|].
  set (s := String a0 s0).
  cbn [_format_temporal_value]. fold s. cbn [str_of_value].
  unfold format_temporal_string.
  change (String.eqb "time" "date") with false.
  change (String.eqb "time" "time") with true. cbv iota.
  (* step 1 *)
  set (s1 := if Py.has_char "T" s then or_default (Py.split_second "T" s) s else s).
  assert (H1 : Py.has_char "T" s1 = false).
  { subst s1. destruct (Py.has_char "T" s) eqn:E; [|exact E].
    destruct (split_second_some "T" s E) as (r & Er). rewrite Er.
    exact (has_char_split_second "T" s r Er). }
  (* step 2 *)
  fold (cut "+" s1). set (s2 := cut "+" s1).
  assert (H2T : Py.has_char "T" s2 = false) by (apply cut_other; exact H1).
  assert (H2P : Py.has_char "+" s2 = false) by apply cut_free.
  (* step 3 *)
  destruct (Py.has_char " " s2) eqn:Es.
  - destruct (split_second_some " " s2 Es) as (r & Er).
    pose proof (split_length_occurs " " s2 Es) as Hl.
    destruct (Nat.ltb_spec 1 (Datatypes.length (Py.split " " s2))) as [_|Hn];
      [|lia].
    cbn [andb].
    + rewrite Er. cbn [or_default]. fold (cut "+" r).
      pose proof (has_char_split_second " " s2 r Er) as Hr.
      pose proof (has_char_split_second_other " " "T" s2 r Er H2T) as HrT.
      split; [apply cut_other; exact HrT|].
      split; [apply cut_free|apply cut_other; exact Hr].
  - cbn [andb]. auto.
Qed.

Lemma date_format_strips (s : string) :
  let r := _format_temporal_value (VStr s) "date" in
  Py.has_char " " r = false /\ Py.has_char "T" r = false.
Proof.
  destruct s as [|a0 s0]; [split; reflexivity|].
  set (s := String a0 s0).
  cbn [_format_temporal_value]. fold s. cbn [str_of_value].
  unfold format_temporal_string.
  change (String.eqb "date" "date") with true. cbv iota.
  fold (cut " " s). fold (cut "T" (cut " " s)).
  split; [apply cut_other; apply cut_free|apply cut_free].
Qed.

(** X3.  For a value given as a string, the text written for a [date]
    field holds neither a space nor a [T], and the text written for a
    [time] field holds no [T], no [+] and no space. *)
Theorem temporal_string_strips (s : string) :
  (let r := _format_temporal_value (VStr s) "date" in
   Py.has_char " " r = false /\ Py.has_char "T" r = false) /\
  (let r := _format_temporal_value (VStr s) "time" in
   Py.has_char "T" r = false /\ Py.has_char "+" r = false /\
   Py.has_char " " r = false).
Proof. split; [apply date_format_strips|apply time_format_strips]. Qed.

End TemporalFacts.

(* ------------------------------------------------------------------ *)
(** *** The passes of the builder over the tree *)
(* ------------------------------------------------------------------ *)

Module PassFacts.
Import XMLBuilder Spec Aux Notions MoreFacts.

Lemma fold_ev_Forall (P : string * string -> Prop) md (l : list (string * FieldMeta)) :
  (forall entry code, In entry l -> valid_code code = true ->
     form_ev (or_default (Py.get md (fst entry)) no_form_meta) = Some code ->
     P (own_ct_id entry, code)) ->
  forall acc, Forall P acc -> Forall P (fold_left (ev_step md) l acc).
Proof.
  induction l as [|entry l IH]; intros HP acc Hacc; [exact Hacc|].
  cbn [fold_left]. apply IH.
  - intros e c Hin. apply HP. now right.
  - destruct entry as [f meta]. unfold ev_step.
    destruct (form_ev (or_default (Py.get md f) no_form_meta)) as [[|a code]|] eqn:E;
      try exact Hacc.
    destruct (Py.get EV_CODES (String a code)) eqn:Ec; [|exact Hacc].
    apply set_Forall; [exact Hacc|].
    apply (HP (f, meta) (String a code)); [now left| |exact E].
    unfold valid_code. now rewrite Ec.
Qed.

Lemma build_ev_map_fold fm md :
  build_ev_map fm md = fold_left (ev_step md) fm [].
Proof. reflexivity. Qed.

(** X4.  Every entry of the map that [_process_ev_and_prune] builds from
    the metadata of the form pairs the component id of a field of the
    table with a code of [EV_CODES]. *)
Theorem ev_map_holds_valid_codes (field_metadata : FieldMetadata)
  (metadata_dict : list (string * FormMeta)) :
  forallb (fun kv => (valid_code (snd kv)
                      && Py.mem (fst kv) (map own_ct_id field_metadata))%bool)
          (build_ev_map field_metadata metadata_dict) = true.
Proof.
  apply forallb_forall. apply Forall_forall.
  rewrite build_ev_map_fold. apply fold_ev_Forall; [|constructor].
  intros entry code Hin Hv _. cbn [fst snd]. rewrite Hv. cbn [andb].
  unfold Py.mem. apply existsb_exists. exists (own_ct_id entry).
  split; [apply in_map; exact Hin|apply String.eqb_refl].
Qed.

(** After the EV pass no [ev-placeholder] is left in the tree below the
    element. *)
Lemma ev_replacement_free (ev_map : list (string * string)) (p : Element) :
  forallb (fun k => forallb no_placeholder_tag (ET.iter k))
          (ev_replacement ev_map p) = true.
Proof.
  unfold ev_replacement.
  destruct (ET.attr p "ct_id") as [[|a s]|]; try reflexivity.
  destruct (Py.get ev_map (String a s)); reflexivity.
Qed.

Lemma pe_free (ev_map : list (string * string)) (e : Element) :
  forallb no_placeholder_tag (ET.descendants (_process_ev_placeholders ev_map e)) = true.
Proof.
  induction e as [b|t a x kids IH] using Element_rect'; [reflexivity|].
  cbn [_process_ev_placeholders]. unfold ET.descendants. cbn [ET.children].
  rewrite !forallb_flat_map. apply forallb_forall. intros k Hk.
  rewrite Forall_forall in IH. specialize (IH k Hk).
  destruct (ET.has_tag "ev-placeholder" k) eqn:E.
  - apply ev_replacement_free.
  - cbn [forallb]. rewrite andb_true_r.
    rewrite iter_unfold. cbn [forallb]. rewrite IH, andb_true_r.
    unfold no_placeholder_tag.
    replace (ET.has_tag "ev-placeholder" (_process_ev_placeholders ev_map k))
      with (ET.has_tag "ev-placeholder" k) by (destruct k; reflexivity).
    now rewrite E.
Qed.

(** A pass that only removes subtrees keeps what holds of every
    descendant by its tag. *)
Lemma filter_tree_tag (P keep : Element -> bool) (d : Element) :
  by_tag P -> P (filter_tree keep d) = P d.
Proof. intros HP. destruct d; [apply HP|reflexivity]. Qed.

Lemma filter_tree_all (P keep : Element -> bool) (e : Element) :
  by_tag P ->
  forallb P (ET.descendants e) = true ->
  forallb P (ET.descendants (filter_tree keep e)) = true.
Proof.
  intros HP H. apply forallb_forall. intros d Hd.
  destruct (TreeFacts.filter_tree_descendants keep e d Hd) as (d0 & Hd0 & ->).
  rewrite (filter_tree_tag P keep d0 HP).
  rewrite forallb_forall in H. now apply H.
Qed.

Lemma prune_containers_all (P : Element -> bool) (l : list string) : forall e,
  by_tag P ->
  forallb P (ET.descendants e) = true ->
  forallb P (ET.descendants (_prune_empty_containers l e)) = true.
Proof.
  unfold _prune_empty_containers.
  induction l as [|name l IH]; intros e HP H; [exact H|].
  cbn [fold_left]. apply IH; [exact HP|].
  rewrite TreeFacts.prune_named_filter. now apply filter_tree_all.
Qed.

Section Prune.
Variable utcnow cuid : nat -> string.
Variable P : Element -> bool.
Hypothesis HP : by_tag P.

Lemma each_child_all (kids : list Element) :
  Forall (fun k => forall n,
            forallb P (ET.iter k) = true ->
            forallb P (ET.iter (snd (fst (_find_placeholder_elements utcnow cuid k n))))
            = true) kids ->
  forall n,
    forallb P (flat_map ET.iter kids) = true ->
    forallb P (flat_map ET.iter (fst (each_child utcnow cuid kids n))) = true.
Proof.
  induction 1 as [|k kids Hk _ IH]; intros n H; [reflexivity|].
  cbn [flat_map] in H. rewrite forallb_app in H.
  apply andb_prop in H. destruct H as [H1 H2].
  cbn [each_child].
  destruct (_find_placeholder_elements utcnow cuid k n) as [[marked k'] n'] eqn:E.
  specialize (Hk n H1). rewrite E in Hk. cbn [fst snd] in Hk.
  specialize (IH n' H2).
  destruct (each_child utcnow cuid kids n') as [rest n''].
  cbn [fst] in IH |- *.
  destruct marked; [exact IH|].
  cbn [flat_map]. rewrite forallb_app, Hk, IH. reflexivity.
Qed.

Lemma find_placeholder_all (e : Element) :
  forall n,
    forallb P (ET.iter e) = true ->
    forallb P (ET.iter (snd (fst (_find_placeholder_elements utcnow cuid e n)))) = true.
Proof.
  induction e as [b|t a x kids IH] using Element_rect'; intros n H; [exact H|].
  rewrite TreeFacts.find_unfold. cbv zeta.
  destruct (has_placeholder x
            && negb (has_placeholder x && Py.mem (localname t) REQUIRED_TAGS)
            && Py.mem (localname t) OPTIONAL_ELEMENTS)%bool; [exact H|].
  pose proof (each_child_all kids IH) as Hc.
  match goal with
  | |- context [each_child utcnow cuid kids ?m] => specialize (Hc m)
  end.
  match goal with
  | |- context [each_child utcnow cuid kids ?m] =>
      destruct (each_child utcnow cuid kids m) as [kids' n2]
  end.
  cbn [fst snd] in Hc |- *.
  cbn [ET.iter forallb] in H |- *.
  apply andb_prop in H. destruct H as [H1 H2].
  rewrite (Hc H2), andb_true_r.
  rewrite <- H1. apply HP.
Qed.

End Prune.

Lemma iter_descendants_all (P : Element -> bool) (e : Element) :
  forallb P (ET.iter e) = true -> forallb P (ET.descendants e) = true.
Proof.
  rewrite iter_unfold. cbn [forallb]. intros H.
  apply andb_prop in H. apply H.
Qed.

Lemma no_placeholder_by_tag : by_tag no_placeholder_tag.
Proof. intros t a x k a' x' k'. reflexivity. Qed.

Lemma remove_comments_elements (e : Element) :
  forallb is_element (ET.descendants (_remove_comments e)) = true.
Proof.
  induction e as [b|t a x kids IH] using Element_rect'; [reflexivity|].
  cbn [_remove_comments]. unfold ET.descendants. cbn [ET.children].
  rewrite !forallb_flat_map. apply forallb_forall. intros k Hk.
  rewrite Forall_forall in IH. specialize (IH k Hk).
  destruct k as [kt ka kx kk|kb]; [|reflexivity].
  cbn [forallb]. rewrite andb_true_r.
  rewrite iter_unfold. cbn [forallb]. rewrite IH. reflexivity.
Qed.

(** X5.  Below the root of the tree that [_process_ev_and_prune]
    serializes there is no comment and no [ev-placeholder] element,
    whatever the skeleton, the form and the table. *)
Theorem built_tree_markers_gone (field_metadata : FieldMetadata)
  (utcnow cuid : nat -> string) (order : list string)
  (metadata_dict : list (string * FormMeta)) (root : Element) (n : nat) :
  forallb (fun d => (is_element d && negb (ET.has_tag "ev-placeholder" d))%bool)
    (ET.descendants
       (process_tree field_metadata utcnow cuid order metadata_dict root n)) = true.
Proof.
  unfold process_tree.
  set (ev_map := build_ev_map field_metadata metadata_dict).
  set (r1 := _process_ev_placeholders ev_map root).
  set (r2 := fst (prune_placeholders utcnow cuid r1 n)).
  set (r3 := _prune_empty_containers order r2).
  assert (H1 : forallb no_placeholder_tag (ET.descendants r1) = true)
    by apply pe_free.
  assert (H2 : forallb no_placeholder_tag (ET.descendants r2) = true).
  { subst r2. rewrite TreeFacts.prune_placeholders_fst.
    destruct r1 as [t a x kids|b]; [|reflexivity].
    rewrite TreeFacts.find_unfold. cbv zeta.
    destruct (has_placeholder x
              && negb (has_placeholder x && Py.mem (localname t) REQUIRED_TAGS)
              && Py.mem (localname t) OPTIONAL_ELEMENTS)%bool; [exact H1|].
    assert (Hall : Forall (fun k => forall j,
              forallb no_placeholder_tag (ET.iter k) = true ->
              forallb no_placeholder_tag
                (ET.iter (snd (fst (_find_placeholder_elements utcnow cuid k j))))
              = true) kids).
    { apply Forall_forall. intros k _ j.
      apply find_placeholder_all. apply no_placeholder_by_tag. }
    pose proof (each_child_all utcnow cuid no_placeholder_tag kids Hall) as Hc.
    match goal with
    | |- context [each_child utcnow cuid kids ?m] =>
        specialize (Hc m H1);
        destruct (each_child utcnow cuid kids m) as [kids' n2]
    end.
    exact Hc. }
  assert (H3 : forallb no_placeholder_tag (ET.descendants r3) = true)
    by (apply prune_containers_all; [apply no_placeholder_by_tag|exact H2]).
  assert (H4 : forallb no_placeholder_tag (ET.descendants (_remove_comments r3)) = true).
  { rewrite TreeFacts.remove_comments_filter.
    apply filter_tree_all; [apply no_placeholder_by_tag|exact H3]. }
  pose proof (remove_comments_elements r3) as H5.
  apply forallb_forall. intros d Hd.
  rewrite forallb_forall in H4, H5.
  rewrite (H5 d Hd). exact (H4 d Hd).
Qed.

End PassFacts.

(* ------------------------------------------------------------------ *)
(** *** The text fallback and the empty containers *)
(* ------------------------------------------------------------------ *)

Module StringFacts.
Import XMLBuilder Spec Aux Notions MoreFacts.

Lemma split_nonempty (c : ascii) (s : string) : Py.split c s <> [].
Proof.
  destruct s as [|a s]; [discriminate|]. cbn [Py.split].
  destruct (Ascii.eqb a c); [discriminate|].
  destruct (Py.split c s); discriminate.
Qed.

Lemma join_cons (sep p : string) (rest : list string) :
  rest <> [] -> Py.join sep (p :: rest) = (p ++ sep ++ Py.join sep rest)%string.
Proof. destruct rest; [congruence|reflexivity]. Qed.

(** [sep.join(s.split(sep)) == s] for a one-character separator. *)
Lemma join_split (c : ascii) (s : string) :
  Py.join (Py.chr c) (Py.split c s) = s.
Proof.
  induction s as [|a s IH]; [reflexivity|].
  cbn [Py.split]. destruct (Ascii.eqb a c) eqn:E.
  - apply Ascii.eqb_eq in E. subst a.
    rewrite join_cons by apply split_nonempty. rewrite IH. reflexivity.
  - pose proof (split_nonempty c s) as Hn.
    destruct (Py.split c s) as [|p rest]; [congruence|].
    destruct rest as [|q rest].
    + cbn [Py.join] in IH |- *. now rewrite IH.
    + rewrite join_cons in IH by discriminate.
      rewrite join_cons by discriminate.
      cbn [append]. now rewrite IH.
Qed.

Lemma prefix_app_l (p s t : string) :
  String.prefix p s = true -> String.prefix p (s ++ t) = true.
Proof.
  revert s. induction p as [|a p IH]; intros s H; [apply PyFacts.prefix_nil|].
  destruct s as [|b s]; [discriminate|].
  cbn [String.prefix append] in H |- *.
  destruct (ascii_dec a b); [|discriminate]. now apply IH.
Qed.

Lemma contains_app_l (sub s t : string) :
  Py.contains sub s = true -> Py.contains sub (s ++ t) = true.
Proof.
  induction s as [|a s IH]; intros H.
  - cbn [Py.contains] in H. rewrite orb_false_r in H.
    destruct sub; [|discriminate]. destruct t; reflexivity.
  - cbn [Py.contains append] in H |- *.
    apply orb_prop in H. destruct H as [H|H].
    + change (String a (s ++ t)) with (String a s ++ t)%string.
      rewrite (prefix_app_l _ _ _ H). reflexivity.
    + rewrite (IH H). apply orb_true_r.
Qed.

Lemma contains_cons (sub : string) (a : ascii) (s : string) :
  Py.contains sub s = true -> Py.contains sub (String a s) = true.
Proof. intros H. cbn [Py.contains]. rewrite H. apply orb_true_r. Qed.

Lemma contains_app_r (sub s t : string) :
  Py.contains sub t = true -> Py.contains sub (s ++ t) = true.
Proof.
  induction s as [|a s IH]; intros H; [exact H|].
  cbn [append]. apply contains_cons. now apply IH.
Qed.

(** A text found in a line is found in the whole. *)
Lemma contains_line (sub : string) (c : ascii) (s : string) :
  forall line, In line (Py.split c s) -> Py.contains sub line = true ->
  Py.contains sub s = true.
Proof.
  intros line Hin Hc. rewrite <- (join_split c s).
  revert Hin. generalize (Py.split c s). intros l.
  induction l as [|p rest IH]; intros Hin; [destruct Hin|].
  destruct rest as [|q rest].
  - destruct Hin as [<-|[]]. exact Hc.
  - rewrite join_cons by discriminate.
    destruct Hin as [<-|Hin].
    + now apply contains_app_l.
    + apply contains_app_r. apply contains_app_r. now apply IH.
Qed.

(** X6.  [_string_based_prune] returns a text in which
    [<!-- Optional:] does not occur as it is: lines are dropped for that
    marker only, and the lines that are left are joined as they were. *)
Theorem string_prune_keeps_placeholders (xml_content : string) :
  Py.contains "<!-- Optional:" xml_content = false ->
  _string_based_prune xml_content = xml_content.
Proof.
  intros H. unfold _string_based_prune.
  rewrite filter_all; [apply join_split|].
  apply forallb_forall. intros line Hin.
  destruct (Py.contains "<!-- Optional:" line) eqn:E; [|reflexivity].
  rewrite (contains_line _ _ _ line Hin E) in H. discriminate.
Qed.


Lemma string_prune_keeps_placeholders_witness :
  Py.contains "<!-- Optional:" Examples.doc_named_value = false /\
  _string_based_prune Examples.doc_named_value = Examples.doc_named_value.
Proof.
  split; [reflexivity|].
  apply (string_prune_keeps_placeholders Examples.doc_named_value). reflexivity.
Defined.


End StringFacts.

(* ------------------------------------------------------------------ *)
(** *** The corrector on components it does not find *)
(* ------------------------------------------------------------------ *)

Module SkipFacts.
Import SDCValidator Notions.

Lemma correct_all_absent (tree : Element) (errors : list (string * string)) :
  forall labels,
    forallb (absent tree) errors = true ->
    correct_all (tree, labels) errors = Py.Ret (tree, labels).
Proof.
  induction errors as [|[ct msg] errors IH]; intros labels H; [reflexivity|].
  cbn [forallb] in H. apply andb_prop in H. destruct H as [H1 H2].
  cbn [correct_all correct_one]. unfold absent in H1. cbn [fst] in H1.
  destruct (_find_element_by_ct_id tree ct); [discriminate|].
  cbn [Py.bind]. now apply IH.
Qed.

(** X11.  When no element of the parsed document carries the component
    id of any error, [auto_correct_with_evs] returns the serialization of
    the parsed tree, behind an XML declaration if the input began with
    one, and no corrected field. *)
Theorem auto_correct_absent_ids
  (fromstring : string -> option Element) (tostring : Element -> string)
  (xml_content : string) (errors : list (string * string)) (tree : Element) :
  fromstring xml_content = Some tree ->
  forallb (absent tree) errors = true ->
  auto_correct_with_evs fromstring tostring xml_content errors =
  Py.Ret (if Py.startswith (Py.strip xml_content) "<?xml"
          then (xml_declaration ++ tostring tree)%string
          else tostring tree, []).
Proof.
  intros Hp Ha. unfold auto_correct_with_evs, correct_tree. rewrite Hp.
  rewrite (correct_all_absent tree errors [] Ha). reflexivity.
Qed.

(** one label per located error at most *)
Lemma correct_all_labels (errors : list (string * string)) :
  forall tree labels tree' labels',
    correct_all (tree, labels) errors = Py.Ret (tree', labels') ->
    List.length labels <= List.length labels' <= List.length labels + List.length errors.
Proof.
  induction errors as [|[ct msg] errors IH]; intros tree labels tree' labels' H.
  - inversion H. cbn. lia.
  - cbn [correct_all correct_one] in H.
    destruct (_find_element_by_ct_id tree ct) as [p|].
    + destruct (ET.node tree p) as [elem|].
      * destruct (correct_component elem ct msg) as [r|e]; [|discriminate].
        cbn [Py.bind] in H. apply IH in H. rewrite length_app in H.
        cbn [List.length] in *. lia.
      * cbn [Py.bind] in H. apply IH in H. cbn [List.length]. lia.
    + cbn [Py.bind] in H. apply IH in H. cbn [List.length]. lia.
Qed.

(** X19.  [auto_correct_with_evs] reports at most one corrected field
    for each error. *)
Theorem corrected_fields_bounded
  (fromstring : string -> option Element) (tostring : Element -> string)
  (xml_content : string) (errors : list (string * string))
  (corrected_xml : string) (corrected_fields : list (option string)) :
  auto_correct_with_evs fromstring tostring xml_content errors =
    Py.Ret (corrected_xml, corrected_fields) ->
  List.length corrected_fields <= List.length errors.
Proof.
  unfold auto_correct_with_evs, correct_tree.
  destruct (fromstring xml_content) as [tree|].
  - destruct (correct_all (tree, []) errors) as [[tree' labels]|e] eqn:E;
      [|discriminate].
    cbn [Py.bind fst snd]. intros H. inversion H. subst.
    apply correct_all_labels in E. cbn [List.length] in E. lia.
  - intros H. inversion H. cbn [List.length]. lia.
Qed.

Lemma auto_correct_absent_ids_witness :
  XML.parse false Examples.doc_named_value = Some Samples.named_value_tree /\
  forallb (absent Samples.named_value_tree) Samples.other_error = true /\
  auto_correct_with_evs (XML.parse false) XML.serialize Examples.doc_named_value
    Samples.other_error =
  Py.Ret (XML.serialize Samples.named_value_tree, []).
Proof.
  assert (H1 : XML.parse false Examples.doc_named_value
               = Some Samples.named_value_tree) by (vm_compute; reflexivity).
  assert (H2 : forallb (absent Samples.named_value_tree) Samples.other_error = true)
    by (vm_compute; reflexivity).
  split; [exact H1|]. split; [exact H2|].
  exact (auto_correct_absent_ids (XML.parse false) XML.serialize
           Examples.doc_named_value Samples.other_error Samples.named_value_tree
           H1 H2).
Defined.

Lemma corrected_fields_bounded_witness :
  exists corrected_xml,
    auto_correct_with_evs (XML.parse false) XML.serialize Examples.doc_named_value
      Examples.one_error = Py.Ret (corrected_xml, [Some "Population"]) /\
    List.length [Some "Population"] <= List.length Examples.one_error.
Proof.
  eexists. split; [vm_compute; reflexivity|].
  eapply (corrected_fields_bounded (XML.parse false) XML.serialize
            Examples.doc_named_value Examples.one_error).
  vm_compute. reflexivity.
Defined.

End SkipFacts.

(* ------------------------------------------------------------------ *)
(** *** The query projection on documents without location *)
(* ------------------------------------------------------------------ *)

Module QueryFacts.

Import Notions MoreFacts.

Section Q.
Context {F : Type}.
Variable float : string -> option F.
Variable str_float : F -> string.




Variable fromstring : string -> option Element.


End Q.

End QueryFacts.

(* ------------------------------------------------------------------ *)
(** *** The records of the clean projection *)
(* ------------------------------------------------------------------ *)

Module GeneratorFacts.
Import JSONInstanceGenerator Notions MoreFacts.

Section G.
Context {F : Type}.
Variable float : string -> option F.

Lemma field_data_nonempty (elem : Element) (ft : string)
  (fd : list (string * json F)) :
  _extract_field_data float elem ft = Some fd -> fd <> [].
Proof.
  unfold _extract_field_data.
  match goal with
  | |- match ?d with [] => None | _ :: _ => Some ?d' end = _ -> _ =>
      destruct d; [discriminate|]
  end.
  intros H. inversion H. discriminate.
Qed.

(** X14.  Every key of the fields that the clean projection reports is
    the reported name (the label, else the key) of an entry of the table,
    and no record is empty. *)
Theorem fields_named_by_table (field_metadata : FieldMetadata) (root : Element) :
  forallb (fun kv => (Py.mem (fst kv) (map reported_name field_metadata)
                      && nonempty_record (snd kv))%bool)
          (_extract_fields float field_metadata root) = true.
Proof.
  apply forallb_forall. apply Forall_forall.
  unfold _extract_fields. generalize (ET.iter root). intros l.
  assert (H : Forall (fun kv : string * json F =>
                        (Py.mem (fst kv) (map reported_name field_metadata)
                         && nonempty_record (snd kv))%bool = true) []) by constructor.
  revert H. generalize (@nil (string * json F)) as acc.
  induction l as [|elem l IH]; intros acc Hacc; [exact Hacc|].
  cbn [fold_left]. apply IH.
  unfold extract_step.
  destruct (ET.tag elem) as [t|]; [|exact Hacc].
  destruct (negb (Py.startswith (ET.strip_namespace t) "ms-")); [exact Hacc|].
  unfold ct_id_to_meta.
  destruct (Py.get field_metadata (Py.replace "ms-" "" (ET.strip_namespace t)))
    as [meta|] eqn:Em; [|exact Hacc].
  destruct (_extract_field_data float elem (or_default (meta_type meta) "XdString"))
    as [fd|] eqn:Ef; [|exact Hacc].
  apply set_Forall; [exact Hacc|].
  cbn [fst snd]. apply andb_true_intro. split.
  - unfold Py.mem. apply existsb_exists.
    exists (reported_name (Py.replace "ms-" "" (ET.strip_namespace t), meta)).
    split; [apply in_map; apply get_in; exact Em|apply String.eqb_refl].
  - pose proof (field_data_nonempty _ _ _ Ef). destruct fd; [congruence|reflexivity].
Qed.

(** placeholders are never reported *)
Lemma parse_value_text (s ft t : string) :
  _parse_value float s ft = JStr t -> t = s.
Proof.
  unfold _parse_value.
  destruct (String.eqb ft "XdBoolean"); [discriminate|].
  destruct (Py.mem ft ["XdCount"; "XdOrdinal"]).
  { destruct (Py.int s); [discriminate|]. intros H. now inversion H. }
  destruct (Py.mem ft ["XdQuantity"; "XdFloat"; "XdDouble"]).
  { destruct (float s); [discriminate|]. intros H. now inversion H. }
  intros H. now inversion H.
Qed.

Lemma first_temporal_plain (elem : Element) (names : list string) (t : string) :
  first_temporal_text elem names = Some t ->
  t <> "" /\ Py.startswith t PLACEHOLDER_PREFIX = false.
Proof.
  induction names as [|n names IH]; [discriminate|].
  cbn [first_temporal_text].
  destruct (ET.find elem n) as [ve|]; [|exact IH].
  destruct (ET.text ve) as [[|c r]|]; try exact IH.
  destruct (negb (Py.startswith (String c r) PLACEHOLDER_PREFIX)) eqn:E; [|exact IH].
  intros H. inversion H. subst t. split; [discriminate|].
  now apply negb_true_iff in E.
Qed.

Lemma value_plain (elem : Element) (ft t : string) :
  _extract_value float elem ft = Some (JStr t) ->
  t <> "" /\ Py.startswith t PLACEHOLDER_PREFIX = false.
Proof.
  unfold _extract_value.
  destruct (String.eqb ft "XdTemporal").
  - destruct (first_temporal_text elem temporal_elem_names) as [u|] eqn:E;
      [|discriminate].
    cbn [option_map]. intros H. inversion H. subst u.
    exact (first_temporal_plain _ _ _ E).
  - cbv zeta.
    destruct (ET.find elem (or_default (Py.get type_to_elem ft) "value")) as [ve|];
      [|discriminate].
    destruct (ET.text ve) as [[|c r]|]; try discriminate.
    destruct (Py.startswith (String c r) PLACEHOLDER_PREFIX) eqn:E; [discriminate|].
    intros H. inversion H as [H1]. apply parse_value_text in H1. subst t.
    split; [discriminate|exact E].
Qed.

Lemma units_plain (elem : Element) (ft u : string) :
  _extract_units_value elem ft = Some u ->
  u <> "" /\ Py.startswith u PLACEHOLDER_PREFIX = false.
Proof.
  unfold _extract_units_value.
  destruct (Py.get units_elem_names ft) as [n|]; [|discriminate].
  destruct (ET.find elem n) as [ue|]; [|discriminate].
  destruct (ET.find ue "xdstring-value") as [ve|]; [|discriminate].
  destruct (ET.text ve) as [[|c r]|]; try discriminate.
  destruct (Py.startswith (String c r) PLACEHOLDER_PREFIX) eqn:E; [discriminate|].
  intros H. inversion H. split; [discriminate|exact E].
Qed.

Lemma some_nonempty {V : Type} (d record : list V) :
  match d with [] => None | _ :: _ => Some d end = Some record -> record = d.
Proof. destruct d; [discriminate|]. intros H. now inversion H. Qed.

(** X15.  A text that a record of the clean projection holds under
    [value] or [units] is not empty and does not begin with the
    placeholder prefix. *)
Theorem clean_record_has_no_placeholder (elem : Element) (ft : string)
  (record : list (string * json F)) (key t : string) :
  _extract_field_data float elem ft = Some record ->
  key = "value" \/ key = "units" ->
  Py.get record key = Some (JStr t) ->
  t <> "" /\ Py.startswith t PLACEHOLDER_PREFIX = false.
Proof.
  unfold _extract_field_data.
  set (fd0 := match _extract_ev elem with
              | Some ev_data => [("ev", JStr ev_data)]
              | None => []
              end).
  assert (H0 : forall k, k = "value" \/ k = "units" ->
                 Py.get fd0 k = (@None (json F))).
  { intros k Hk. subst fd0. destruct (_extract_ev elem); [|reflexivity].
    cbn [Py.get]. destruct Hk as [-> | ->]; reflexivity. }
  destruct (_extract_value float elem ft) as [v|] eqn:Ev;
    destruct (_extract_units_value elem ft) as [[|a u]|] eqn:Eu;
    intros H Hk Hg; apply some_nonempty in H; subst record.
  all: destruct Hk as [-> | ->].
  all: repeat first
         [ rewrite TreeFacts.get_set_same in Hg
         | rewrite TreeFacts.get_set_other in Hg by discriminate
         | rewrite H0 in Hg by auto ].
  all: try discriminate.
  all: try (inversion Hg; subst; first [ exact (value_plain _ _ _ Ev)
                                        | exact (units_plain _ _ _ Eu) ]).
Qed.

End G.
Lemma clean_record_has_no_placeholder_witness :
  _extract_field_data Dec.float Samples.state_component "XdString"
    = Some Samples.state_record /\
  Py.get Samples.state_record "value" = Some (JStr "Ohio") /\
  "Ohio" <> "" /\ Py.startswith "Ohio" PLACEHOLDER_PREFIX = false.
Proof.
  assert (H1 : _extract_field_data Dec.float Samples.state_component "XdString"
               = Some Samples.state_record) by (vm_compute; reflexivity).
  assert (H2 : Py.get Samples.state_record "value" = Some (JStr "Ohio"))
    by (vm_compute; reflexivity).
  split; [exact H1|]. split; [exact H2|].
  exact (clean_record_has_no_placeholder Dec.float Samples.state_component "XdString"
           Samples.state_record "value" "Ohio" H1 (or_introl eq_refl) H2).
Defined.

End GeneratorFacts.

(* ------------------------------------------------------------------ *)
(** *** The result of a validation *)
(* ------------------------------------------------------------------ *)

Module ValidationFacts.
Import Validation Notions.

Lemma has_key_set {V : Type} (d : list (string * V)) (k k' : string) (v : V) :
  has_key d k = true -> has_key (Py.set d k' v) k = true.
Proof.
  unfold has_key. intros H.
  destruct (String.eqb k' k) eqn:E.
  - apply String.eqb_eq in E. subst. now rewrite TreeFacts.get_set_same.
  - rewrite TreeFacts.get_set_other; [exact H|].
    intros ->. now rewrite String.eqb_refl in E.
Qed.

Lemma has_key_set_same {V : Type} (d : list (string * V)) (k : string) (v : V) :
  has_key (Py.set d k v) k = true.
Proof. unfold has_key. now rewrite TreeFacts.get_set_same. Qed.

Lemma format_step_keeps (formatted : list (string * string)) (error : Error)
  (k : string) :
  has_key formatted k = true -> has_key (format_step formatted error) k = true.
Proof.
  intros H. destruct error as [[c|] [m|] s|items s]; cbn [format_step];
    now apply has_key_set.
Qed.

Lemma fold_keeps (l : list Error) : forall formatted k,
  has_key formatted k = true -> has_key (fold_left format_step l formatted) k = true.
Proof.
  induction l as [|e l IH]; intros formatted k H; [exact H|].
  cbn [fold_left]. apply IH. now apply format_step_keeps.
Qed.

Lemma fold_ids (l : list Error) : forall formatted,
  forallb with_message l = true ->
  forallb (has_key (fold_left format_step l formatted)) (_extract_component_ids l)
  = true.
Proof.
  induction l as [|e l IH]; intros formatted H; [reflexivity|].
  cbn [forallb] in H. apply andb_prop in H. destruct H as [H1 H2].
  cbn [fold_left _extract_component_ids flat_map].
  rewrite forallb_app. rewrite (IH _ H2), andb_true_r.
  destruct e as [[c|] [m|] s|items s]; cbn [forallb]; try reflexivity;
    try discriminate.
  - rewrite andb_true_r. apply fold_keeps. apply has_key_set_same.
  - destruct (Py.get items "ct_id") as [c|] eqn:E; [|reflexivity].
    cbn [forallb]. rewrite andb_true_r. apply fold_keeps.
    cbn [format_step]. rewrite E. cbn [or_default]. apply has_key_set_same.
Qed.

Lemma set_nonempty {V : Type} (d : list (string * V)) k v : Py.set d k v <> [].
Proof.
  destruct d as [|[k' v'] d]; cbn [Py.set]; [discriminate|].
  destruct (String.eqb k' k); discriminate.
Qed.

Lemma format_step_nonempty formatted error : format_step formatted error <> [].
Proof.
  destruct error as [[c|] [m|] s|items s]; cbn [format_step]; apply set_nonempty.
Qed.

Lemma fold_nonempty (l : list Error) : forall formatted,
  formatted <> [] -> fold_left format_step l formatted <> [].
Proof.
  induction l as [|e l IH]; intros formatted H; [exact H|].
  cbn [fold_left]. apply IH. apply format_step_nonempty.
Qed.

(** X12.  In the result of [validate], [is_valid] holds exactly when the
    dictionary of errors is empty; a valid result names no invalid
    component; and when every error object with a [ct_id] has a
    [message], every invalid component is a key of the errors. *)
Theorem validation_result_consistent (validator_validate : string -> list Error)
  (xml_content : string) :
  let r := validate validator_validate xml_content in
  is_valid r = match errors r with [] => true | _ :: _ => false end /\
  (is_valid r = true -> invalid_components r = []) /\
  (forallb with_message (validator_validate xml_content) = true ->
   forallb (has_key (errors r)) (invalid_components r) = true).
Proof.
  cbv zeta. unfold validate. cbn [is_valid errors invalid_components].
  split; [|split].
  - destruct (validator_validate xml_content) as [|e l]; [reflexivity|].
    cbn [List.length Nat.eqb]. unfold _format_errors. cbn [fold_left].
    pose proof (fold_nonempty l _ (format_step_nonempty [] e)) as H.
    destruct (fold_left format_step l (format_step [] e)); [congruence|reflexivity].
  - destruct (validator_validate xml_content); [reflexivity|discriminate].
  - apply fold_ids.
Qed.

Lemma validation_result_consistent_witness :
  forallb with_message (Samples.reported "<dm/>") = true /\
  is_valid (validate Samples.reported "<dm/>") = false /\
  forallb (has_key (errors (validate Samples.reported "<dm/>")))
    (invalid_components (validate Samples.reported "<dm/>")) = true.
Proof.
  split; [reflexivity|]. split; [reflexivity|].
  apply (validation_result_consistent Samples.reported "<dm/>"). reflexivity.
Defined.

End ValidationFacts.

(* ------------------------------------------------------------------ *)
(** *** The instance id in the RDF projection *)
(* ------------------------------------------------------------------ *)

Module IdFacts.
Import Aux.

Lemma prefix_has_char (x : ascii) (old t : string) :
  String.prefix old t = true -> Py.has_char x old = true -> Py.has_char x t = true.
Proof.
  revert t. induction old as [|a old IH]; intros t Hp Hx; [discriminate|].
  destruct t as [|b t]; [discriminate|].
  cbn [String.prefix] in Hp. destruct (ascii_dec a b) as [->|]; [|discriminate].
  cbn [Py.has_char] in Hx |- *.
  destruct (Ascii.eqb b x); [reflexivity|]. cbn [orb] in Hx |- *.
  now apply IH.
Qed.

Lemma free_without_char (x : ascii) (old s : string) :
  Py.has_char x old = true -> Py.has_char x s = false ->
  free_before old s "" = true.
Proof.
  intros Ho. induction s as [|a s IH]; intros Hs; [reflexivity|].
  cbn [free_before]. rewrite PyFacts.append_nil_r.
  destruct (String.prefix old (String a s)) eqn:E.
  - rewrite (prefix_has_char x old _ E Ho) in Hs. discriminate.
  - cbn [negb andb]. apply IH.
    cbn [Py.has_char] in Hs. apply orb_false_elim in Hs. apply Hs.
Qed.

Lemma replace_without_char (x : ascii) (old new s : string) :
  Py.has_char x old = true -> Py.has_char x s = false ->
  Py.replace old new s = s.
Proof.
  intros Ho Hs. destruct old as [|c o]; [reflexivity|].
  unfold Py.replace. apply ReplaceFacts.replace_from_free.
  exact (free_without_char x (String c o) s Ho Hs).
Qed.

Lemma cuid_of_plain (c : string) :
  Py.has_char "-" c = false ->
  Py.replace "ev-" "" (Py.replace "i-" "" ("i-" ++ c)) = c.
Proof.
  intros H.
  assert (E : Py.replace "i-" "" ("i-" ++ c) = c).
  { change ("i-" ++ c)%string with ("" ++ "i-" ++ c)%string.
    rewrite ReplaceFacts.replace_between; [reflexivity|discriminate|reflexivity|].
    exact (free_without_char "-" "i-" c eq_refl H). }
  rewrite E. exact (replace_without_char "-" "ev-" "" c eq_refl H).
Qed.

Lemma cuid_of_marked (c : string) :
  Py.has_char "-" c = false ->
  Py.replace "ev-" "" (Py.replace "i-" "" ("i-ev-" ++ c)) = c.
Proof.
  intros H.
  assert (E : Py.replace "i-" "" ("i-ev-" ++ c) = ("ev-" ++ c)%string).
  { unfold Py.replace. cbn [append Py.replace_from String.length Nat.sub].
    cbn [String.prefix]. 
    repeat match goal with
           | |- context [ascii_dec ?a ?b] =>
               let v := eval vm_compute in (ascii_dec a b) in
               change (ascii_dec a b) with v; cbv iota
           end.
    rewrite ?PyFacts.prefix_nil. cbn [append].
    fold (Py.replace "i-" "" c).
    rewrite (replace_without_char "-" "i-" "" c eq_refl H). reflexivity. }
  rewrite E.
  change ("ev-" ++ c)%string with ("" ++ "ev-" ++ c)%string.
  rewrite ReplaceFacts.replace_between; [reflexivity|discriminate|reflexivity|].
  exact (free_without_char "-" "ev-" c eq_refl H).
Qed.

(** X16.  For an instance id [i-<cuid>] or [i-ev-<cuid>] whose cuid
    holds no hyphen, the RDF of a parsed document is built from the bare
    cuid: the marker of an exceptional value does not reach the subjects
    of the reified statements. *)
Theorem reifier_uses_bare_cuid (dm_ct_id dm_label : string)
  (field_metadata : FieldMetadata) (fromstring : string -> option Element)
  (xml_content cuid validation_status : string)
  (auto_corrected_fields : list (option string)) (tree : Element)
  (instance_id : string) :
  fromstring xml_content = Some tree ->
  Py.has_char "-" cuid = false ->
  instance_id = ("i-" ++ cuid)%string \/ instance_id = ("i-ev-" ++ cuid)%string ->
  RDFExtractor.extract dm_ct_id dm_label field_metadata fromstring xml_content
    instance_id validation_status auto_corrected_fields =
  Py.join RDFExtractor.nl
    (RDFExtractor.PREFIXES ::
     RDFExtractor._generate_instance_metadata dm_ct_id dm_label tree instance_id
       cuid validation_status auto_corrected_fields ++
     flat_map (RDFExtractor.component_lines dm_ct_id field_metadata instance_id
                 cuid (RDFExtractor._find_cluster_ct_id tree))
       (ET.iter tree)).
Proof.
  intros Hp Hc Hid. unfold RDFExtractor.extract. rewrite Hp. cbv zeta.
  assert (E : Py.replace "ev-" "" (Py.replace "i-" "" instance_id) = cuid).
  { destruct Hid as [-> | ->]; [now apply cuid_of_plain|now apply cuid_of_marked]. }
  rewrite E. reflexivity.
Qed.

Lemma reifier_uses_bare_cuid_witness :
  XML.parse false Examples.doc_named_value = Some Samples.named_value_tree /\
  Py.has_char "-" "xyz" = false /\
  RDFExtractor.extract "dm1" "State Population" Examples.FIELD_METADATA
    (XML.parse false) Examples.doc_named_value "i-ev-xyz" "valid_with_ev" [] =
  Py.join RDFExtractor.nl
    (RDFExtractor.PREFIXES ::
     RDFExtractor._generate_instance_metadata "dm1" "State Population"
       Samples.named_value_tree "i-ev-xyz" "xyz" "valid_with_ev" [] ++
     flat_map (RDFExtractor.component_lines "dm1" Examples.FIELD_METADATA "i-ev-xyz"
                 "xyz" (RDFExtractor._find_cluster_ct_id Samples.named_value_tree))
       (ET.iter Samples.named_value_tree)).
Proof.
  assert (H1 : XML.parse false Examples.doc_named_value
               = Some Samples.named_value_tree) by (vm_compute; reflexivity).
  split; [exact H1|]. split; [reflexivity|].
  exact (reifier_uses_bare_cuid "dm1" "State Population" Examples.FIELD_METADATA
           (XML.parse false) Examples.doc_named_value "xyz" "valid_with_ev" []
           Samples.named_value_tree "i-ev-xyz" H1 eq_refl (or_intror eq_refl)).
Defined.

End IdFacts.

(* ------------------------------------------------------------------ *)
(** *** The participations of the wizard *)
(* ------------------------------------------------------------------ *)

Module WizardFacts.
Import Wizard Notions MoreFacts.

Lemma append_inj_l (a x y : string) : (a ++ x = a ++ y)%string -> x = y.
Proof. induction a as [|c a IH]; cbn [append]; intros H; [exact H|]. inversion H. auto. Qed.

Lemma append_inj_r (s : string) : forall x y, (x ++ s = y ++ s)%string -> x = y.
Proof.
  induction x as [|a x IH]; intros y H.
  - destruct y as [|b y]; [reflexivity|].
    apply (f_equal String.length) in H. cbn [append String.length] in H.
    rewrite strlen_app in H. lia.
  - destruct y as [|b y].
    + apply (f_equal String.length) in H. cbn [append String.length] in H.
      rewrite strlen_app in H. lia.
    + cbn [append] in H. inversion H. f_equal. now apply IH.
Qed.

Lemma str_int_inj (i j : nat) :
  Py.str_int (Z.of_nat i) = Py.str_int (Z.of_nat j) -> i = j.
Proof.
  intros H. apply (f_equal Py.int) in H.
  rewrite !DecimalFacts.int_str_int in H. inversion H. lia.
Qed.

Lemma name_key_inj (i j : nat) :
  (participation_prefix i ++ "name" = participation_prefix j ++ "name")%string -> i = j.
Proof.
  unfold participation_prefix. rewrite !PyFacts.append_assoc.
  intros H. apply append_inj_l in H. apply append_inj_r in H.
  now apply str_int_inj.
Qed.

Lemma alt_key (idx : nat) :
  (("participation_" ++ Py.str_int (Z.of_nat idx)) ++ "_name")%string =
  (participation_prefix idx ++ "name")%string.
Proof. unfold participation_prefix. now rewrite !PyFacts.append_assoc. Qed.

Lemma participation_at_named (cd : list (string * Value)) (idx : nat) :
  match participation_at cd idx with
  | Some p =>
      named cd idx = true /\
      Py.get cd (participation_prefix idx ++ "name") = Some (p_name p)
  | None => named cd idx = false
  end.
Proof.
  unfold participation_at, named. cbv zeta. rewrite alt_key.
  destruct (Py.get cd (participation_prefix idx ++ "name")) as [v|]; cbn [or_default].
  - destruct (truth_of_value v) eqn:E.
    + rewrite E. cbn [p_name]. auto.
    + rewrite E. reflexivity.
  - reflexivity.
Qed.

Lemma named_in (cd : list (string * Value)) (idx : nat) :
  named cd idx = true -> In (participation_prefix idx ++ "name")%string (map fst cd).
Proof.
  unfold named.
  destruct (Py.get cd (participation_prefix idx ++ "name")) as [v|] eqn:E;
    [|discriminate].
  intros _. revert E. generalize (participation_prefix idx ++ "name")%string as k.
  induction cd as [|[k' v'] cd IH]; intros k; [discriminate|].
  cbn [Py.get map fst]. destruct (String.eqb k' k) eqn:Ek.
  - apply String.eqb_eq in Ek. now left.
  - intros H. right. now apply IH.
Qed.

(** A loop that is out of fuel has found a name at every index it
    visited. *)
Lemma out_of_fuel (cd : list (string * Value)) (fuel : nat) : forall idx,
  participations_from fuel idx cd = None ->
  forall j, idx <= j < idx + fuel -> named cd j = true.
Proof.
  induction fuel as [|fuel IH]; intros idx H j Hj; [lia|].
  cbn [participations_from] in H.
  pose proof (participation_at_named cd idx) as Hn.
  destruct (participation_at cd idx) as [p|]; [|discriminate].
  destruct Hn as [Hn _].
  destruct (participations_from fuel (S idx) cd) eqn:E; [discriminate|].
  destruct (Nat.eq_dec j idx) as [->|Hne]; [exact Hn|].
  apply (IH (S idx) E). lia.
Qed.

Lemma nodup_map_inj {A B : Type} (f : A -> B) (l : list A) :
  (forall x y, f x = f y -> x = y) -> NoDup l -> NoDup (map f l).
Proof.
  intros Hf. induction 1 as [|a l Ha _ IH]; cbn [map]; constructor; [|exact IH].
  intros Hin. apply in_map_iff in Hin. destruct Hin as (b & Hb & Hin).
  apply Hf in Hb. subst b. contradiction.
Qed.

Lemma keys_nodup (n : nat) :
  NoDup (map (fun i => (participation_prefix i ++ "name")%string) (seq 0 n)).
Proof.
  apply nodup_map_inj; [|apply seq_NoDup].
  intros i j. apply name_key_inj.
Qed.

Lemma loop_ends (cd : list (string * Value)) (fuel : nat) :
  List.length cd < fuel -> participations_from fuel 0 cd <> None.
Proof.
  intros Hf H.
  pose proof (out_of_fuel cd fuel 0 H) as Hall.
  pose proof (keys_nodup fuel) as Hnd.
  assert (Hincl : incl (map (fun i => (participation_prefix i ++ "name")%string)
                          (seq 0 fuel)) (map fst cd)).
  { intros k Hk. apply in_map_iff in Hk. destruct Hk as (i & <- & Hi).
    apply in_seq in Hi. apply named_in. apply Hall. lia. }
  pose proof (NoDup_incl_length Hnd Hincl) as Hl.
  rewrite !length_map, length_seq in Hl. lia.
Qed.

Lemma loop_result (cd : list (string * Value)) (fuel : nat) : forall idx l,
  participations_from fuel idx cd = Some l ->
  named cd (idx + List.length l) = false /\
  forall k p, nth_error l k = Some p ->
    named cd (idx + k) = true /\
    Py.get cd (participation_prefix (idx + k) ++ "name") = Some (p_name p).
Proof.
  induction fuel as [|fuel IH]; intros idx l H; [discriminate|].
  cbn [participations_from] in H.
  pose proof (participation_at_named cd idx) as Hn.
  destruct (participation_at cd idx) as [p0|].
  - destruct (participations_from fuel (S idx) cd) as [l'|] eqn:E; [|discriminate].
    cbn [option_map] in H. inversion H. subst l. clear H.
    destruct (IH (S idx) l' E) as [H1 H2]. split.
    + cbn [List.length]. replace (idx + S (List.length l')) with (S idx + List.length l')
        by lia. exact H1.
    + intros k p Hk. destruct k as [|k].
      * cbn [nth_error] in Hk. inversion Hk. subst p0.
        rewrite Nat.add_0_r. exact Hn.
      * cbn [nth_error] in Hk. replace (idx + S k) with (S idx + k) by lia.
        now apply H2.
  - inversion H. subst l. cbn [List.length]. rewrite Nat.add_0_r. split; [exact Hn|].
    intros k p Hk. destruct k; discriminate.
Qed.

(** X8.  The loop of [_extract_participations] ends: with more turns
    than the form has entries it returns a list, no longer than the form,
    of the participations of the indices 0, 1, ... up to the first index
    for which the form holds no name; each takes its name from the key
    [participation_<index>_name]. *)
Theorem extract_participations_ends (context_data : list (string * Value))
  (fuel : nat) :
  List.length context_data < fuel ->
  exists participations,
    _extract_participations fuel context_data = Some participations /\
    List.length participations <= List.length context_data /\
    named context_data (List.length participations) = false /\
    forall k p, nth_error participations k = Some p ->
      named context_data k = true /\
      Py.get context_data (participation_prefix k ++ "name") = Some (p_name p).
Proof.
  intros Hf. unfold _extract_participations.
  destruct (participations_from fuel 0 context_data) as [l|] eqn:E;
    [|exfalso; exact (loop_ends context_data fuel Hf E)].
  exists l. split; [reflexivity|].
  destruct (loop_result context_data fuel 0 l E) as [H1 H2].
  cbn [Nat.add] in H1, H2.
  split; [|split; [exact H1|exact H2]].
  (* the names found are keys of the form *)
  pose proof (keys_nodup (List.length l)) as Hnd.
  assert (Hincl : incl (map (fun i => (participation_prefix i ++ "name")%string)
                          (seq 0 (List.length l))) (map fst context_data)).
  { intros k Hk. apply in_map_iff in Hk. destruct Hk as (i & <- & Hi).
    apply in_seq in Hi. apply named_in.
    destruct (nth_error l i) as [p|] eqn:En.
    - exact (proj1 (H2 i p En)).
    - apply nth_error_None in En. lia. }
  pose proof (NoDup_incl_length Hnd Hincl) as Hl.
  rewrite !length_map, length_seq in Hl. exact Hl.
Qed.

Lemma extract_participations_ends_witness :
  List.length Samples.context_form < 5 /\
  exists participations,
    _extract_participations 5 Samples.context_form = Some participations /\
    List.length participations <= 4 /\
    named Samples.context_form (List.length participations) = false.
Proof.
  assert (H : List.length Samples.context_form < 5) by (vm_compute; lia).
  split; [exact H|].
  destruct (extract_participations_ends Samples.context_form 5 H)
    as (participations & H1 & H2 & H3 & _).
  exists participations. split; [exact H1|]. split; [exact H2|exact H3].
Defined.

End WizardFacts.

(* ------------------------------------------------------------------ *)
(** *** The builder without a skeleton *)
(* ------------------------------------------------------------------ *)

Module FallbackFacts.
Import XMLBuilder SDCValidator Notions.

Lemma value_names_plain :
  forallb (fun v => negb (Py.mem v ev_tags)) Aux.VALUE_NAMES = true.
Proof. vm_compute. reflexivity. Qed.

Lemma leaf_plain (t x : string) :
  Py.mem t ev_tags = false -> plain (leaf t x) = true.
Proof.
  intros H. unfold plain, leaf, is_ev_element, unmarked.
  cbn [ET.tag Py.get andb]. now rewrite H.
Qed.

Lemma fallback_field_plain (form_data : list (string * Value))
  (entry : string * FieldMeta) :
  forallb plain (flat_map ET.iter (fallback_field form_data entry)) = true.
Proof.
  destruct entry as [field_name meta]. unfold fallback_field.
  destruct (Py.get form_data field_name) as [value|]; [|reflexivity].
  cbv zeta.
  set (vn := _get_value_element_name _ _).
  assert (Hvn : Py.mem vn ev_tags = false).
  { pose proof value_names_plain as H. rewrite forallb_forall in H.
    apply negb_true_iff. apply H. apply TreeFacts.value_name_in. }
  set (text := if String.eqb _ "XdBoolean" then _ else _).
  set (lbl := or_default (meta_label meta) field_name).
  set (ct := or_default (meta_ct_id meta) "").
  assert (Hv : forallb plain
                 (flat_map ET.iter (if is_supplied value then [leaf vn text] else [])) = true).
  { destruct (is_supplied value); [|reflexivity].
    cbn [flat_map ET.iter leaf app forallb]. fold (leaf vn text).
    now rewrite leaf_plain. }
  set (ve := if is_supplied value then _ else _) in *.
  set (ue := if Py.mem _ quantified_types then _ else _).
  assert (Hu : forallb plain (flat_map ET.iter ue) = true).
  { subst ue. destruct (Py.mem (or_default (meta_type meta) "") quantified_types) eqn:Hq;
      [|reflexivity].
    destruct (meta_units meta) as [ui|]; [|reflexivity].
    unfold quantified_types in Hq. cbn [Py.mem existsb] in Hq.
    repeat (apply orb_prop in Hq; destruct Hq as [Hq|Hq]);
      try discriminate; apply String.eqb_eq in Hq; rewrite Hq; reflexivity. }
  assert (Hc : forallb plain
      (ET.iter (Elem (clark SDC4_NS ("ms-" ++ ct)) [] None (leaf "label" lbl :: ve ++ ue))) = true).
  { cbn [ET.iter flat_map forallb leaf app]. rewrite flat_map_app, forallb_app, Hv, Hu.
    reflexivity. }
  destruct (meta_adapter_ctid meta) as [[|c adapter]|].
  - cbn [flat_map]. rewrite app_nil_r. exact Hc.
  - cbn [flat_map]. rewrite app_nil_r.
    change (ET.iter (Elem ?t ?a ?x [?k])) with (Elem t a x [k] :: ET.iter k ++ []).
    rewrite app_nil_r. cbn [forallb]. rewrite Hc. reflexivity.
  - cbn [flat_map]. rewrite app_nil_r. exact Hc.
Qed.

Lemma fallback_tree_plain (dm_ct_id : option string) (field_metadata : FieldMetadata)
  (dm_label : option string) (utcnow : nat -> string)
  (dm cluster instance_id : string) (form_data : list (string * Value)) (n : nat) :
  forallb plain
    (ET.iter (fallback_tree dm_ct_id field_metadata dm_label utcnow dm cluster
                instance_id form_data n)) = true.
Proof.
  unfold fallback_tree.
  match goal with
  | |- forallb _ (ET.iter (Elem ?t ?a ?x (?m ++ [Elem ?t' [] None (?l :: ?f)]))) = true =>
      change (forallb plain
                (Elem t a x (m ++ [Elem t' [] None (l :: f)])
                 :: flat_map ET.iter (m ++ [Elem t' [] None (l :: f)])) = true);
      assert (Hm : forallb plain (flat_map ET.iter m) = true) by reflexivity;
      assert (Hf : forallb plain (flat_map ET.iter f) = true)
  end.
  { induction field_metadata as [|entry l IH]; [reflexivity|].
    cbn [flat_map]. rewrite flat_map_app, forallb_app, fallback_field_plain.
    exact IH. }
  cbn [forallb]. rewrite flat_map_app, forallb_app, Hm.
  match goal with
  | |- context [flat_map ET.iter [Elem ?t' [] None (?l :: ?f)]] =>
      change (flat_map ET.iter [Elem t' [] None (l :: f)])
        with ((Elem t' [] None (l :: f) :: l :: flat_map ET.iter f) ++ [])
  end.
  rewrite app_nil_r. cbn [forallb]. rewrite Hf. reflexivity.
Qed.

(** The corrector finds no component in such a tree. *)
Lemma first_path_none (p : Element -> bool) (e : Element) :
  forallb (fun d => negb (p d)) (ET.iter e) = true ->
  ET.first_path p e = None.
Proof.
  induction e as [b|t a x kids IH] using Element_rect'; intros H.
  - cbn in H |- *. destruct (p (Comment b)); [discriminate|reflexivity].
  - cbn [ET.iter forallb] in H. apply andb_prop in H. destruct H as [H1 H2].
    apply negb_true_iff in H1. cbn [ET.first_path]. rewrite H1.
    clear H1. revert H2. generalize 0.
    induction IH as [|k kids Hk _ IHk]; intros i H2; [reflexivity|].
    cbn [flat_map] in H2. rewrite forallb_app in H2. apply andb_prop in H2.
    destruct H2 as [Hk1 Hk2]. rewrite (Hk Hk1). now apply IHk.
Qed.

Lemma plain_absent (tree : Element) (ct_id : string) :
  forallb plain (ET.iter tree) = true ->
  _find_element_by_ct_id tree ct_id = None.
Proof.
  intros H. apply first_path_none. rewrite forallb_forall in H |- *.
  intros d Hd. specialize (H d Hd). unfold plain in H. apply andb_prop in H.
  destruct H as [H _]. unfold has_ct_id, ET.attr. destruct d as [t a x kids|b].
  - cbn in H |- *. destruct (Py.get a "ct-id"); [discriminate|reflexivity].
  - reflexivity.
Qed.

(** X9.  The tree built without a skeleton holds no exceptional-value
    element, whatever the form data: that builder does not read the
    selections of exceptional values. *)
Theorem fallback_tree_has_no_ev (dm_ct_id : option string)
  (field_metadata : FieldMetadata) (dm_label : option string)
  (utcnow : nat -> string) (dm cluster instance_id : string)
  (form_data : list (string * Value)) (n : nat) :
  forallb (fun d => negb (is_ev_element d))
    (ET.iter (fallback_tree dm_ct_id field_metadata dm_label utcnow dm cluster
                instance_id form_data n)) = true.
Proof.
  apply forallb_forall. intros d Hd.
  pose proof (fallback_tree_plain dm_ct_id field_metadata dm_label utcnow dm cluster
                instance_id form_data n) as H.
  rewrite forallb_forall in H. specialize (H d Hd).
  unfold plain in H. apply andb_prop in H. apply H.
Qed.

(** X10.  On the tree built without a skeleton the loop of the corrector
    changes nothing and reports no corrected field, whatever the errors:
    no element of that tree carries a [ct-id] attribute. *)
Theorem corrector_skips_fallback_tree (dm_ct_id : option string)
  (field_metadata : FieldMetadata) (dm_label : option string)
  (utcnow : nat -> string) (dm cluster instance_id : string)
  (form_data : list (string * Value)) (n : nat)
  (errors : list (string * string)) :
  let tree := fallback_tree dm_ct_id field_metadata dm_label utcnow dm cluster
                instance_id form_data n in
  forallb unmarked (ET.iter tree) = true /\
  correct_tree tree errors = Py.Ret (tree, []).
Proof.
  cbv zeta.
  pose proof (fallback_tree_plain dm_ct_id field_metadata dm_label utcnow dm cluster
                instance_id form_data n) as H.
  split.
  - apply forallb_forall. intros d Hd. rewrite forallb_forall in H.
    specialize (H d Hd). unfold plain in H. apply andb_prop in H. apply H.
  - apply SkipFacts.correct_all_absent. apply forallb_forall. intros item _.
    unfold absent. now rewrite plain_absent.
Qed.

End FallbackFacts.

(* ------------------------------------------------------------------ *)
(** *** The component id in a tag *)
(* ------------------------------------------------------------------ *)

Module TagFacts.
Import XMLBuilder.

Lemma replace_from_shrinks (old s : string) :
  forall k, String.length (Py.replace_from k old "" s) <= String.length s.
Proof.
  induction s as [|a s IH]; intros k; [destruct k; cbn; lia|].
  cbn [Py.replace_from]. destruct k as [|k].
  - destruct (String.prefix old (String a s)).
    + cbn [append String.length]. specialize (IH (String.length old - 1)). lia.
    + cbn [String.length]. specialize (IH 0). lia.
  - cbn [String.length]. specialize (IH k). lia.
Qed.

Lemma replace_from_strict (c : ascii) (o s : string) :
  Py.contains (String c o) s = true ->
  String.length (Py.replace_from 0 (String c o) "" s) < String.length s.
Proof.
  induction s as [|a s IH]; intros H.
  - cbn in H. discriminate.
  - cbn [Py.contains] in H. cbn [Py.replace_from].
    destruct (String.prefix (String c o) (String a s)) eqn:E.
    + generalize (String.length (String c o) - 1). intros k.
      pose proof (replace_from_shrinks (String c o) s k).
      cbn [append String.length]. lia.
    + cbn [orb] in H. cbn [String.length]. specialize (IH H). lia.
Qed.

Lemma contains_free (old s : string) :
  Py.contains old s = false -> Aux.free_before old s "" = true.
Proof.
  induction s as [|a s IH]; intros H; [reflexivity|].
  cbn [Py.contains] in H. apply orb_false_iff in H. destruct H as [H1 H2].
  cbn [Aux.free_before]. rewrite PyFacts.append_nil_r, H1. cbn [negb andb].
  now apply IH.
Qed.

Lemma replace_unchanged (c : ascii) (o s : string) :
  Py.replace_from 0 (String c o) "" s = s <-> Py.contains (String c o) s = false.
Proof.
  split; intros H.
  - destruct (Py.contains (String c o) s) eqn:E; [|reflexivity].
    apply replace_from_strict in E. rewrite H in E. lia.
  - apply ReplaceFacts.replace_from_free. now apply contains_free.
Qed.

(** X17.  From the tag the builder gives the component of an id without
    [}], the query projection reads the id back (it drops three
    characters); the clean and the RDF projections, which replace every
    [ms-], read it back exactly when [ms-] does not occur in the id. *)
Theorem component_id_read_back (ct_id : string) :
  Py.has_char "}" ct_id = false ->
  let tag_name := ET.strip_namespace (clark SDC4_NS ("ms-" ++ ct_id)) in
  Py.startswith tag_name "ms-" = true /\
  Py.drop 3 tag_name = ct_id /\
  (Py.replace "ms-" "" tag_name = ct_id <-> Py.contains "ms-" ct_id = false).
Proof.
  intros H tag_name.
  assert (Ht : tag_name = ("ms-" ++ ct_id)%string).
  { subst tag_name. unfold ET.strip_namespace, Py.split_second, clark.
    cbn. now rewrite ReplaceFacts.split_head_absent. }
  rewrite Ht. split; [apply ReplaceFacts.prefix_app|]. split; [reflexivity|].
  unfold Py.replace.
  pose proof (ReplaceFacts.replace_from_at "m" "s-" "" "" ct_id eq_refl) as E.
  cbn [append] in E |- *. rewrite E. apply replace_unchanged.
Qed.

Lemma component_id_read_back_witness :
  Py.has_char "}" "abc123" = false /\
  Py.replace "ms-" "" (ET.strip_namespace (clark SDC4_NS ("ms-" ++ "abc123"))) = "abc123".
Proof.
  split; [reflexivity|].
  apply (component_id_read_back "abc123" eq_refl). reflexivity.
Defined.

End TagFacts.

(* ------------------------------------------------------------------ *)
(** *** The counts of a bulk import *)
(* ------------------------------------------------------------------ *)

Module BulkFacts.
Import BulkImport Notions.

Section Facts.
Context {Path datetime : Type}.
Variable _process_single_file : Path -> ImportResult.

Lemma loop_counts (xml_files : list Path) :
  forall result : BulkImportResult datetime,
    let result' := fold_left (process_step _process_single_file) xml_files result in
    total_files result' = total_files result /\
    results result' = results result ++ map _process_single_file xml_files /\
    successful result' + failed result' =
      successful result + failed result + List.length xml_files /\
    failed result' =
      failed result +
      List.length (filter (fun r => negb (success r))
                     (map _process_single_file xml_files)).
Proof.
  induction xml_files as [|f l IH]; intros result.
  - cbn. rewrite app_nil_r. repeat split; lia.
  - cbn [fold_left]. cbv zeta in IH |- *.
    destruct (IH (process_step _process_single_file result f)) as (H1 & H2 & H3 & H4).
    rewrite H1, H2, H3, H4. clear IH H1 H2 H3 H4.
    unfold process_step. cbn [total_files results failed successful].
    rewrite <- app_assoc. cbn [map filter app List.length].
    destruct (success (_process_single_file f)); cbn [negb List.length];
      repeat split; lia.
Qed.

Lemma files_counts (started completed : datetime) (xml_files : list Path) :
  let r := _process_files _process_single_file started completed xml_files in
  total_files r = List.length xml_files /\
  results r = map _process_single_file xml_files /\
  successful r + failed r = List.length xml_files /\
  failed r = List.length (get_failures r).
Proof.
  cbv zeta. unfold _process_files, get_failures.
  cbn [total_files results successful failed].
  match goal with
  | |- context [fold_left _ _ ?r0] =>
      destruct (loop_counts xml_files r0) as (H1 & H2 & H3 & H4)
  end.
  rewrite H1, H2, H4. cbn [total_files results successful failed app] in *.
  repeat split; lia.
Qed.

Variable path_exists : string -> bool.
Variable glob_xml : string -> list Path.
Variable extract_xml : string -> option (list Path).

Lemma files_counted (started completed : datetime) (xml_files : list Path) :
  counted (_process_files _process_single_file started completed xml_files).
Proof.
  destruct (files_counts started completed xml_files) as (H1 & H2 & H3 & H4).
  unfold counted. split; [rewrite H2, length_map; exact H3|].
  split; [exact H4|]. left. rewrite H2, length_map. exact H1.
Qed.

Lemma not_read_counted (name message : string) :
  counted (@not_read datetime name message).
Proof. unfold counted. cbn. repeat split. right. repeat split. Qed.

(** X18.  In the result of a bulk import of a directory or of an archive
    the successes and the failures add up to the number of results, the
    failures are as many as [get_failures] returns, and the number of
    files is the number of results, unless the directory or the archive
    could not be read: then it is 0, with one failure. *)
Theorem import_counts (started completed : datetime) (path : string) :
  counted (process_directory _process_single_file path_exists glob_xml
             started completed path) /\
  counted (process_zipfile _process_single_file path_exists extract_xml
             started completed path).
Proof.
  unfold process_directory, process_zipfile.
  destruct (path_exists path); cbn [negb].
  - split; [apply files_counted|].
    destruct (extract_xml path); [apply files_counted|apply not_read_counted].
  - split; apply not_read_counted.
Qed.

End Facts.

End BulkFacts.
